(** * Block documentation generator and relative static crop

    A shallow embedding of [development/docs/build_block_docs.py] (the
    schema-driven documentation generator) and of [take_static_crop] from
    [relative_static_crop.py], with the properties stated about them.

    Python values are modelled with their dynamic typing: an operator
    applied to a value of the wrong type raises the exception Python
    raises.  Strings are taken to be ASCII text, floats are IEEE 754
    binary64 numbers, and the order in which a set yields its elements is
    a parameter of the formatter. *)

From Stdlib Require Import ZArith List Ascii String Bool Lia Permutation Sorted.
From Stdlib Require Import Floats.SpecFloat.
From stdpp Require Import gmap strings pretty.
Import ListNotations.

Set Warnings "-register-all,-clear-no-such-hyp".
Open Scope string_scope.
Open Scope list_scope.

(** ** Python runtime values and exceptions *)

Module Py.

(** The exceptions the modelled code can raise.  [Exception_] is the bare
    [Exception(msg)] raised by the script itself. *)
Inductive exn : Type :=
| KeyError
| TypeError
| AttributeError
| IndexError
| ValueError
| OverflowError
| RecursionError
| FileNotFoundError
| IsADirectoryError
| NotADirectoryError
| Exception_ (msg : string).

Inductive result (A : Type) : Type :=
| Ok (a : A)
| Raise (e : exn).

Arguments Ok {A} a.
Arguments Raise {A} e.

Definition bind {A B : Type} (m : result A) (k : A -> result B) : result B :=
  match m with
  | Ok a => k a
  | Raise e => Raise e
  end.

Definition raises {A : Type} (m : result A) : bool :=
  match m with
  | Ok _ => false
  | Raise _ => true
  end.

(** Python floats are IEEE 754 binary64 numbers, rounded to nearest even. *)
Definition prec : Z := 53.
Definition emax : Z := 1024.

(** [float(n)] for an [int]: the nearest float, [OverflowError] beyond the
    range. *)
Definition float_of_int (n : Z) : result spec_float :=
  match binary_normalize prec emax n 0 false with
  | S754_infinity _ => Raise OverflowError
  | f => Ok f
  end.

(** A schema is a JSON document as Python holds it after parsing: [None],
    [bool], [int], [float], [str], [list] and [dict].  A dict is kept as its
    items in insertion order (the order [dict.items()] yields them), with
    one item per key.  A [str] is kept as the characters of ASCII text. *)
Inductive json : Type :=
| JNull
| JBool (b : bool)
| JNum (n : Z)
| JFloat (x : spec_float)
| JStr (s : string)
| JList (l : list json)
| JDict (items : list (string * json)).

(** *** Strings *)

Fixpoint is_prefix (p s : string) : bool :=
  match p, s with
  | EmptyString, _ => true
  | String a p', String b s' => if Ascii.eqb a b then is_prefix p' s' else false
  | String _ _, EmptyString => false
  end.

(** [needle in hay] on two [str]. *)
Fixpoint str_contains (needle hay : string) : bool :=
  if is_prefix needle hay then true
  else match hay with
       | EmptyString => false
       | String _ hay' => str_contains needle hay'
       end.

(** [s.split(sep)] for a one-character separator: never the empty list. *)
Fixpoint split_on (sep : ascii) (s : string) : list string :=
  match s with
  | EmptyString => [EmptyString]
  | String c s' =>
      if Ascii.eqb c sep then EmptyString :: split_on sep s'
      else match split_on sep s' with
           | [] => [String c EmptyString]
           | w :: ws => String c w :: ws
           end
  end.

(** [l[-1]] *)
Definition last_item {A : Type} (l : list A) : result A :=
  match rev l with
  | [] => Raise IndexError
  | x :: _ => Ok x
  end.

(** [sep.join(l)] *)
Definition join (sep : string) (l : list string) : string := String.concat sep l.

Definition chars (s : string) : list string :=
  map (fun c => String c EmptyString) (list_ascii_of_string s).

(** *** Dictionaries and the dynamically typed operators *)

Fixpoint dict_lookup {V : Type} (k : string) (items : list (string * V)) : option V :=
  match items with
  | [] => None
  | (k', v) :: rest => if String.eqb k k' then Some v else dict_lookup k rest
  end.

Definition dict_has {V : Type} (k : string) (items : list (string * V)) : bool :=
  match dict_lookup k items with
  | Some _ => true
  | None => false
  end.

(** [v == s] for a [str] literal [s]. *)
Definition eq_str (v : json) (s : string) : bool :=
  match v with
  | JStr s' => String.eqb s' s
  | _ => false
  end.

(** [k in v] for a [str] [k]: key membership on a dict, element membership
    on a list, substring test on a str, [TypeError] otherwise. *)
Definition contains (k : string) (v : json) : result bool :=
  match v with
  | JDict items => Ok (dict_has k items)
  | JList l => Ok (existsb (fun e => eq_str e k) l)
  | JStr s => Ok (str_contains k s)
  | JNull | JBool _ | JNum _ | JFloat _ => Raise TypeError
  end.

(** [v[k]] for a [str] [k]. *)
Definition getitem (v : json) (k : string) : result json :=
  match v with
  | JDict items =>
      match dict_lookup k items with
      | Some x => Ok x
      | None => Raise KeyError
      end
  | _ => Raise TypeError
  end.

(** [v.get(k, default)]: only a dict has the method. *)
Definition get (v : json) (k : string) (default : json) : result json :=
  match v with
  | JDict items =>
      match dict_lookup k items with
      | Some x => Ok x
      | None => Ok default
      end
  | _ => Raise AttributeError
  end.

(** [v.items()] *)
Definition items_of (v : json) : result (list (string * json)) :=
  match v with
  | JDict items => Ok items
  | _ => Raise AttributeError
  end.

(** [len(v)] *)
Definition len (v : json) : result nat :=
  match v with
  | JDict items => Ok (List.length items)
  | JList l => Ok (List.length l)
  | JStr s => Ok (String.length s)
  | JNull | JBool _ | JNum _ | JFloat _ => Raise TypeError
  end.

(** [for e in v] *)
Definition iter (v : json) : result (list json) :=
  match v with
  | JList l => Ok l
  | JStr s => Ok (map JStr (chars s))
  | JDict items => Ok (map (fun kv => JStr (fst kv)) items)
  | JNull | JBool _ | JNum _ | JFloat _ => Raise TypeError
  end.

(** A number: an [int] (a [bool] counts as one) or a [float]. *)
Definition as_number (v : json) : option (Z + spec_float) :=
  match v with
  | JNum n => Some (inl n)
  | JBool b => Some (inl (if b then 1 else 0)%Z)
  | JFloat x => Some (inr x)
  | _ => None
  end.

Definition as_float (n : Z + spec_float) : result spec_float :=
  match n with
  | inl i => float_of_int i
  | inr x => Ok x
  end.

(** [a + b]: lists and strings are concatenated, numbers are added (as
    floats when one of them is a float). *)
Definition add (a b : json) : result json :=
  match a, b with
  | JList l1, JList l2 => Ok (JList (l1 ++ l2))
  | JStr s1, JStr s2 => Ok (JStr (s1 ++ s2))
  | _, _ =>
      match as_number a, as_number b with
      | Some (inl x), Some (inl y) => Ok (JNum (x + y))
      | Some x, Some y =>
          match as_float x with
          | Raise e => Raise e
          | Ok fx =>
              match as_float y with
              | Raise e => Raise e
              | Ok fy => Ok (JFloat (SFadd prec emax fx fy))
              end
          end
      | _, _ => Raise TypeError
      end
  end.

(** [v.split(sep)[-1]]: only a str has [split]. *)
Definition split_last (v : json) (sep : ascii) : result string :=
  match v with
  | JStr s => last_item (split_on sep s)
  | _ => Raise AttributeError
  end.

(** [v in table] for a table with [str] keys: a list or a dict cannot be
    hashed. *)
Definition in_table {V : Type} (v : json) (table : list (string * V)) : result bool :=
  match v with
  | JStr s => Ok (dict_has s table)
  | JList _ | JDict _ => Raise TypeError
  | JNull | JBool _ | JNum _ | JFloat _ => Ok false
  end.

(** [table[v]] for a table with [str] keys. *)
Definition table_getitem {V : Type} (table : list (string * V)) (v : json) : result V :=
  match v with
  | JStr s =>
      match dict_lookup s table with
      | Some x => Ok x
      | None => Raise KeyError
      end
  | JList _ | JDict _ => Raise TypeError
  | JNull | JBool _ | JNum _ | JFloat _ => Raise KeyError
  end.

End Py.

Import Py.

Declare Scope py_scope.
Delimit Scope py_scope with py.
Notation "'let*' x ':=' m 'in' k" := (bind m (fun x => k))
  (at level 10, x pattern, m at level 100, k at level 200) : py_scope.
Open Scope py_scope.

(** ** The schema formatter of [build_block_docs.py] *)

Definition TYPE_MAPPING : list (string * string) :=
  [ ("number", "float");
    ("integer", "int");
    ("boolean", "bool");
    ("string", "str");
    ("null", "None") ].

(** What [create_array_typing] hands back: the pair of its [return]
    statements, or [None] when control falls off the end of the body. *)
Inductive array_typing : Type :=
| ReturnedNone
| ReturnedPair (t_name : string) (ref_appears : bool).

Definition hex_digit (n : nat) : ascii :=
  nth n (list_ascii_of_string "0123456789abcdef") "0"%char.

(** [repr] of a str, as it shows inside the [str()] of a tuple, a list or
    a dict: quoted, with the backslash, the quote and the control
    characters escaped. *)
Definition repr_char (quote : ascii) (c : ascii) : string :=
  let n := nat_of_ascii c in
  if Ascii.eqb c "\"%char then "\\"
  else if Ascii.eqb c quote then String "\"%char (String c EmptyString)
  else if (n =? 9)%nat then "\t"
  else if (n =? 10)%nat then "\n"
  else if (n =? 13)%nat then "\r"
  else if (n <? 32)%nat || (n =? 127)%nat then
    String "\"%char (String "x"%char
      (String (hex_digit (n / 16)) (String (hex_digit (n mod 16)) EmptyString)))
  else String c EmptyString.

Definition repr_str (s : string) : string :=
  let quote :=
    if str_contains "'" s && negb (str_contains (String (ascii_of_nat 34) EmptyString) s)
    then ascii_of_nat 34 else "'"%char in
  String quote
    (String.concat EmptyString (map (repr_char quote) (list_ascii_of_string s))
     +:+ String quote EmptyString).

(** [str(r)], which is what an f-string does to a replacement field. *)
Definition str_of_array_typing (r : array_typing) : string :=
  match r with
  | ReturnedNone => "None"
  | ReturnedPair t_name ref_appears =>
      "(" +:+ repr_str t_name +:+ ", " +:+ (if ref_appears then "True" else "False") +:+ ")"
  end.

(** [t_name, ref_appears = r] *)
Definition unpack_pair (r : array_typing) : result (string * bool) :=
  match r with
  | ReturnedPair t_name ref_appears => Ok (t_name, ref_appears)
  | ReturnedNone => Raise TypeError
  end.

(** [v is True] *)
Definition is_True (v : json) : bool :=
  match v with
  | JBool true => true
  | _ => false
  end.

(** The body of [create_array_typing], lines 142-158, with [self] for the
    call the function makes to itself on [array_definition["items"]["type"]]. *)
Definition create_array_typing_body (self : json -> result array_typing)
    (array_definition : json) : result array_typing :=
  let* unique := get array_definition "uniqueItems" (JBool false) in
  let high_level_type := if is_True unique then "Set" else "List" in
  let* items := getitem array_definition "items" in
  let* n := len items in
  if (n =? 0)%nat then Ok (ReturnedPair (high_level_type +:+ "[Any]") false)
  else
    let* has_type := contains "type" items in
    if has_type then
      let* has_reference := contains "reference" items in
      let ref_appears := if has_reference then true else false in
      let* ty := getitem items "type" in
      let* is_ref := contains "$ref" ty in
      let* t_name :=
        (if is_ref then
           let* target := getitem ty "$ref" in
           split_last target "/"
         else
           let* known := in_table ty TYPE_MAPPING in
           if known then table_getitem TYPE_MAPPING ty
           else if eq_str ty "array" then
             let* nested := self ty in
             Ok (str_of_array_typing nested)
           else Ok "unknown") in
      Ok (ReturnedPair (high_level_type +:+ "[" +:+ t_name +:+ "]") ref_appears)
    else Ok ReturnedNone.

(** The recursion, its depth bounded by [fuel];
    [create_array_typing_fuel_enough] below shows that two levels always
    suffice, which is what [create_array_typing] runs with. *)
Fixpoint create_array_typing_fuel (fuel : nat) (array_definition : json)
  : result array_typing :=
  match fuel with
  | O => Raise RecursionError
  | S fuel' => create_array_typing_body (create_array_typing_fuel fuel') array_definition
  end.

Definition create_array_typing (array_definition : json) : result array_typing :=
  create_array_typing_fuel 2 array_definition.

(** An element of [global_result].  Line 105 builds a three-component tuple
    (its closing parenthesis sits after [ref_appears]); every other append
    builds the four-component one. *)
Inductive row : Type :=
| Row4 (name : string) (display_type : string) (description : json) (references_block : bool)
| Row3 (name : string) (display_type : string) (description : json).

(** [d.get(k, default, extra)]: [dict.get] takes at most two arguments. *)
Definition get_3 (v : json) (k : string) (default extra : json) : result json :=
  match v with
  | JDict _ => Raise TypeError
  | _ => Raise AttributeError
  end.

(** [set(l)], kept as its elements in first-insertion order. *)
Fixpoint set_of_list (seen l : list string) : list string :=
  match l with
  | [] => seen
  | x :: l' =>
      if existsb (String.eqb x) seen then set_of_list seen l'
      else set_of_list (seen ++ [x]) l'
  end.

Definition set_remove (x : string) (s : list string) : list string :=
  filter (fun y => negb (String.eqb y x)) s.

(** [[e for e in x if "reference" not in e]] *)
Fixpoint without_reference (x : list json) : result (list json) :=
  match x with
  | [] => Ok []
  | e :: x' =>
      let* c := contains "reference" e in
      let* rest := without_reference x' in
      Ok (if c then rest else e :: rest)
  end.

(** One turn of the loop of lines 116-126: the name appended to [result]
    and the updated [ref_appears]. *)
Definition resolve_branch (t : json) (ref_appears : bool) : result (string * bool) :=
  let* is_ref := contains "$ref" t in
  if is_ref then
    let* target := getitem t "$ref" in
    let* t_name := split_last target "/" in
    Ok (t_name, ref_appears)
  else
    let* ty := getitem t "type" in
    let* known := in_table ty TYPE_MAPPING in
    if known then
      let* t_name := table_getitem TYPE_MAPPING ty in
      Ok (t_name, ref_appears)
    else if eq_str ty "array" then
      let* nested := create_array_typing t in
      let* (t_name, ref_appears_nested) := unpack_pair nested in
      Ok (t_name, ref_appears || ref_appears_nested)
    else Ok ("unknown", ref_appears).

Fixpoint resolve_branches (primitive_types : list json) (result_ : list string)
    (ref_appears : bool) : result (list string * bool) :=
  match primitive_types with
  | [] => Ok (result_, ref_appears)
  | t :: rest =>
      let* (t_name, ref_appears') := resolve_branch t ref_appears in
      resolve_branches rest (result_ ++ [t_name]) ref_appears'
  end.

(** Lines 108-110: the concatenation [x] of the three branch lists. *)
Definition union_operands (property_definition : json) : result json :=
  let* any_of := get property_definition "anyOf" (JList []) in
  let* one_of := get property_definition "oneOf" (JList []) in
  let* both := add any_of one_of in
  let* all_of := get property_definition "allOf" (JList []) in
  add both all_of.

(** Lines 127-132: the wrapper and the set of names left to join. *)
Definition optional_or_union (names : list string) : string * list string :=
  let result_ := set_of_list [] names in
  if existsb (String.eqb "None") result_
  then ("Optional", set_remove "None" result_)
  else ("Union", result_).

(** The names left in [result] when line 133 joins them: the resolved
    names of the non-reference branches, deduplicated, without ["None"]. *)
Definition remaining_names (property_definition : json) : result (list string) :=
  let* x := union_operands property_definition in
  let* elements := iter x in
  let* primitive_types := without_reference elements in
  let* (names, _) := resolve_branches primitive_types [] false in
  Ok (snd (optional_or_union names)).

Section Formatter.

(** The order in which [list(s)] yields the elements of a set of strings.
    CPython derives it from the strings' hashes, which are salted per
    process; all the code may rely on is that every element comes out
    once. *)
Variable set_iter : list string -> list string.

(** Lines 107-136: the [anyOf]/[oneOf]/[allOf] case of [format_inputs]. *)
Definition format_union (property_name : string) (property_definition : json)
  : result (option row) :=
  let* x := union_operands property_definition in
  let* elements := iter x in
  let* primitive_types := without_reference elements in
  if (List.length primitive_types =? 0)%nat then Ok None
  else
    let* len_x := len x in
    let ref_appears := negb (List.length primitive_types =? len_x)%nat in
    let* (names, ref_appears) := resolve_branches primitive_types [] ref_appears in
    let (high_level_type, result_) := optional_or_union names in
    let result_str := join ", " (set_iter result_) in
    let result_str :=
      if (1 <? List.length primitive_types)%nat
      then high_level_type +:+ "[" +:+ result_str +:+ "]"
      else result_str in
    let* description := get property_definition "description" (JStr "not available") in
    Ok (Some (Row4 property_name result_str description ref_appears)).

(** The body of the loop of [format_inputs], lines 95-138: [None] when the
    property is skipped, the appended row otherwise. *)
Definition format_property (property_name : string) (property_definition : json)
  : result (option row) :=
  if String.eqb property_name "type" then Ok None
  else
    let* ty := get property_definition "type" JNull in
    let* primitive := in_table ty TYPE_MAPPING in
    if primitive then
      let* ty' := getitem property_definition "type" in
      let* result_ := table_getitem TYPE_MAPPING ty' in
      let* description := get property_definition "description" (JStr "not available") in
      Ok (Some (Row4 property_name result_ description false))
    else
      let* has_items := contains "items" property_definition in
      if has_items then
        let* items := getitem property_definition "items" in
        let* marked := contains "reference" items in
        if marked then Ok None
        else
          let* typing := create_array_typing items in
          let* (t_name, ref_appears) := unpack_pair typing in
          let* description := get_3 property_definition "description"
                                (JStr "not available") (JBool ref_appears) in
          Ok (Some (Row3 property_name t_name description))
      else
        let* any_of := contains "anyOf" property_definition in
        let* one_of := (if any_of then Ok true else contains "oneOf" property_definition) in
        let* all_of := (if one_of then Ok true else contains "allOf" property_definition) in
        if all_of then
          let* appended := format_union property_name property_definition in
          match appended with
          | None => Ok None
          | Some r =>
              let* _ := contains "reference" property_definition in
              Ok (Some r)
          end
        else
          let* _ := contains "reference" property_definition in
          Ok None.

Fixpoint format_properties (properties : list (string * json)) (global_result : list row)
  : result (list row) :=
  match properties with
  | [] => Ok global_result
  | (property_name, property_definition) :: rest =>
      let* appended := format_property property_name property_definition in
      match appended with
      | None => format_properties rest global_result
      | Some r => format_properties rest (global_result ++ [r])
      end
  end.

(** [format_inputs], lines 91-139. *)
Definition format_inputs (block_definition : json) : result (list row) :=
  let* properties := getitem block_definition "properties" in
  let* items := items_of properties in
  format_properties items [].

End Formatter.

(** ** Rendering: [str()] of schema values and the markdown tables *)

Definition nl : string := String (ascii_of_nat 10) EmptyString.
Definition dq : string := String (ascii_of_nat 34) EmptyString.

Definition str_bool (b : bool) : string := if b then "True" else "False".

Definition USER_CONFIGURATION_HEADER : list string :=
  [ "| **Name** | **Type** | **Description** | **Parameterizable** |";
    "|:---------|:---------|:----------------|:--------------------|" ].

Definition BLOCK_OUTPUTS_HEADER : list string :=
  [ "| **Name** | **Kind** | **Description** |";
    "|:---------|:---------|:----------------|" ].

(** [BLOCK_DOCUMENTATION_TEMPLATE.format(...)] *)
Definition BLOCK_DOCUMENTATION_TEMPLATE
    (class_name description block_inputs block_outputs : string) : string :=
  nl +:+ "# " +:+ class_name +:+ nl +:+
  nl +:+ description +:+ nl +:+
  nl +:+ "## User Configuration" +:+ nl +:+
  nl +:+ block_inputs +:+ nl +:+
  nl +:+ "## Input Bindings" +:+ nl +:+
  nl +:+ "| **Name** | **Kind** | **Description** |" +:+ nl +:+
  "|:---------|:---------|:----------------|" +:+ nl +:+
  nl +:+ "## Output Bindings" +:+ nl +:+
  nl +:+ block_outputs +:+ nl.

(** [BLOCK_CARD_TEMPLATE.format(...)] *)
Definition BLOCK_CARD_TEMPLATE
    (data_url data_name data_desc data_labels data_authors : string) : string :=
  "<p class=" +:+ dq +:+ "card block-card" +:+ dq +:+
  " data-url=" +:+ dq +:+ data_url +:+ dq +:+
  " data-name=" +:+ dq +:+ data_name +:+ dq +:+
  " data-desc=" +:+ dq +:+ data_desc +:+ dq +:+
  " data-labels=" +:+ dq +:+ data_labels +:+ dq +:+
  " data-author=" +:+ dq +:+ data_authors +:+ dq +:+ "></p>".

Section Rendering.

(** [repr(x)] of a float, which is the interpreter's. *)
Variable repr_float : spec_float -> string.

(** [repr(v)] *)
Fixpoint repr_json (v : json) : string :=
  match v with
  | JNull => "None"
  | JBool b => if b then "True" else "False"
  | JNum n => pretty n
  | JFloat x => repr_float x
  | JStr s => repr_str s
  | JList l => "[" +:+ join ", " (map repr_json l) +:+ "]"
  | JDict items =>
      "{" +:+ join ", " (map (fun kv => match kv with
                                         | (k, x) => repr_str k +:+ ": " +:+ repr_json x
                                         end) items) +:+ "}"
  end.

(** [str(v)], which is what [str.format] and f-strings apply to a field. *)
Definition str_json (v : json) : string :=
  match v with
  | JStr s => s
  | _ => repr_json v
  end.

(** The [for name, kind, description, ref_appear in data] loop of
    [format_block_inputs]: unpacking a three-component tuple into four
    names is a [ValueError]. *)
Fixpoint input_rows (data : list row) : result (list string) :=
  match data with
  | [] => Ok []
  | Row4 name kind description ref_appear :: rest =>
      let* rows := input_rows rest in
      Ok (("| `" +:+ name +:+ "` | `" +:+ kind +:+ "` | " +:+ str_json description
           +:+ ". | " +:+ str_bool ref_appear +:+ " |") :: rows)
  | Row3 _ _ _ :: _ => Raise ValueError
  end.

End Rendering.

(** The descriptors the block registry hands out ([OutputDefinition] and
    its kinds are declared outside this file of the generator). *)
Record Kind : Type := { kind_name : string; kind_description : string }.
Record OutputDefinition : Type := { output_name : string; output_kind : list Kind }.
Record BlockDescription : Type := {
  fully_qualified_class_name : string;
  block_manifest : json;
  outputs_manifest : list OutputDefinition
}.

Definition output_row (output : OutputDefinition) : string :=
  match output_kind output with
  | [k] =>
      "| `" +:+ output_name output +:+ "` | `" +:+ kind_name k +:+ "` | "
      +:+ kind_description k +:+ ". |"
  | kinds =>
      let kind := join ", " (map kind_name kinds) in
      let description :=
        join " or " (map (fun k => kind_description k +:+ " if `" +:+ kind_name k +:+ "`") kinds) in
      "| `" +:+ output_name output +:+ "` | `Union[" +:+ kind +:+ "]` | " +:+ description +:+ ". |"
  end.

(** [format_block_outputs], lines 170-183. *)
Definition format_block_outputs (outputs : list OutputDefinition) : string :=
  join nl (BLOCK_OUTPUTS_HEADER ++ map output_row outputs).

(** ** Names: [camel_to_snake], [block_class_name_to_block_title] *)

Definition is_upper (c : ascii) : bool :=
  let n := nat_of_ascii c in (65 <=? n)%nat && (n <=? 90)%nat.
Definition is_lower (c : ascii) : bool :=
  let n := nat_of_ascii c in (97 <=? n)%nat && (n <=? 122)%nat.
Definition is_digit (c : ascii) : bool :=
  let n := nat_of_ascii c in (48 <=? n)%nat && (n <=? 57)%nat.
Definition is_newline (c : ascii) : bool := (nat_of_ascii c =? 10)%nat.

(** [c.lower()] for a character below 256: the capitals A-Z and, beyond
    ASCII, those of Latin-1 (192-222 but the multiplication sign, 215) lie
    32 below their small letters; no other character changes. *)
Definition is_latin1_capital (c : ascii) : bool :=
  let n := nat_of_ascii c in (192 <=? n)%nat && (n <=? 222)%nat && negb (n =? 215)%nat.

Definition to_lower (c : ascii) : ascii :=
  if is_upper c || is_latin1_capital c then ascii_of_nat (nat_of_ascii c + 32) else c.
Definition to_upper (c : ascii) : ascii :=
  if is_lower c then ascii_of_nat (nat_of_ascii c - 32) else c.

Fixpoint map_string (f : ascii -> ascii) (s : string) : string :=
  match s with
  | EmptyString => EmptyString
  | String c s' => String (f c) (map_string f s')
  end.

(** [s.lower()] and [s.upper()] *)
Definition lower (s : string) : string := map_string to_lower s.
Definition upper (s : string) : string := map_string to_upper s.

(** Length of the longest prefix whose characters all satisfy [p]. *)
Fixpoint run_length (p : ascii -> bool) (l : list ascii) : nat :=
  match l with
  | c :: l' => if p c then S (run_length p l') else 0
  | [] => 0
  end.

(** [re.sub('(.)([A-Z][a-z]+)', r'\1_\2', name)].  [copy] counts the
    characters of the current match still to be copied: no new match
    starts inside a match. *)
Fixpoint sub_word_boundary (copy : nat) (l : list ascii) : list ascii :=
  match l with
  | [] => []
  | c :: rest =>
      match copy with
      | S n => c :: sub_word_boundary n rest
      | O =>
          match rest with
          | u :: after =>
              let run := run_length is_lower after in
              if negb (is_newline c) && is_upper u && (1 <=? run)%nat
              then c :: "_"%char :: sub_word_boundary (S run) rest
              else c :: sub_word_boundary 0 rest
          | [] => [c]
          end
      end
  end.

(** [re.sub('([a-z0-9])([A-Z])', r'\1_\2', name)] *)
Fixpoint sub_case_boundary (copy : nat) (l : list ascii) : list ascii :=
  match l with
  | [] => []
  | c :: rest =>
      match copy with
      | S n => c :: sub_case_boundary n rest
      | O =>
          match rest with
          | u :: _ =>
              if (is_lower c || is_digit c) && is_upper u
              then c :: "_"%char :: sub_case_boundary 1 rest
              else c :: sub_case_boundary 0 rest
          | [] => [c]
          end
      end
  end.

(** [camel_to_snake], lines 67-70. *)
Definition camel_to_snake (name : string) : string :=
  let name := sub_word_boundary 0 (list_ascii_of_string name) in
  let name := sub_case_boundary 0 name in
  lower (string_of_list_ascii name).

(** Whether [$] matches in front of [l]: at the end of the string, or
    before a newline that ends it. *)
Definition at_end (l : list ascii) : bool :=
  match l with
  | [] => true
  | [c] => is_newline c
  | _ => false
  end.

(** Length of the match of [[A-Z](?:[a-z]+|[A-Z]*(?=[A-Z]|$))] at the head
    of [l], if there is one. *)
Definition word_at (l : list ascii) : option nat :=
  match l with
  | c :: rest =>
      if is_upper c then
        let low := run_length is_lower rest in
        if (1 <=? low)%nat then Some (S low)
        else
          let up := run_length is_upper rest in
          if at_end (skipn up rest) then Some (S up)
          else match up with
               | S up' => Some (S up')
               | O => None
               end
      else None
  | [] => None
  end.

(** [re.findall(r'[A-Z](?:[a-z]+|[A-Z]*(?=[A-Z]|$))', name)]; [skip]
    counts the characters of the last match still to be passed over. *)
Fixpoint findall_words (skip : nat) (l : list ascii) : list string :=
  match l with
  | [] => []
  | c :: rest =>
      match skip with
      | S n => findall_words n rest
      | O =>
          match word_at l with
          | Some w => string_of_list_ascii (firstn w l) :: findall_words (w - 1) rest
          | None => findall_words 0 rest
          end
      end
  end.

(** [block_class_name_to_block_title], lines 73-79. *)
Definition block_class_name_to_block_title (name : string) : result string :=
  let words := findall_words 0 (list_ascii_of_string name) in
  let* last_word := last_item words in
  let words := if String.eqb last_word "Block" then removelast words else words in
  Ok (join " " words).

(** [get_class_name], lines 186-187. *)
Definition get_class_name (fully_qualified_name : string) : result string :=
  last_item (split_on "."%char fully_qualified_name).


(** ** Files *)

(** The part of the file system the script touches: the directories and
    the regular files with their text, by path.  A file system is a tree:
    what has a listed file or directory below it is a directory, and so is
    the root.  Paths are taken as the script spells them, in canonical
    spelling: two spellings of one file (a doubled slash, a [.] or [..]
    component, a link) are not identified; permissions are not modelled. *)
Record fs : Type := { dirs : gset string; files : gmap string string }.

Definition starts_with_slash (s : string) : bool :=
  match s with
  | String c _ => Ascii.eqb c "/"%char
  | EmptyString => false
  end.

Fixpoint ends_with_slash (s : string) : bool :=
  match s with
  | EmptyString => false
  | String c EmptyString => Ascii.eqb c "/"%char
  | String _ s' => ends_with_slash s'
  end.

(** [os.path.join(a, b)] on a POSIX system *)
Definition path_join (a b : string) : string :=
  if starts_with_slash b then b
  else if String.eqb a EmptyString || ends_with_slash a then a +:+ b
  else a +:+ "/" +:+ b.

(** [str.isspace] on the characters of ASCII text *)
Definition is_space (c : ascii) : bool :=
  let n := nat_of_ascii c in
  ((9 <=? n)%nat && (n <=? 13)%nat) || ((28 <=? n)%nat && (n <=? 32)%nat).

(** [line.rstrip()] *)
Fixpoint rstrip (s : string) : string :=
  match s with
  | EmptyString => EmptyString
  | String c s' =>
      match rstrip s' with
      | EmptyString => if is_space c then EmptyString else String c EmptyString
      | t => String c t
      end
  end.

(** Text-mode reading translates [\r\n] and a lone [\r] to [\n]. *)
Fixpoint universal_newlines (s : string) : string :=
  match s with
  | EmptyString => EmptyString
  | String c s' =>
      if (nat_of_ascii c =? 13)%nat then
        match s' with
        | String c' s'' =>
            if is_newline c' then universal_newlines s'
            else String (ascii_of_nat 10) (universal_newlines s')
        | EmptyString => nl
        end
      else String c (universal_newlines s')
  end.

(** The lines of a text whose newlines have been translated, without
    their terminators: every [\n] ends a line, and what follows the last
    one is a line too unless it is empty. *)
Fixpoint text_lines (s : string) : list string :=
  match s with
  | EmptyString => []
  | String c s' =>
      if is_newline c then EmptyString :: text_lines s'
      else match text_lines s' with
           | [] => [String c EmptyString]
           | line :: rest => String c line :: rest
           end
  end.

(** The lines a text file iterates over, without their terminators. *)
Definition file_lines (content : string) : list string :=
  text_lines (universal_newlines content).

(** *** Paths *)

Definition is_slash (c : ascii) : bool := Ascii.eqb c "/"%char.

(** [head.rstrip('/')] *)
Fixpoint rstrip_slashes (s : string) : string :=
  match s with
  | EmptyString => EmptyString
  | String c s' =>
      match rstrip_slashes s' with
      | EmptyString => if is_slash c then EmptyString else String c EmptyString
      | t => String c t
      end
  end.

(** The head [posixpath.split] gives for what comes before a name: without
    its trailing slashes, unless it is made of slashes only. *)
Definition split_head (h : string) : string :=
  match rstrip_slashes h with
  | EmptyString => h
  | t => t
  end.

(** The directories above [p], from the root down: for every slash of
    [p], the head of what ends there.  [seen] is what was read so far. *)
Fixpoint ancestors_from (seen p : string) : list string :=
  match p with
  | EmptyString => []
  | String c p' =>
      let seen := seen +:+ String c EmptyString in
      if is_slash c then split_head seen :: ancestors_from seen p'
      else ancestors_from seen p'
  end.

Definition ancestors (p : string) : list string := ancestors_from EmptyString p.

(** The root: slashes only. *)
Definition is_root (p : string) : bool :=
  match p with
  | EmptyString => false
  | _ => forallb is_slash (list_ascii_of_string p)
  end.

(** *** What is at a path *)

(** The files and directories the state lists. *)
Definition listed (st : fs) : list string := elements (dirs st ∪ dom (files st)).

Definition is_above (p q : string) : bool := existsb (String.eqb p) (ancestors q).

(** [os.path.isdir(p)]: the root, a listed directory, or what lies above
    something listed. *)
Definition is_directory (st : fs) (p : string) : bool :=
  is_root p || bool_decide (p ∈ dirs st) || existsb (is_above p) (listed st).

Definition is_file (st : fs) (p : string) : bool := bool_decide (is_Some (files st !! p)).

(** [os.path.exists(p)] *)
Definition path_exists (st : fs) (p : string) : bool := is_directory st p || is_file st p.

(** What stops the way down to a path, at one of the directories above
    it: a regular file where a directory has to be ([ENOTDIR]), or nothing
    at all ([ENOENT]). *)
Fixpoint first_obstacle (st : fs) (above : list string) : option exn :=
  match above with
  | [] => None
  | a :: rest =>
      if is_directory st a then first_obstacle st rest
      else if is_file st a then Some NotADirectoryError
      else Some FileNotFoundError
  end.

(** [open(path)] on what is not a regular file *)
Definition cannot_read (path : string) (st : fs) : exn :=
  if is_directory st path then IsADirectoryError
  else match first_obstacle st (ancestors path) with
       | Some e => e
       | None => FileNotFoundError
       end.

(** [read_lines_from_file], lines 48-50. *)
Definition read_lines_from_file (path : string) (st : fs) : result (list string) :=
  match files st !! path with
  | Some content => Ok (map rstrip (file_lines content))
  | None => Raise (cannot_read path st)
  end.

(** [open(path, "w")]: a regular file is opened (and emptied); a new file
    needs the directory it goes to; a directory cannot be opened, nor a
    path that ends in a slash. *)
Definition open_for_writing (path : string) (st : fs) : result unit :=
  if ends_with_slash path then Raise IsADirectoryError
  else
    match files st !! path with
    | Some _ => Ok tt
    | None =>
        if is_directory st path then Raise IsADirectoryError
        else match first_obstacle st (ancestors path) with
             | Some e => Raise e
             | None => if String.eqb path EmptyString then Raise FileNotFoundError else Ok tt
             end
    end.

(** [with open(path, "w") as f: f.write(content)]: the outcome and the file
    system left. *)
Definition write_file (path content : string) (st : fs) : result unit * fs :=
  match open_for_writing path st with
  | Ok _ => (Ok tt, {| dirs := dirs st; files := <[path := content]> (files st) |})
  | Raise e => (Raise e, st)
  end.

(** What the loop of [save_lines_to_file] writes: each line followed by
    a newline. *)
Fixpoint lines_text (lines : list string) : string :=
  match lines with
  | [] => EmptyString
  | line :: rest => (line +:+ nl) +:+ lines_text rest
  end.

(** [save_lines_to_file], lines 53-56. *)
Definition save_lines_to_file (path : string) (lines : list string) (st : fs)
  : result unit * fs :=
  write_file path (lines_text lines) st.

(** [os.makedirs(directory_path)] where nothing is at the path: the
    missing directories above it are made, then the directory itself; a
    regular file above it is in the way. *)
Definition makedirs (directory_path : string) (st : fs) : result unit * fs :=
  if String.eqb directory_path EmptyString then (Raise FileNotFoundError, st)
  else
    match first_obstacle st (ancestors directory_path) with
    | Some NotADirectoryError => (Raise NotADirectoryError, st)
    | _ =>
        let missing :=
          List.filter (fun a => negb (is_directory st a)) (ancestors directory_path) in
        (Ok tt, {| dirs := {[directory_path]} ∪ list_to_set missing ∪ dirs st;
                   files := files st |})
    end.

(** [create_directory_if_not_exists], lines 190-192. *)
Definition create_directory_if_not_exists (directory_path : string) (st : fs)
  : result unit * fs :=
  if path_exists st directory_path then (Ok tt, st)
  else makedirs directory_path st.

(** [search_lines_with_token], lines 59-64. *)
Fixpoint search_from (line_index : nat) (lines : list string) (token : string) : list nat :=
  match lines with
  | [] => []
  | line :: rest =>
      if str_contains token line
      then line_index :: search_from (S line_index) rest token
      else search_from (S line_index) rest token
  end.

Definition search_lines_with_token (lines : list string) (token : string) : list nat :=
  search_from 0 lines token.

(** ** The pipeline, lines 195-240 *)

Definition AUTOGENERATED_BLOCKS_LIST_TOKEN : string := "<!--- AUTOGENERATED_BLOCKS_LIST -->".

Definition token_error : exn :=
  Exception_ ("Please inject two " +:+ AUTOGENERATED_BLOCKS_LIST_TOKEN +:+ " "
              +:+ "tokens to signal start and end of autogenerated table.").

Section Pipeline.

Variable set_iter : list string -> list string.
Variable repr_float : spec_float -> string.

(** [os.getcwd()] *)
Variable cwd : string.

Definition BLOCK_DOCUMENTATION_FILE : string :=
  path_join (path_join (path_join cwd "docs") "workflows") "blocks.md".
Definition BLOCK_DOCUMENTATION_DIRECTORY : string :=
  path_join (path_join (path_join cwd "docs") "workflows") "blocks".

(** [format_block_inputs], lines 161-167. *)
Definition format_block_inputs (manifest : json) : result string :=
  let* data := format_inputs set_iter manifest in
  let* rows := input_rows repr_float data in
  Ok (join nl (USER_CONFIGURATION_HEADER ++ rows)).

(** [s.upper()]: only a str has the method. *)
Definition upper_of (v : json) : result string :=
  match v with
  | JStr s => Ok (upper s)
  | _ => Raise AttributeError
  end.

(** The documentation page of a block: its path and its content,
    lines 210-226. *)
Definition block_page (block : BlockDescription) : result (string * string) :=
  let* block_class_name := get_class_name (fully_qualified_class_name block) in
  let* block_type := getitem (block_manifest block) "block_type" in
  let* short_description := get (block_manifest block) "short_description" (JStr EmptyString) in
  let* long_description := get (block_manifest block) "long_description" (JStr EmptyString) in
  let documentation_file_name := camel_to_snake block_class_name +:+ ".md" in
  let documentation_file_path :=
    path_join BLOCK_DOCUMENTATION_DIRECTORY documentation_file_name in
  let* block_inputs := format_block_inputs (block_manifest block) in
  let documentation_content :=
    BLOCK_DOCUMENTATION_TEMPLATE block_class_name (str_json repr_float long_description)
      block_inputs (format_block_outputs (outputs_manifest block)) in
  Ok (documentation_file_path, documentation_content).

(** The card line of a block, lines 230-236. *)
Definition block_card (block : BlockDescription) : result string :=
  let* block_class_name := get_class_name (fully_qualified_class_name block) in
  let* block_type := getitem (block_manifest block) "block_type" in
  let* short_description := get (block_manifest block) "short_description" (JStr EmptyString) in
  let* data_name := block_class_name_to_block_title block_class_name in
  let* data_labels := upper_of block_type in
  Ok (BLOCK_CARD_TEMPLATE (camel_to_snake block_class_name) data_name
        (str_json repr_float short_description) data_labels EmptyString).

(** The [for block in ...] loop, lines 209-237: the page of each block is
    written before its card is built, so an exception leaves the pages
    written so far on disk. *)
Fixpoint process_blocks (blocks : list BlockDescription) (block_card_lines : list string)
    (st : fs) : result (list string) * fs :=
  match blocks with
  | [] => (Ok block_card_lines, st)
  | block :: rest =>
      match block_page block with
      | Raise e => (Raise e, st)
      | Ok (documentation_file_path, documentation_content) =>
          match write_file documentation_file_path documentation_content st with
          | (Raise e, st) => (Raise e, st)
          | (Ok _, st) =>
              match block_card block with
              | Raise e => (Raise e, st)
              | Ok block_card_line =>
                  process_blocks rest (block_card_lines ++ [block_card_line]) st
              end
          end
      end
  end.

(** Lines 197-240: what the script does once the directory is there. *)
Definition regenerate (blocks : list BlockDescription) (st : fs) : result unit * fs :=
  match read_lines_from_file BLOCK_DOCUMENTATION_FILE st with
  | Raise e => (Raise e, st)
  | Ok lines =>
      let lines_with_token_indexes :=
        search_lines_with_token lines AUTOGENERATED_BLOCKS_LIST_TOKEN in
      if negb (List.length lines_with_token_indexes =? 2)%nat then (Raise token_error, st)
      else
        match lines_with_token_indexes with
        | [start_index; end_index] =>
            match process_blocks blocks [] st with
            | (Raise e, st) => (Raise e, st)
            | (Ok block_card_lines, st) =>
                let lines :=
                  firstn (start_index + 1) lines ++ block_card_lines ++ skipn end_index lines in
                save_lines_to_file BLOCK_DOCUMENTATION_FILE lines st
            end
        | _ => (Raise ValueError, st)
        end
  end.

(** One run of the script, lines 195-240, on the block listing [blocks]
    and the file system [st]: how it ends and the file system it leaves. *)
Definition run (blocks : list BlockDescription) (st : fs) : result unit * fs :=
  match create_directory_if_not_exists BLOCK_DOCUMENTATION_DIRECTORY st with
  | (Raise e, st) => (Raise e, st)
  | (Ok _, st) => regenerate blocks st
  end.

(** The pages the loop has to write, in order, and how it ends when every
    page can be written: what [process_blocks] does apart from the file
    system it acts on. *)
Fixpoint pages_and_cards (blocks : list BlockDescription) (block_card_lines : list string)
  : list (string * string) * result (list string) :=
  match blocks with
  | [] => ([], Ok block_card_lines)
  | block :: rest =>
      match block_page block with
      | Raise e => ([], Raise e)
      | Ok page =>
          match block_card block with
          | Raise e => ([page], Raise e)
          | Ok block_card_line =>
              let (pages, outcome) :=
                pages_and_cards rest (block_card_lines ++ [block_card_line]) in
              (page :: pages, outcome)
          end
      end
  end.

End Pipeline.

(** Writing files one after the other, up to the first that cannot be
    opened. *)
Fixpoint write_pages (pages : list (string * string)) (st : fs) : result unit * fs :=
  match pages with
  | [] => (Ok tt, st)
  | page :: rest =>
      match write_file (fst page) (snd page) st with
      | (Raise e, st) => (Raise e, st)
      | (Ok _, st) => write_pages rest st
      end
  end.

(** The files after all of these writes. *)
Definition write_all (pages : list (string * string)) (m : gmap string string)
  : gmap string string :=
  fold_left (fun m page => <[fst page := snd page]> m) pages m.

(** The content the last write to [path] gave it, if any page went there. *)
Fixpoint written (pages : list (string * string)) (path : string) : option string :=
  match pages with
  | [] => None
  | page :: rest =>
      match written rest path with
      | Some content => Some content
      | None => if String.eqb (fst page) path then Some (snd page) else None
      end
  end.

(** A line that holds the sentinel token. *)
Definition has_token (line : string) : bool :=
  str_contains AUTOGENERATED_BLOCKS_LIST_TOKEN line.

(** The last character of a string is not white space. *)
Fixpoint ends_in_non_space (s : string) : bool :=
  match s with
  | EmptyString => false
  | String c EmptyString => negb (is_space c)
  | String _ s' => ends_in_non_space s'
  end.

(** Lines of text files. *)

Definition is_cr (c : ascii) : bool := (nat_of_ascii c =? 13)%nat.

(** No line break inside the string. *)
Fixpoint one_line (s : string) : bool :=
  match s with
  | EmptyString => true
  | String c s' => negb (is_newline c) && negb (is_cr c) && one_line s'
  end.

(** A line as [read_lines_from_file] returns it: no line break inside and
    no trailing white space. *)
Definition stripped_line (s : string) : Prop := one_line s = true /\ rstrip s = s.

(** Reading back what was written. *)
Definition read_back (lines : list string) : list string :=
  map rstrip (file_lines (lines_text lines)).

(** ** [take_static_crop] of [relative_static_crop.py] *)

Module Crop.

(** *** Arithmetic on floats *)

Definition float_mul : spec_float -> spec_float -> spec_float := SFmul prec emax.
Definition float_sub : spec_float -> spec_float -> spec_float := SFsub prec emax.

(** [n * x] and [n - x] for an [int] [n] and a [float] [x] *)
Definition int_mul_float (n : Z) (x : spec_float) : result spec_float :=
  let* f := float_of_int n in Ok (float_mul f x).
Definition int_sub_float (n : Z) (x : spec_float) : result spec_float :=
  let* f := float_of_int n in Ok (float_sub f x).

(** [n / 2] for an [int] [n]: true division, correctly rounded. *)
Definition int_halved (n : Z) : result spec_float :=
  match binary_normalize prec emax n (-1) false with
  | S754_infinity _ => Raise OverflowError
  | f => Ok f
  end.

(** [round(x)] for a [float]: the nearest [int], ties to the even one;
    [ValueError] on NaN, [OverflowError] on an infinity. *)
Definition round_float (x : spec_float) : result Z :=
  match x with
  | S754_nan => Raise ValueError
  | S754_infinity _ => Raise OverflowError
  | S754_zero _ => Ok 0%Z
  | S754_finite s m e =>
      let magnitude :=
        match e with
        | Zneg p =>
            let d := Z.pow_pos 2 p in
            let q := (Zpos m / d)%Z in
            let r := (Zpos m mod d)%Z in
            match (2 * r ?= d)%Z with
            | Lt => q
            | Gt => (q + 1)%Z
            | Eq => if Z.even q then q else (q + 1)%Z
            end
        | _ => (Zpos m * 2 ^ e)%Z
        end in
      Ok (if s then (- magnitude)%Z else magnitude)
  end.

(** *** Arrays *)

(** A [numpy] array: its shape and its items by index. *)
Record ndarray (A : Type) : Type := { shape : list Z; item : list Z -> A }.
Arguments shape {A} _.
Arguments item {A} _ _.

(** [t[i]] on a tuple *)
Definition tuple_getitem (t : list Z) (i : nat) : result Z :=
  match nth_error t i with
  | Some x => Ok x
  | None => Raise IndexError
  end.

(** Where the slice [start:stop] begins and how many items it holds, on an
    axis of length [n]: a negative bound counts from the end, and both are
    clipped to the axis. *)
Definition slice_start (start n : Z) : Z :=
  if (start <? 0)%Z then Z.max (start + n) 0 else Z.min start n.
Definition slice_length (start stop n : Z) : Z :=
  Z.max 0 (slice_start stop n - slice_start start n).

(** [image[y_min:y_max, x_min:x_max]] on an array of two or more axes *)
Definition crop_rows_columns {A : Type} (image : ndarray A) (y_min y_max x_min x_max : Z)
  : ndarray A :=
  match shape image with
  | h :: w :: rest =>
      {| shape := slice_length y_min y_max h :: slice_length x_min x_max w :: rest;
         item := fun index =>
                   match index with
                   | i :: j :: others =>
                       item image ((i + slice_start y_min h) :: (j + slice_start x_min w) :: others)%Z
                   | _ => item image index
                   end |}
  | _ => image
  end.

(** *** Magnitudes *)

(** [m * 2^e] is not negative and lies below [2^B], with [e] itself not
    above [B]. *)
Definition within (B m e : Z) : Prop := (0 <= m < 2 ^ (B - e) /\ e <= B)%Z.

(** A float that is a zero or a finite number below [2^B] in magnitude. *)
Definition float_within (B : Z) (x : spec_float) : Prop :=
  match x with
  | S754_zero _ => True
  | S754_finite _ m e => within B (Zpos m) e
  | _ => False
  end.

(** A float between 0 and 1, as the manifest declares the crop parameters
    to be: a zero, or [m * 2^e] with [e <= 0] and [m <= 2^-e]. *)
Definition in_unit_interval (x : spec_float) : bool :=
  match x with
  | S754_zero _ => true
  | S754_finite false m e => (e <=? 0)%Z && (Zpos m <=? 2 ^ (- e))%Z
  | _ => false
  end.

(** The left-top coordinate as the claim words it:
    [round(round(size * center) - round(size * extent) / 2)]. *)
Definition claimed_left_top (size : Z) (center extent : spec_float) : result Z :=
  let* c := (let* p := int_mul_float size center in round_float p) in
  let* w := (let* p := int_mul_float size extent in round_float p) in
  let* half := int_halved w in
  let* d := int_sub_float c half in
  round_float d.

Section TakeStaticCrop.

Context {A : Type}.

(** The keys of [inference.core.workflows.constants] and the value of
    [ImageType.NUMPY_OBJECT], which are declared outside this file. *)
Variables IMAGE_TYPE_KEY IMAGE_VALUE_KEY PARENT_ID_KEY ORIGIN_COORDINATES_KEY : string.
Variables LEFT_TOP_X_KEY LEFT_TOP_Y_KEY ORIGIN_SIZE_KEY : string.
Variable NUMPY_OBJECT : string.

Inductive coordinate : Type :=
| CInt (n : Z)
| CSize (origin_size : json).

Inductive crop_value : Type :=
| VStr (s : string)
| VArray (a : ndarray A)
| VCoordinates (c : gmap string coordinate).

(** [take_static_crop], lines 134-161.  A dict display inserts its items
    from left to right, a later item replacing an earlier one with the
    same key. *)
Definition take_static_crop (image : ndarray A) (x_center y_center width height : spec_float)
    (origin_size : json) (image_parent : string) : result (gmap string crop_value) :=
  let* w := tuple_getitem (shape image) 1 in
  let* x_center := let* p := int_mul_float w x_center in round_float p in
  let* h := tuple_getitem (shape image) 0 in
  let* y_center := let* p := int_mul_float h y_center in round_float p in
  let* w := tuple_getitem (shape image) 1 in
  let* width := let* p := int_mul_float w width in round_float p in
  let* h := tuple_getitem (shape image) 0 in
  let* height := let* p := int_mul_float h height in round_float p in
  let* x_min := let* half := int_halved width in
                let* d := int_sub_float x_center half in round_float d in
  let* y_min := let* half := int_halved height in
                let* d := int_sub_float y_center half in round_float d in
  let x_max := (x_min + width)%Z in
  let y_max := (y_min + height)%Z in
  let cropped_image := crop_rows_columns image y_min y_max x_min x_max in
  Ok (<[ORIGIN_COORDINATES_KEY :=
          VCoordinates (<[ORIGIN_SIZE_KEY := CSize origin_size]>
                          (<[LEFT_TOP_Y_KEY := CInt y_min]>
                             (<[LEFT_TOP_X_KEY := CInt x_min]> ∅)))]>
        (<[PARENT_ID_KEY := VStr image_parent]>
           (<[IMAGE_VALUE_KEY := VArray cropped_image]>
              (<[IMAGE_TYPE_KEY := VStr NUMPY_OBJECT]> ∅)))).

End TakeStaticCrop.

End Crop.

Import Crop.

(** ** Inputs used in the statements below *)

(** The fixed table as the specification words it: number→float,
    integer→int, boolean→bool, string→str, null→None. *)
Definition spec_table (primitive_name : string) : option string :=
  if String.eqb primitive_name "number" then Some "float"
  else if String.eqb primitive_name "integer" then Some "int"
  else if String.eqb primitive_name "boolean" then Some "bool"
  else if String.eqb primitive_name "string" then Some "str"
  else if String.eqb primitive_name "null" then Some "None"
  else None.

(** [schema.get("description", "not available")] on a dict *)
Definition description_of (items : list (string * json)) : json :=
  match dict_lookup "description" items with
  | Some d => d
  | None => JStr "not available"
  end.

(** [anyOf: [{type: "string"}, {type: "null"}]] *)
Definition string_or_null : json :=
  JDict [("anyOf", JList [JDict [("type", JStr "string")]; JDict [("type", JStr "null")]])].

(** [anyOf: [{type: "string"}, {type: "integer"}]] *)
Definition string_or_integer : json :=
  JDict [("anyOf", JList [JDict [("type", JStr "string")]; JDict [("type", JStr "integer")]])].

(** [{type: "array", items: {type: "string"}}], a plain list-of-strings
    property. *)
Definition list_of_strings : json :=
  JDict [("type", JStr "array"); ("items", JDict [("type", JStr "string")])].

(** A property whose [items] sub-schema itself has an (empty) [items]
    entry, so that [create_array_typing] returns a pair on it. *)
Definition items_with_items : json :=
  JDict [("type", JStr "array"); ("items", JDict [("items", JDict [])])].

(** [anyOf] of a number branch and a reference-marked selector branch *)
Definition number_or_selector : json :=
  JDict [("anyOf", JList [JDict [("type", JStr "number")];
                          JDict [("type", JStr "string"); ("reference", JBool true)]]);
         ("description", JStr "Confidence threshold")].

(** A union whose only branch is an [enum] without a [type] *)
Definition enum_only : json :=
  JDict [("anyOf", JList [JDict [("enum", JList [JStr "a"; JStr "b"])]])].

(** An array whose items have a list-valued [type] *)
Definition items_of_two_types : json :=
  JDict [("type", JStr "array");
         ("items", JDict [("type", JList [JStr "string"; JStr "null"])])].

(** An array whose items are a bare [$ref] *)
Definition items_by_reference : json :=
  JDict [("type", JStr "array"); ("items", JDict [("$ref", JStr "#/$defs/Point")])].

(** A block with a string/integer union property, and the listing of it *)
Definition crop_block : BlockDescription :=
  {| fully_qualified_class_name := "inference.blocks.RelativeStaticCropBlock";
     block_manifest :=
       JDict [("block_type", JStr "transformation");
              ("short_description", JStr "Use relative coordinates for cropping.");
              ("properties",
               JDict [("type", JDict [("const", JStr "RelativeStaticCrop")]);
                      ("name", JDict [("type", JStr "string");
                                      ("description", JStr "Unique name of step in workflows")]);
                      ("mode", string_or_integer)])];
     outputs_manifest :=
       [ {| output_name := "crops";
            output_kind := [ {| kind_name := "Batch[image]"; kind_description := "Images" |} ] |} ] |}.

(** A block whose class name holds no capital letter *)
Definition lower_case_block : BlockDescription :=
  {| fully_qualified_class_name := "plugins.crop";
     block_manifest := JDict [("block_type", JStr "transformation"); ("properties", JDict [])];
     outputs_manifest := [] |}.

(** The instances below hold no float, so any [repr] of floats will do. *)
Definition no_float : spec_float -> string := fun _ => EmptyString.

(** Index documents, under the working directory [/w] *)
Definition index_path : string := "/w/docs/workflows/blocks.md".
Definition page_path : string := "/w/docs/workflows/blocks/relative_static_crop_block.md".

Definition with_index (content : string) : fs :=
  {| dirs := ∅; files := {[ index_path := content ]} |}.

Definition index_two_tokens : string :=
  lines_text ["# Blocks  "; AUTOGENERATED_BLOCKS_LIST_TOKEN; "old card";
              AUTOGENERATED_BLOCKS_LIST_TOKEN; "footer"].

Definition index_one_token : string :=
  lines_text ["# Blocks"; AUTOGENERATED_BLOCKS_LIST_TOKEN; "footer"].

(** A file system with the index and a file the script has no business
    with, and one without the index. *)
Definition with_index_and_notes : fs :=
  {| dirs := ∅; files := <["/w/notes.txt" := "keep"]> {[ index_path := index_two_tokens ]} |}.
Definition without_index : fs :=
  {| dirs := ∅; files := {[ "/w/notes.txt" := "keep" ]} |}.

(** A regular file where the [docs] directory would be, and one where the
    pages directory would be (beside the index). *)
Definition docs_is_a_file : fs :=
  {| dirs := ∅; files := {[ "/w/docs" := "text" ]} |}.
Definition pages_directory_is_a_file : fs :=
  {| dirs := ∅;
     files := <["/w/docs/workflows/blocks" := "text"]> {[ index_path := index_two_tokens ]} |}.

(** Floats and an image for the crop *)
Definition one_half : spec_float := S754_finite false 4503599627370496 (-53).
Definition one_quarter : spec_float := S754_finite false 4503599627370496 (-54).
Definition one_eighth : spec_float := S754_finite false 4503599627370496 (-55).
Definition small_image : ndarray nat :=
  {| shape := [480; 640; 3]%Z; item := fun _ => 0 |}.

(** Strings without an upper-case letter, and strings of letters. *)
Definition no_upper (l : list ascii) : bool := forallb (fun c => negb (is_upper c)) l.
Definition is_letter (c : ascii) : bool := is_upper c || is_lower c.
Definition is_blank (c : ascii) : bool := Ascii.eqb c " "%char.


(** The name and the arity of a row of [global_result]. *)
Definition row_name (r : row) : string :=
  match r with
  | Row4 name _ _ _ => name
  | Row3 name _ _ => name
  end.

Definition is_row4 (r : row) : bool :=
  match r with
  | Row4 _ _ _ _ => true
  | Row3 _ _ _ => false
  end.

(** A string of letters and blanks only. *)
Definition letters_and_blanks (s : string) : bool :=
  forallb (fun c => is_letter c || is_blank c) (list_ascii_of_string s).

(** A word as the title is made of: an upper-case letter followed by
    letters. *)
Definition capitalised_word (w : string) : bool :=
  match list_ascii_of_string w with
  | c :: rest => is_upper c && forallb is_letter rest
  | [] => false
  end.

(** A string without a newline, and an output whose name and kinds hold
    none. *)
Definition no_newline (s : string) : bool :=
  forallb (fun c => negb (is_newline c)) (list_ascii_of_string s).

Definition plain_output (output : OutputDefinition) : bool :=
  no_newline (output_name output)
  && forallb (fun k => no_newline (kind_name k) && no_newline (kind_description k))
       (output_kind output).

(** * Properties *)

(** ** The runtime operators *)

Lemma get_dict_inv v k d x : get v k d = Ok x -> exists items, v = JDict items.
Proof. destruct v; simpl; try discriminate. eauto. Qed.

Lemma len_iter x elements : iter x = Ok elements -> len x = Ok (List.length elements).
Proof.
  destruct x; simpl; try discriminate; intros [= <-].
  - unfold chars. rewrite !length_map. f_equal.
    induction s as [|c s IH]; simpl; congruence.
  - reflexivity.
  - now rewrite length_map.
Qed.

Lemma eq_str_true v s : eq_str v s = true -> v = JStr s.
Proof.
  destruct v; simpl; try discriminate.
  intros H. apply String.eqb_eq in H. now subst.
Qed.

(** ** [create_array_typing] is total: two levels of recursion suffice *)

Lemma create_array_typing_body_ext self1 self2 d :
  self1 (JStr "array") = self2 (JStr "array") ->
  create_array_typing_body self1 d = create_array_typing_body self2 d.
Proof.
  intros Hself. unfold create_array_typing_body.
  destruct (get d "uniqueItems" (JBool false)) as [unique|]; simpl; [|reflexivity].
  destruct (getitem d "items") as [items|]; simpl; [|reflexivity].
  destruct (len items) as [n|]; simpl; [|reflexivity].
  destruct (n =? 0)%nat; [reflexivity|].
  destruct (contains "type" items) as [[|]|]; simpl; try reflexivity.
  destruct (contains "reference" items) as [has_reference|]; simpl; [|reflexivity].
  destruct (getitem items "type") as [ty|]; simpl; [|reflexivity].
  destruct (contains "$ref" ty) as [[|]|]; simpl; try reflexivity.
  destruct (in_table ty TYPE_MAPPING) as [[|]|]; simpl; try reflexivity.
  destruct (eq_str ty "array") eqn:Harray; [|reflexivity].
  apply eq_str_true in Harray. subst ty. now rewrite Hself.
Qed.

Lemma create_array_typing_fuel_enough n d :
  create_array_typing_fuel (S (S n)) d = create_array_typing d.
Proof.
  unfold create_array_typing. simpl. apply create_array_typing_body_ext. reflexivity.
Qed.

Lemma create_array_typing_body_no_recursion_error self d :
  self (JStr "array") <> Raise RecursionError ->
  create_array_typing_body self d <> Raise RecursionError.
Proof.
  intros Hself. unfold create_array_typing_body.
  destruct (get d "uniqueItems" (JBool false)) as [unique|[]] eqn:Hget; simpl; try discriminate.
  2:{ destruct d; try discriminate. simpl in Hget. destruct (dict_lookup _ _); discriminate. }
  destruct (getitem d "items") as [items|[]] eqn:Hitems; simpl; try discriminate.
  2:{ destruct d; try discriminate. simpl in Hitems. destruct (dict_lookup _ _); discriminate. }
  destruct (len items) as [k|[]] eqn:Hlen; simpl; try discriminate.
  2:{ destruct items; discriminate. }
  destruct (k =? 0)%nat; [discriminate|].
  destruct (contains "type" items) as [[|]|[]] eqn:Htype; simpl; try discriminate.
  2:{ destruct items; discriminate. }
  destruct (contains "reference" items) as [r|[]] eqn:Href; simpl; try discriminate.
  2:{ destruct items; discriminate. }
  destruct (getitem items "type") as [ty|[]] eqn:Hty; simpl; try discriminate.
  2:{ destruct items; try discriminate. simpl in Hty. destruct (dict_lookup _ _); discriminate. }
  destruct (contains "$ref" ty) as [[|]|[]] eqn:Hc; simpl; try discriminate.
  3:{ destruct ty; discriminate. }
  - destruct (getitem ty "$ref") as [target|[]] eqn:Htarget; simpl; try discriminate.
    + destruct target; simpl; try discriminate.
      unfold last_item. destruct (rev (split_on "/" s)); discriminate.
    + destruct ty; try discriminate. simpl in Htarget. destruct (dict_lookup _ _); discriminate.
  - destruct (in_table ty TYPE_MAPPING) as [[|]|[]] eqn:Hk; cbn [bind]; try discriminate.
    + destruct ty; cbn [table_getitem bind]; try discriminate.
      destruct (dict_lookup s TYPE_MAPPING); discriminate.
    + destruct (eq_str ty "array") eqn:Ha; [|discriminate].
      apply eq_str_true in Ha. subst ty.
      destruct (self (JStr "array")) as [nested|[]]; cbn [bind]; try discriminate.
      now elim Hself.
    + destruct ty; discriminate.
Qed.

Lemma create_array_typing_no_recursion_error d :
  create_array_typing d <> Raise RecursionError.
Proof.
  unfold create_array_typing. cbn [create_array_typing_fuel].
  apply create_array_typing_body_no_recursion_error. discriminate.
Qed.

(** ** The schema formatter *)

Section FormatterProperties.

Variable set_iter : list string -> list string.

(** [list(s)] yields every element of the set once. *)
Hypothesis set_iter_permutation : forall s, Permutation (set_iter s) s.

Lemma set_iter_single n : set_iter [n] = [n].
Proof. apply Permutation_length_1_inv, Permutation_sym, set_iter_permutation. Qed.

Lemma set_iter_pair a b : set_iter [a; b] = [a; b] \/ set_iter [a; b] = [b; a].
Proof. apply Permutation_length_2_inv, Permutation_sym, set_iter_permutation. Qed.

(** C8: a property not named "type" whose [type] is one of number,
    integer, boolean, string, null gets a row whose display type is the
    name the fixed table gives, whose description is the schema's (or
    "not available") and whose references flag is false. *)
Theorem primitive_property_row name kvs primitive_name display_name :
  name <> "type" ->
  dict_lookup "type" kvs = Some (JStr primitive_name) ->
  spec_table primitive_name = Some display_name ->
  format_property set_iter name (JDict kvs)
  = Ok (Some (Row4 name display_name (description_of kvs) false)).
Proof.
  intros Hname Htype Htable. unfold format_property.
  apply String.eqb_neq in Hname. rewrite Hname.
  cbn [get getitem bind]. rewrite Htype. cbn [bind in_table table_getitem].
  unfold description_of.
  assert (Hcase : dict_lookup primitive_name TYPE_MAPPING = Some display_name).
  { unfold spec_table in Htable.
    repeat match type of Htable with
           | (if String.eqb ?a ?b then _ else _) = _ =>
               destruct (String.eqb_spec a b); [subst; injection Htable as <-; reflexivity|]
           end.
    discriminate. }
  unfold dict_has. rewrite Hcase. cbn [bind].
  destruct (dict_lookup "description" kvs); reflexivity.
Qed.

(** C2 (the code departs from it): a property that reaches line 104 never
    gets its row.  Whatever [create_array_typing] answers on the [items]
    sub-schema, either it raises, or its [None] cannot be unpacked, or the
    three-argument [get] of line 105 raises. *)
Theorem items_property_raises name kvs items :
  name <> "type" ->
  (forall p, dict_lookup "type" kvs = Some (JStr p) -> dict_has p TYPE_MAPPING = false) ->
  dict_lookup "items" kvs = Some items ->
  contains "reference" items <> Ok true ->
  raises (format_property set_iter name (JDict kvs)) = true.
Proof.
  intros Hname Hprimitive Hitems Hmarked.
  assert (Hnot : (let* ty := get (JDict kvs) "type" JNull in in_table ty TYPE_MAPPING)
                 <> Ok true).
  { cbn [get]. destruct (dict_lookup "type" kvs) as [ty|] eqn:Hty; cbn [bind].
    - destruct ty as [| | | |p| |]; cbn [in_table]; try discriminate.
      rewrite (Hprimitive p eq_refl). discriminate.
    - discriminate. }
  unfold format_property. apply String.eqb_neq in Hname. rewrite Hname.
  destruct (get (JDict kvs) "type" JNull) as [ty|]; cbn [bind] in *; [|reflexivity].
  destruct (in_table ty TYPE_MAPPING) as [[|]|]; cbn [bind]; try reflexivity; [congruence|].
  cbn [contains getitem bind]. unfold dict_has. rewrite Hitems. cbn [bind].
  destruct (contains "reference" items) as [[|]|]; cbn [bind]; try reflexivity; [congruence|].
  destruct (create_array_typing items) as [[|t_name ref_appears]|]; reflexivity.
Qed.

(** C9: on an array schema whose [items] is a non-empty mapping without a
    "type" key, [create_array_typing] returns [None]; unpacking that as a
    pair is a [TypeError], and so the union formatter, which unpacks it,
    raises on such a branch. *)
Theorem create_array_typing_without_type kvs item_kvs :
  dict_lookup "items" kvs = Some (JDict item_kvs) ->
  item_kvs <> [] ->
  dict_has "type" item_kvs = false ->
  create_array_typing (JDict kvs) = Ok ReturnedNone
  /\ unpack_pair ReturnedNone = Raise TypeError
  /\ (dict_has "$ref" kvs = false -> dict_lookup "type" kvs = Some (JStr "array") ->
      forall ref_appears, resolve_branch (JDict kvs) ref_appears = Raise TypeError).
Proof.
  intros Hitems Hnonempty Hno_type.
  assert (Hnone : create_array_typing (JDict kvs) = Ok ReturnedNone).
  { unfold create_array_typing. cbn [create_array_typing_fuel]. unfold create_array_typing_body.
    cbn [get getitem]. rewrite Hitems.
    destruct (dict_lookup "uniqueItems" kvs); cbn [bind len contains];
      (destruct item_kvs; [congruence|]); cbn [List.length Nat.eqb];
      rewrite Hno_type; reflexivity. }
  split; [exact Hnone|]. split; [reflexivity|].
  intros Href Harray ref_appears. unfold resolve_branch.
  cbn [contains bind getitem]. rewrite Href, Harray. cbn [bind in_table].
  change (dict_has "array" TYPE_MAPPING) with false. cbn [bind eq_str].
  change ("array" =? "array")%string with true. cbv iota.
  rewrite Hnone. reflexivity.
Qed.

(** C7, as the code has it: a branch whose [type] is a string that is
    neither in the table nor "array" resolves to "unknown" without raising,
    in the union formatter (the branch has no "$ref" key) and in the array
    formatter (the branch is the [items] sub-schema, and the type name does
    not contain the text "$ref"). *)
Theorem unknown_type_name_degrades kvs type_name :
  dict_lookup "type" kvs = Some (JStr type_name) ->
  dict_has type_name TYPE_MAPPING = false ->
  type_name <> "array" ->
  (dict_has "$ref" kvs = false ->
   forall ref_appears, resolve_branch (JDict kvs) ref_appears = Ok ("unknown", ref_appears))
  /\ (str_contains "$ref" type_name = false ->
      forall array_kvs, dict_lookup "items" array_kvs = Some (JDict kvs) ->
      exists prefix,
        (prefix = "Set" \/ prefix = "List")
        /\ create_array_typing (JDict array_kvs)
           = Ok (ReturnedPair (prefix +:+ "[unknown]") (dict_has "reference" kvs))).
Proof.
  intros Htype Htable Harray. apply String.eqb_neq in Harray. split.
  - intros Href ref_appears. unfold resolve_branch.
    cbn [contains bind getitem]. rewrite Href, Htype. cbn [bind in_table].
    rewrite Htable. cbn [bind eq_str]. rewrite Harray. reflexivity.
  - intros Hsub array_kvs Hitems.
    exists (if is_True (match dict_lookup "uniqueItems" array_kvs with
                        | Some u => u
                        | None => JBool false
                        end) then "Set" else "List").
    split; [destruct (is_True _); auto|].
    unfold create_array_typing. cbn [create_array_typing_fuel]. unfold create_array_typing_body.
    cbn [get getitem]. rewrite Hitems.
    assert (Hhas : dict_has "type" kvs = true) by (unfold dict_has; now rewrite Htype).
    destruct kvs as [|kv kvs']; [discriminate|].
    destruct (dict_lookup "uniqueItems" array_kvs) as [u|];
      cbn [bind len List.length Nat.eqb contains getitem];
      rewrite Hhas, Htype; cbn [bind contains in_table]; rewrite Hsub; cbn [bind];
      rewrite Htable; cbn [bind eq_str]; rewrite Harray;
      destruct (dict_has "reference" (kv :: kvs')); reflexivity.
Qed.

(** The flag a branch leaves is the flag it found or the one
    [create_array_typing] reports for it. *)
Lemma resolve_branch_flag t ref_appears :
  resolve_branch t ref_appears
  = (let* (t_name, nested) := resolve_branch t false in Ok (t_name, ref_appears || nested)).
Proof.
  unfold resolve_branch.
  destruct (contains "$ref" t) as [[|]|]; cbn [bind]; try reflexivity.
  - destruct (getitem t "$ref") as [target|]; cbn [bind]; [|reflexivity].
    destruct (split_last target "/"); cbn [bind]; [|reflexivity].
    now rewrite orb_false_r.
  - destruct (getitem t "type") as [ty|]; cbn [bind]; [|reflexivity].
    destruct (in_table ty TYPE_MAPPING) as [[|]|]; cbn [bind]; try reflexivity.
    + destruct (table_getitem TYPE_MAPPING ty); cbn [bind]; [|reflexivity].
      now rewrite orb_false_r.
    + destruct (eq_str ty "array").
      * destruct (create_array_typing t) as [[|t_name nested]|]; cbn [bind unpack_pair];
          reflexivity.
      * cbn [bind]. now rewrite orb_false_r.
Qed.

(** Only an array branch reports a reference of its own. *)
Lemma resolve_branch_nested t t_name :
  resolve_branch t false = Ok (t_name, true) ->
  create_array_typing t = Ok (ReturnedPair t_name true).
Proof.
  unfold resolve_branch.
  destruct (contains "$ref" t) as [[|]|]; cbn [bind]; try discriminate.
  - destruct (getitem t "$ref") as [target|]; cbn [bind]; [|discriminate].
    destruct (split_last target "/"); cbn [bind]; discriminate.
  - destruct (getitem t "type") as [ty|]; cbn [bind]; [|discriminate].
    destruct (in_table ty TYPE_MAPPING) as [[|]|]; cbn [bind]; try discriminate.
    + destruct (table_getitem TYPE_MAPPING ty); cbn [bind]; discriminate.
    + destruct (eq_str ty "array"); [|discriminate].
      destruct (create_array_typing t) as [[|n nested]|]; cbn [bind unpack_pair];
        try discriminate.
      cbn [orb]. now intros [= -> ->].
Qed.

(** C1, as the code has it: a union with exactly one non-reference branch
    (counted on the branches, before names are deduplicated and "None" is
    dropped), whose resolved name is not "None", displays that name
    unwrapped.  Its references flag is true exactly when the union has
    other, reference-marked, branches or [create_array_typing] reports a
    reference for the branch. *)
Theorem union_single_branch_unwrapped name property_definition x elements t t_name nested :
  union_operands property_definition = Ok x ->
  iter x = Ok elements ->
  without_reference elements = Ok [t] ->
  resolve_branch t false = Ok (t_name, nested) ->
  t_name <> "None" ->
  exists description,
    get property_definition "description" (JStr "not available") = Ok description
    /\ format_union set_iter name property_definition
       = Ok (Some (Row4 name t_name description
                     (negb (1 =? List.length elements)%nat || nested))).
Proof.
  intros Hx Helements Hbranches Hresolve Hname.
  assert (Hdict : exists kvs, property_definition = JDict kvs).
  { unfold union_operands in Hx.
    destruct (get property_definition "anyOf" (JList [])) eqn:Hget; [|discriminate].
    eapply get_dict_inv; eauto. }
  destruct Hdict as [kvs ->].
  exists (description_of kvs). split.
  { unfold description_of. cbn [get]. destruct (dict_lookup "description" kvs); reflexivity. }
  unfold format_union. rewrite Hx. cbn [bind]. rewrite Helements. cbn [bind].
  rewrite Hbranches. cbn [bind List.length].
  change (1 =? 0)%nat with false. cbv iota.
  rewrite (len_iter _ _ Helements). cbn [bind resolve_branches].
  rewrite resolve_branch_flag, Hresolve. cbn [bind app resolve_branches].
  unfold optional_or_union. cbn [set_of_list existsb app orb].
  assert (Hnone : ("None" =? t_name)%string = false)
    by (apply String.eqb_neq; congruence).
  rewrite Hnone. cbn [orb]. rewrite set_iter_single.
  cbn [join String.concat Nat.ltb Nat.leb].
  unfold description_of. cbn [get]. destruct (dict_lookup "description" kvs); reflexivity.
Qed.

(** C3, as the code has it: on [anyOf: [{type: "string"}, {type:
    "integer"}]] the display type is [Union[...]] around the names "int"
    and "str" joined by ", " in the order the set yields them, which the
    code does not fix: it is one of "Union[int, str]" and "Union[str,
    int]"; the references flag is false. *)
Theorem union_string_integer name :
  format_union set_iter name string_or_integer
  = Ok (Some (Row4 name "Union[int, str]" (JStr "not available") false))
  \/ format_union set_iter name string_or_integer
     = Ok (Some (Row4 name "Union[str, int]" (JStr "not available") false)).
Proof.
  unfold format_union, string_or_integer.
  cbn -[String.append join].
  destruct (set_iter_pair "str" "int") as [-> | ->]; [right | left]; reflexivity.
Qed.

End FormatterProperties.

(** ** Text files: writing lines and reading them back *)

Lemma append_cons c (a b : string) : String c a +:+ b = String c (a +:+ b).
Proof. reflexivity. Qed.

Lemma append_nil (b : string) : EmptyString +:+ b = b.
Proof. reflexivity. Qed.

Lemma append_associative (a b c : string) : (a +:+ b) +:+ c = a +:+ (b +:+ c).
Proof. induction a as [|x a IH]; [reflexivity|]. rewrite !append_cons. now rewrite IH. Qed.

Lemma existsb_eqb_In x (l : list string) : existsb (String.eqb x) l = true <-> In x l.
Proof.
  rewrite existsb_exists. split.
  - intros (y & Hin & Heq). apply String.eqb_eq in Heq. now subst.
  - intros Hin. exists x. split; [exact Hin|apply String.eqb_refl].
Qed.

Lemma rstrip_cons c s :
  rstrip (String c s)
  = match rstrip s with
    | EmptyString => if is_space c then EmptyString else String c EmptyString
    | t => String c t
    end.
Proof. reflexivity. Qed.

Lemma rstrip_idempotent s : rstrip (rstrip s) = rstrip s.
Proof.
  induction s as [|c s IH]; [reflexivity|]. rewrite rstrip_cons.
  destruct (rstrip s) as [|c' t] eqn:Hs.
  - destruct (is_space c) eqn:Hc; [reflexivity|]. rewrite rstrip_cons. cbn [rstrip].
    now rewrite Hc.
  - rewrite rstrip_cons, IH. reflexivity.
Qed.

Lemma one_line_rstrip s : one_line s = true -> one_line (rstrip s) = true.
Proof.
  induction s as [|c s IH]; [reflexivity|]. rewrite rstrip_cons. cbn [one_line].
  intros H. apply andb_true_iff in H as [Hc Hs]. specialize (IH Hs).
  destruct (rstrip s) as [|c' t].
  - destruct (is_space c); simpl; [reflexivity|]. now rewrite Hc.
  - cbn [one_line]. cbn [one_line] in IH. now rewrite Hc, IH.
Qed.

(** *** Newline translation *)

Lemma universal_newlines_no_cr s c :
  is_cr c = true -> ~ In c (list_ascii_of_string (universal_newlines s)).
Proof.
  intros Hc. induction s as [|x s IH]; simpl; [tauto|].
  fold (is_cr x). destruct (is_cr x) eqn:Hx.
  - destruct s as [|y s'].
    + simpl. intros [<-|[]]. discriminate.
    + destruct (is_newline y); [exact IH|].
      cbn [list_ascii_of_string In]. intros [<-|H]; [discriminate|]. now apply IH.
  - cbn [list_ascii_of_string In]. intros [<-|H]; [congruence|]. now apply IH.
Qed.

Lemma universal_newlines_line line rest :
  universal_newlines ((line +:+ nl) +:+ rest)
  = universal_newlines (line +:+ nl) +:+ universal_newlines rest.
Proof.
  induction line as [|c line IH]; [reflexivity|].
  rewrite !append_cons. cbn [universal_newlines].
  destruct (nat_of_ascii c =? 13)%nat.
  - destruct line as [|c' line']; rewrite ?append_cons, ?append_nil in *.
    + reflexivity.
    + destruct (is_newline c'); [exact IH|]. now rewrite append_cons, IH.
  - now rewrite append_cons, IH.
Qed.

Lemma universal_newlines_terminated line :
  exists u, universal_newlines (line +:+ nl) = u +:+ nl.
Proof.
  induction line as [|c line [u IH]]; [now exists EmptyString|].
  rewrite append_cons. cbn [universal_newlines].
  destruct (nat_of_ascii c =? 13)%nat.
  - destruct line as [|c' line']; rewrite ?append_cons, ?append_nil in *.
    + now exists EmptyString.
    + destruct (is_newline c'); [now exists u|]. exists (String (ascii_of_nat 10) u).
      now rewrite append_cons, IH.
  - exists (String c u). now rewrite append_cons, IH.
Qed.

Lemma universal_newlines_one_line line :
  one_line line = true -> universal_newlines (line +:+ nl) = line +:+ nl.
Proof.
  induction line as [|c line IH]; [reflexivity|]. cbn [one_line].
  intros H. apply andb_true_iff in H as [H Hline]. apply andb_true_iff in H as [_ Hcr].
  rewrite append_cons. cbn [universal_newlines]. unfold is_cr in Hcr.
  destruct (nat_of_ascii c =? 13)%nat; [discriminate|]. now rewrite IH.
Qed.

(** *** Splitting into lines *)

Lemma text_lines_terminated u rest :
  text_lines ((u +:+ nl) +:+ rest) = text_lines (u +:+ nl) ++ text_lines rest
  /\ text_lines (u +:+ nl) <> [].
Proof.
  induction u as [|c u [IH Hne]].
  - split; [reflexivity|discriminate].
  - rewrite !append_cons. cbn [text_lines]. destruct (is_newline c).
    + split; [|discriminate]. now rewrite IH.
    + rewrite IH. destruct (text_lines (u +:+ nl)) as [|l ls]; [congruence|].
      split; [reflexivity|discriminate].
Qed.

Lemma text_lines_one_line line :
  one_line line = true -> text_lines (line +:+ nl) = [line].
Proof.
  induction line as [|c line IH]; [reflexivity|]. cbn [one_line].
  intros H. apply andb_true_iff in H as [H Hline]. apply andb_true_iff in H as [Hnl _].
  rewrite append_cons. cbn [text_lines]. destruct (is_newline c); [discriminate|].
  now rewrite IH.
Qed.

Lemma text_lines_one_line_each s :
  (forall c, is_cr c = true -> ~ In c (list_ascii_of_string s)) ->
  Forall (fun line => one_line line = true) (text_lines s).
Proof.
  induction s as [|c s IH]; intros Hcr; [constructor|].
  assert (Hs : forall c', is_cr c' = true -> ~ In c' (list_ascii_of_string s)).
  { intros c' Hc' Hin. apply (Hcr c' Hc'). now right. }
  specialize (IH Hs). cbn [text_lines]. destruct (is_newline c) eqn:Hnl.
  - constructor; [reflexivity|exact IH].
  - assert (Hc : is_cr c = false).
    { destruct (is_cr c) eqn:E; [|reflexivity]. exfalso. apply (Hcr c E). now left. }
    destruct (text_lines s) as [|l ls].
    + constructor; [|constructor]. cbn [one_line]. now rewrite Hnl, Hc.
    + inversion IH; subst. constructor; [|assumption]. cbn [one_line]. now rewrite Hnl, Hc.
Qed.

(** Every line [read_lines_from_file] returns is a stripped line. *)
Lemma read_lines_stripped content :
  Forall stripped_line (map rstrip (file_lines content)).
Proof.
  unfold file_lines.
  pose proof (text_lines_one_line_each (universal_newlines content)
                (universal_newlines_no_cr content)) as H.
  induction H as [|l ls Hl _ IH]; [constructor|].
  cbn [map]. constructor; [|exact IH].
  split; [now apply one_line_rstrip|apply rstrip_idempotent].
Qed.

Lemma file_lines_cons line rest :
  file_lines (lines_text (line :: rest))
  = file_lines (line +:+ nl) ++ file_lines (lines_text rest).
Proof.
  unfold file_lines. cbn [lines_text]. rewrite universal_newlines_line.
  destruct (universal_newlines_terminated line) as [u ->].
  apply text_lines_terminated.
Qed.

Lemma read_back_app a b : read_back (a ++ b) = read_back a ++ read_back b.
Proof.
  unfold read_back. induction a as [|line a IH]; [reflexivity|].
  cbn [app]. rewrite !file_lines_cons, !map_app, IH. now rewrite app_assoc.
Qed.

Lemma read_back_stripped lines : Forall stripped_line lines -> read_back lines = lines.
Proof.
  unfold read_back. induction 1 as [|line lines [Hone Hstrip] _ IH]; [reflexivity|].
  rewrite file_lines_cons, map_app, IH. unfold file_lines.
  rewrite (universal_newlines_one_line _ Hone), (text_lines_one_line _ Hone).
  cbn [map app]. now rewrite Hstrip.
Qed.

(** ** Searching the token *)

Lemma search_from_app n a b token :
  search_from n (a ++ b) token
  = search_from n a token ++ search_from (n + List.length a) b token.
Proof.
  revert n. induction a as [|line a IH]; intros n; cbn [app search_from List.length].
  - now rewrite Nat.add_0_r.
  - rewrite IH. replace (S n + List.length a) with (n + S (List.length a)) by lia.
    destruct (str_contains token line); reflexivity.
Qed.

Lemma search_from_without n lines token :
  Forall (fun line => str_contains token line = false) lines ->
  search_from n lines token = [].
Proof.
  intros H. revert n. induction H as [|line lines Hline _ IH]; intros n; [reflexivity|].
  cbn [search_from]. now rewrite Hline.
Qed.

(** The first line found splits the lines in two. *)
Lemma search_from_first n lines token s found :
  search_from n lines token = s :: found ->
  exists before line after,
    lines = before ++ line :: after
    /\ s = n + List.length before
    /\ Forall (fun l => str_contains token l = false) before
    /\ str_contains token line = true
    /\ search_from (S s) after token = found.
Proof.
  revert n. induction lines as [|l lines IH]; intros n; cbn [search_from]; [discriminate|].
  destruct (str_contains token l) eqn:Hl.
  - intros [= <- <-]. exists [], l, lines. cbn [List.length app].
    rewrite Nat.add_0_r. repeat split; auto.
  - intros H. destruct (IH _ H) as (before & line & after & -> & -> & Hb & Hline & Hfound).
    exists (l :: before), line, after. cbn [List.length app].
    repeat split; auto; try lia.
Qed.

(** Exactly two lines found: the lines are a head ending in the first
    marker, the region in between, and a tail starting with the second. *)
Lemma search_two lines token s e :
  search_lines_with_token lines token = [s; e] ->
  exists head marker1 between marker2 tail,
    lines = (head ++ [marker1]) ++ between ++ (marker2 :: tail)
    /\ s = List.length head
    /\ e = s + 1 + List.length between
    /\ Forall (fun l => str_contains token l = false) head
    /\ str_contains token marker1 = true
    /\ Forall (fun l => str_contains token l = false) between
    /\ str_contains token marker2 = true
    /\ Forall (fun l => str_contains token l = false) tail.
Proof.
  unfold search_lines_with_token. intros H.
  destruct (search_from_first _ _ _ _ _ H) as (head & m1 & rest & -> & -> & Hh & Hm1 & H1).
  destruct (search_from_first _ _ _ _ _ H1) as (between & m2 & tail & -> & -> & Hb & Hm2 & H2).
  exists head, m1, between, m2, tail. rewrite <- app_assoc. cbn [app].
  repeat split; auto; try lia.
  clear -H2. remember (S (S (0 + List.length head) + List.length between)) as n. clear Heqn.
  revert n H2. induction tail as [|l tail IH]; intros n; cbn [search_from]; [constructor|].
  destruct (str_contains token l) eqn:Hl; [discriminate|].
  intros H. constructor; eauto.
Qed.

Lemma firstn_head_marker {A : Type} (head : list A) m rest :
  firstn (List.length head + 1) ((head ++ [m]) ++ rest) = head ++ [m].
Proof.
  rewrite firstn_app. replace (List.length head + 1 - List.length (head ++ [m])) with 0.
  2:{ rewrite length_app. cbn. lia. }
  cbn [firstn]. rewrite app_nil_r. apply firstn_all2. rewrite length_app. cbn. lia.
Qed.

Lemma skipn_to_tail {A : Type} (front middle tail : list A) n :
  n = List.length front + List.length middle ->
  skipn n (front ++ middle ++ tail) = tail.
Proof.
  intros ->. rewrite app_assoc. rewrite <- length_app.
  rewrite skipn_app, skipn_all. rewrite Nat.sub_diag. reflexivity.
Qed.

(** Stripping trailing white space does not change whether a line holds a
    token that ends in another character. *)
Lemma str_contains_cons needle c hay :
  str_contains needle (String c hay)
  = is_prefix needle (String c hay) || str_contains needle hay.
Proof. cbn [str_contains]. destruct (is_prefix needle (String c hay)); reflexivity. Qed.

Lemma is_prefix_rstrip token s :
  ends_in_non_space token = true ->
  is_prefix token (rstrip s) = is_prefix token s.
Proof.
  revert s. induction token as [|a token IH]; intros s Hend; [discriminate|].
  destruct s as [|b s]; [reflexivity|]. rewrite rstrip_cons.
  destruct token as [|a' token'].
  - cbn [ends_in_non_space] in Hend. apply negb_true_iff in Hend.
    destruct (rstrip s) as [|c t]; cbn [is_prefix].
    + destruct (is_space b) eqn:Hb; cbn [is_prefix]; [|reflexivity].
      destruct (Ascii.eqb_spec a b) as [->|]; [congruence|reflexivity].
    + reflexivity.
  - assert (Htail : ends_in_non_space (String a' token') = true) by exact Hend.
    specialize (IH s Htail).
    destruct (rstrip s) as [|c t].
    + cbn [is_prefix] in IH |- *.
      destruct (is_space b); cbn [is_prefix]; rewrite <- IH;
        destruct (Ascii.eqb a b); reflexivity.
    + cbn [is_prefix] in IH |- *. now rewrite IH.
Qed.

Lemma str_contains_rstrip token s :
  ends_in_non_space token = true ->
  str_contains token (rstrip s) = str_contains token s.
Proof.
  intros Hend. induction s as [|b s IH].
  - reflexivity.
  - rewrite str_contains_cons, <- (is_prefix_rstrip token (String b s) Hend), rstrip_cons.
    assert (Hempty : str_contains token EmptyString = false)
      by (destruct token; [discriminate|reflexivity]).
    destruct (rstrip s) as [|c t].
    + rewrite Hempty in IH. rewrite <- IH.
      destruct (is_space b).
      * cbn [str_contains]. destruct (is_prefix token EmptyString); reflexivity.
      * rewrite str_contains_cons, Hempty. reflexivity.
    + rewrite str_contains_cons, IH. reflexivity.
Qed.

Lemma search_from_rstrip n lines token :
  ends_in_non_space token = true ->
  search_from n (map rstrip lines) token = search_from n lines token.
Proof.
  intros Hend. revert n. induction lines as [|line lines IH]; intros n; [reflexivity|].
  cbn [map search_from]. now rewrite str_contains_rstrip, IH.
Qed.

(** The lines that hold the sentinel token are the same before and after
    [rstrip]. *)
Lemma token_lines_of_file content :
  search_lines_with_token (map rstrip (file_lines content)) AUTOGENERATED_BLOCKS_LIST_TOKEN
  = search_lines_with_token (file_lines content) AUTOGENERATED_BLOCKS_LIST_TOKEN.
Proof. apply search_from_rstrip. reflexivity. Qed.

(** Writing the index back and reading it again finds the same region:
    the head up to the first marker and the tail from the second one are
    stripped lines without further markers, so they come back as they were
    and the markers are found around whatever the cards turned into. *)
Lemma resplice lines s e cards s' e' :
  Forall stripped_line lines ->
  search_lines_with_token lines AUTOGENERATED_BLOCKS_LIST_TOKEN = [s; e] ->
  search_lines_with_token (read_back (firstn (s + 1) lines ++ cards ++ skipn e lines))
    AUTOGENERATED_BLOCKS_LIST_TOKEN = [s'; e'] ->
  firstn (s' + 1) (read_back (firstn (s + 1) lines ++ cards ++ skipn e lines))
    ++ cards ++ skipn e' (read_back (firstn (s + 1) lines ++ cards ++ skipn e lines))
  = firstn (s + 1) lines ++ cards ++ skipn e lines.
Proof.
  intros Hstripped Hsearch.
  destruct (search_two _ _ _ _ Hsearch)
    as (head & m1 & between & m2 & tail & -> & -> & -> & Hhead & Hm1 & _ & Hm2 & Htail).
  rewrite firstn_head_marker.
  rewrite (skipn_to_tail (head ++ [m1]) between (m2 :: tail))
    by (rewrite length_app; cbn; lia).
  apply Forall_app in Hstripped as [Hfront Hrest].
  apply Forall_app in Hrest as [_ Hback].
  rewrite (read_back_app (head ++ [m1])), (read_back_app cards).
  rewrite (read_back_stripped _ Hfront), (read_back_stripped _ Hback).
  set (cards' := read_back cards).
  unfold search_lines_with_token.
  rewrite !search_from_app. cbn [search_from List.length Nat.add].
  rewrite (search_from_without _ head _ Hhead), Hm1, Hm2.
  rewrite (search_from_without _ tail _ Htail). cbn [app].
  destruct (search_from _ cards' _) as [|x [|y found]]; cbn [app]; try discriminate.
  intros [= <- <-].
  rewrite firstn_head_marker.
  rewrite (skipn_to_tail (head ++ [m1]) cards' (m2 :: tail)); [reflexivity|].
  rewrite !length_app. cbn. lia.
Qed.

(** ** The file system under a run *)

Lemma lookup_write_all pages (m : gmap string string) path :
  write_all pages m !! path
  = match written pages path with
    | Some content => Some content
    | None => m !! path
    end.
Proof.
  revert m. induction pages as [|[p c] pages IH]; intros m; [reflexivity|].
  cbn [write_all fold_left written fst snd]. fold (write_all pages (<[p:=c]> m)).
  rewrite IH. destruct (written pages path); [reflexivity|].
  destruct (String.eqb_spec p path) as [->|Hne].
  - apply lookup_insert_eq.
  - now apply lookup_insert_ne.
Qed.

Lemma write_all_twice pages (m : gmap string string) :
  write_all pages (write_all pages m) = write_all pages m.
Proof.
  apply map_eq. intros path. rewrite !lookup_write_all.
  destruct (written pages path); reflexivity.
Qed.

Lemma write_all_resave pages (m : gmap string string) path content :
  <[path := content]> (write_all pages (<[path := content]> (write_all pages m)))
  = <[path := content]> (write_all pages m).
Proof.
  apply map_eq. intros k. destruct (decide (path = k)) as [->|Hne].
  - now rewrite !lookup_insert_eq.
  - rewrite !lookup_insert_ne by assumption.
    rewrite (lookup_write_all pages (<[path:=content]> (write_all pages m))).
    rewrite lookup_insert_ne by assumption. rewrite !lookup_write_all.
    destruct (written pages k); reflexivity.
Qed.

Lemma write_all_keeps pages (m : gmap string string) path :
  is_Some (m !! path) -> is_Some (write_all pages m !! path).
Proof.
  intros H. rewrite lookup_write_all. destruct (written pages path); eauto.
Qed.

Lemma dom_write_all pages (m : gmap string string) : dom m ⊆ dom (write_all pages m).
Proof.
  intros path Hpath. apply elem_of_dom in Hpath. apply elem_of_dom.
  now apply write_all_keeps.
Qed.

(** *** Paths *)

Lemma append_empty (a : string) : a +:+ EmptyString = a.
Proof. induction a as [|c a IH]; [reflexivity|]. now rewrite append_cons, IH. Qed.

Lemma append_last (a : string) c (b : string) :
  (a +:+ String c EmptyString) +:+ b = a +:+ String c b.
Proof. now rewrite append_associative, append_cons, append_nil. Qed.

Lemma length_of_append (a b : string) :
  String.length (a +:+ b) = String.length a + String.length b.
Proof. induction a as [|c a IH]; [reflexivity|]. rewrite append_cons. cbn. now rewrite IH. Qed.

Lemma ancestors_from_app seen a b :
  ancestors_from seen (a +:+ b)
  = ancestors_from seen a ++ ancestors_from (seen +:+ a) b.
Proof.
  revert seen. induction a as [|c a IH]; intros seen.
  - now rewrite append_nil, append_empty.
  - rewrite append_cons. cbn [ancestors_from].
    destruct (is_slash c); rewrite IH, append_last; reflexivity.
Qed.

Lemma ancestors_from_name seen name :
  forallb (fun c => negb (is_slash c)) (list_ascii_of_string name) = true ->
  ancestors_from seen name = [].
Proof.
  revert seen. induction name as [|c name IH]; intros seen; [reflexivity|].
  cbn [list_ascii_of_string forallb ancestors_from]. intros H.
  apply andb_true_iff in H as [Hc Hname]. apply negb_true_iff in Hc.
  rewrite Hc. now apply IH.
Qed.

(** A name without a slash put after the same path goes to the same
    directory. *)
Lemma ancestors_of_name base name :
  forallb (fun c => negb (is_slash c)) (list_ascii_of_string name) = true ->
  ancestors (base +:+ name) = ancestors base.
Proof.
  intros Hname. unfold ancestors.
  now rewrite ancestors_from_app, (ancestors_from_name _ _ Hname), app_nil_r.
Qed.

Lemma rstrip_slashes_prefix h : exists t, h = rstrip_slashes h +:+ t.
Proof.
  induction h as [|c h [t IH]]; [now exists EmptyString|].
  cbn [rstrip_slashes]. destruct (rstrip_slashes h) as [|d r] eqn:Hr.
  - destruct (is_slash c).
    + now exists (String c h).
    + exists h. reflexivity.
  - exists t. rewrite append_cons. now rewrite <- IH.
Qed.

Lemma split_head_prefix h : exists t, h = split_head h +:+ t.
Proof.
  unfold split_head. destruct (rstrip_slashes h) as [|d r] eqn:Hr.
  - exists EmptyString. now rewrite append_empty.
  - rewrite <- Hr. apply rstrip_slashes_prefix.
Qed.

(** What is above a path is a beginning of it. *)
Lemma ancestors_from_prefix seen p a :
  In a (ancestors_from seen p) -> exists rest, seen +:+ p = a +:+ rest.
Proof.
  revert seen. induction p as [|c p IH]; intros seen; [intros []|].
  cbn [ancestors_from]. destruct (is_slash c).
  - intros [<-|Hin].
    + destruct (split_head_prefix (seen +:+ String c EmptyString)) as [t Ht].
      exists (t +:+ p). rewrite <- append_associative, <- Ht. now rewrite append_last.
    + destruct (IH _ Hin) as [rest Hrest]. exists rest. now rewrite <- Hrest, append_last.
  - intros Hin. destruct (IH _ Hin) as [rest Hrest]. exists rest.
    now rewrite <- Hrest, append_last.
Qed.

Lemma ancestors_prefix p a : In a (ancestors p) -> exists rest, p = a +:+ rest.
Proof. intros Hin. apply ancestors_from_prefix in Hin. now rewrite append_nil in Hin. Qed.

Lemma ancestors_transitive a d q :
  In a (ancestors d) -> In d (ancestors q) -> In a (ancestors q).
Proof.
  intros Ha Hd. destruct (ancestors_prefix _ _ Hd) as [rest ->].
  unfold ancestors in *. rewrite ancestors_from_app. apply in_or_app. now left.
Qed.

Lemma ancestors_not_longer p a : In a (ancestors p) -> String.length a <= String.length p.
Proof.
  intros Hin. destruct (ancestors_prefix _ _ Hin) as [rest ->].
  rewrite length_of_append. lia.
Qed.

(** *** What is at a path *)

Lemma In_listed st q : In q (listed st) <-> q ∈ dirs st \/ is_Some (files st !! q).
Proof.
  unfold listed. rewrite <- list_elem_of_In, elem_of_elements, elem_of_union, elem_of_dom.
  reflexivity.
Qed.

Lemma is_above_In p q : is_above p q = true <-> In p (ancestors q).
Proof. apply existsb_eqb_In. Qed.

Lemma is_file_spec st p : is_file st p = true <-> is_Some (files st !! p).
Proof. unfold is_file. apply bool_decide_eq_true. Qed.

Lemma is_directory_spec st p :
  is_directory st p = true
  <-> is_root p = true \/ p ∈ dirs st
      \/ exists q, (q ∈ dirs st \/ is_Some (files st !! q)) /\ In p (ancestors q).
Proof.
  unfold is_directory. rewrite !orb_true_iff, bool_decide_eq_true, existsb_exists.
  split.
  - intros [[H|H]|(q & Hq & Habove)]; auto.
    right. right. exists q. split; [now apply In_listed|now apply is_above_In].
  - intros [H|[H|(q & Hq & Habove)]]; auto.
    right. exists q. split; [now apply In_listed|now apply is_above_In].
Qed.

Lemma is_directory_above st a q :
  q ∈ dirs st \/ is_Some (files st !! q) -> In a (ancestors q) -> is_directory st a = true.
Proof. intros Hq Ha. apply is_directory_spec. right. right. eauto. Qed.

Lemma is_directory_mono st st' p :
  dirs st ⊆ dirs st' -> dom (files st) ⊆ dom (files st') ->
  is_directory st p = true -> is_directory st' p = true.
Proof.
  intros Hdirs Hfiles. rewrite !is_directory_spec.
  intros [H|[H|(q & [Hq|Hq] & Ha)]]; auto.
  - right. right. exists q. auto.
  - right. right. exists q. split; [|exact Ha]. right.
    apply elem_of_dom, Hfiles, elem_of_dom, Hq.
Qed.

Lemma is_file_mono st st' p :
  dom (files st) ⊆ dom (files st') -> is_file st p = true -> is_file st' p = true.
Proof.
  intros Hfiles. rewrite !is_file_spec. intros H.
  apply elem_of_dom, Hfiles, elem_of_dom, H.
Qed.

Lemma path_exists_mono st st' p :
  dirs st ⊆ dirs st' -> dom (files st) ⊆ dom (files st') ->
  path_exists st p = true -> path_exists st' p = true.
Proof.
  intros Hdirs Hfiles. unfold path_exists. rewrite !orb_true_iff.
  intros [H|H]; [left; eapply is_directory_mono|right; eapply is_file_mono]; eauto.
Qed.

(** What is at a path depends on the names the state lists, not on what
    the files hold. *)
Lemma is_directory_names st st' p :
  dirs st = dirs st' -> dom (files st) = dom (files st') ->
  is_directory st p = is_directory st' p.
Proof.
  intros Hdirs Hfiles. apply eq_true_iff_eq.
  split; apply is_directory_mono; rewrite ?Hdirs, ?Hfiles; reflexivity.
Qed.

Lemma is_file_names st st' p :
  dom (files st) = dom (files st') -> is_file st p = is_file st' p.
Proof.
  intros Hfiles. apply eq_true_iff_eq. split; apply is_file_mono; now rewrite Hfiles.
Qed.

Lemma first_obstacle_names st st' above :
  dirs st = dirs st' -> dom (files st) = dom (files st') ->
  first_obstacle st above = first_obstacle st' above.
Proof.
  intros Hdirs Hfiles. induction above as [|a above IH]; [reflexivity|].
  cbn [first_obstacle].
  now rewrite (is_directory_names st st' a Hdirs Hfiles), (is_file_names st st' a Hfiles), IH.
Qed.

Lemma first_obstacle_none st above :
  first_obstacle st above = None <-> Forall (fun a => is_directory st a = true) above.
Proof.
  induction above as [|a above IH]; cbn [first_obstacle].
  - split; [constructor|reflexivity].
  - destruct (is_directory st a) eqn:Ha.
    + rewrite IH. split; [now constructor|]. intros H. now inversion H.
    + split; [destruct (is_file st a); discriminate|].
      intros H. inversion H; congruence.
Qed.

(** *** Opening and writing *)

Lemma open_for_writing_names st st' path :
  dirs st = dirs st' -> dom (files st) = dom (files st') ->
  open_for_writing path st = open_for_writing path st'.
Proof.
  intros Hdirs Hfiles. unfold open_for_writing.
  rewrite (is_directory_names st st' path Hdirs Hfiles),
          (first_obstacle_names st st' _ Hdirs Hfiles).
  assert (Hlookup : is_Some (files st !! path) <-> is_Some (files st' !! path))
    by (rewrite <- !elem_of_dom, Hfiles; reflexivity).
  destruct (files st !! path) as [x|], (files st' !! path) as [y|]; try reflexivity.
  - destruct Hlookup as [H _]. destruct H as [z Hz]; [eauto|discriminate].
  - destruct Hlookup as [_ H]. destruct H as [z Hz]; [eauto|discriminate].
Qed.

Lemma open_for_writing_no_slash path st :
  open_for_writing path st = Ok tt -> ends_with_slash path = false.
Proof. unfold open_for_writing. destruct (ends_with_slash path); [discriminate|reflexivity]. Qed.

(** A regular file can be opened again. *)
Lemma open_for_writing_file path st :
  ends_with_slash path = false -> is_Some (files st !! path) ->
  open_for_writing path st = Ok tt.
Proof. unfold open_for_writing. intros -> [x ->]. reflexivity. Qed.

(** What can be opened can still be opened after another file is
    written. *)
Lemma open_for_writing_after path other content st :
  open_for_writing other st = Ok tt ->
  open_for_writing path st = Ok tt ->
  open_for_writing path {| dirs := dirs st; files := <[other := content]> (files st) |}
  = Ok tt.
Proof.
  intros Hother Hpath. pose proof (open_for_writing_no_slash _ _ Hpath) as Hslash.
  set (st' := {| dirs := dirs st; files := <[other := content]> (files st) |}).
  assert (Hdirs : dirs st ⊆ dirs st') by reflexivity.
  assert (Hdom : dom (files st) ⊆ dom (files st')).
  { unfold st'. cbn [files]. rewrite dom_insert. set_solver. }
  destruct (files st' !! path) as [x|] eqn:Hnew.
  { apply open_for_writing_file; [exact Hslash|]. rewrite Hnew. eauto. }
  assert (Hne : other <> path).
  { intros ->. unfold st' in Hnew. cbn [files] in Hnew.
    rewrite lookup_insert_eq in Hnew. discriminate. }
  assert (Hold : files st !! path = None).
  { unfold st' in Hnew. cbn [files] in Hnew. now rewrite lookup_insert_ne in Hnew. }
  unfold open_for_writing in Hpath |- *. rewrite Hslash, Hold in Hpath. rewrite Hslash, Hnew.
  destruct (is_directory st path) eqn:Hdir; [discriminate|].
  destruct (first_obstacle st (ancestors path)) as [e|] eqn:Hway; [discriminate|].
  assert (Habove : forall a, In a (ancestors other) -> is_directory st a = true).
  { intros a Ha. unfold open_for_writing in Hother.
    destruct (ends_with_slash other); [discriminate|].
    destruct (files st !! other) as [y|] eqn:Hfile.
    - eapply is_directory_above; [right; rewrite Hfile; eauto|exact Ha].
    - destruct (is_directory st other); [discriminate|].
      destruct (first_obstacle st (ancestors other)) as [e|] eqn:Hway'; [discriminate|].
      apply first_obstacle_none in Hway'. rewrite List.Forall_forall in Hway'. auto. }
  assert (Hdir' : is_directory st' path = false).
  { apply not_true_is_false. intros H. apply is_directory_spec in H.
    destruct H as [H|[H|(q & Hq & Ha)]].
    - assert (is_directory st path = true) by (apply is_directory_spec; auto). congruence.
    - assert (is_directory st path = true) by (apply is_directory_spec; auto). congruence.
    - unfold st' in Hq. cbn [dirs files] in Hq.
      destruct (decide (other = q)) as [<-|Hq'].
      + rewrite (Habove _ Ha) in Hdir. discriminate.
      + rewrite lookup_insert_ne in Hq by assumption.
        rewrite (is_directory_above st path q Hq Ha) in Hdir. discriminate. }
  rewrite Hdir'.
  assert (Hway' : first_obstacle st' (ancestors path) = None).
  { apply first_obstacle_none. apply first_obstacle_none in Hway.
    eapply List.Forall_impl; [|exact Hway]. intros a. now apply is_directory_mono. }
  rewrite Hway'. exact Hpath.
Qed.

Lemma write_file_ok path content st :
  open_for_writing path st = Ok tt ->
  write_file path content st
  = (Ok tt, {| dirs := dirs st; files := <[path := content]> (files st) |}).
Proof. unfold write_file. now intros ->. Qed.

Lemma write_file_raises path content st e :
  open_for_writing path st = Raise e -> write_file path content st = (Raise e, st).
Proof. unfold write_file. now intros ->. Qed.

Lemma open_for_writing_cases path st :
  open_for_writing path st = Ok tt \/ exists e, open_for_writing path st = Raise e.
Proof. destruct (open_for_writing path st) as [[]|e]; eauto. Qed.

(** The loop of writes changes no directory and removes no file. *)
Lemma write_pages_grows pages st r st1 :
  write_pages pages st = (r, st1) ->
  dirs st1 = dirs st /\ dom (files st) ⊆ dom (files st1).
Proof.
  revert st. induction pages as [|[path content] pages IH]; intros st; cbn [write_pages fst snd].
  - intros [= <- <-]. split; reflexivity.
  - destruct (open_for_writing_cases path st) as [Hopen|[e Hopen]].
    + rewrite (write_file_ok _ _ _ Hopen). intros Hrest.
      destruct (IH _ Hrest) as [Hdirs Hdom]. cbn [dirs files] in *.
      split; [exact Hdirs|]. rewrite dom_insert in Hdom. set_solver.
    + rewrite (write_file_raises _ _ _ _ Hopen). intros [= <- <-]. split; reflexivity.
Qed.

(** Done again on a state that lists what the first time left, the loop
    of writes ends as it did the first time, having written the same
    pages. *)
Lemma write_pages_again pages st r st1 st2 :
  write_pages pages st = (r, st1) ->
  dirs st2 = dirs st1 ->
  dom (files st2) = dom (files st1) ->
  exists done,
    files st1 = write_all done (files st)
    /\ (r = Ok tt -> done = pages)
    /\ (forall page, In page done -> In page pages)
    /\ write_pages pages st2
       = (r, {| dirs := dirs st2; files := write_all done (files st2) |}).
Proof.
  revert st st2. induction pages as [|[path content] pages IH]; intros st st2;
    cbn [write_pages fst snd].
  - intros [= <- <-] _ _. exists []. repeat split; auto. now destruct st2.
  - destruct (open_for_writing_cases path st) as [Hopen|[e Hopen]].
    + rewrite (write_file_ok _ _ _ Hopen). intros Hrest Hdirs Hdom.
      destruct (write_pages_grows _ _ _ _ Hrest) as [_ Hgrows]. cbn [files] in Hgrows.
      assert (Hthere : is_Some (files st2 !! path)).
      { apply elem_of_dom. rewrite Hdom. apply Hgrows. rewrite dom_insert. set_solver. }
      rewrite (write_file_ok path content st2)
        by (apply open_for_writing_file;
            [exact (open_for_writing_no_slash _ _ Hopen)|exact Hthere]).
      destruct (IH _ {| dirs := dirs st2; files := <[path := content]> (files st2) |} Hrest)
        as (done & Hfiles & Hall & Hin & Hagain).
      { exact Hdirs. }
      { cbn [files]. rewrite dom_insert_L, <- Hdom. apply elem_of_dom in Hthere. set_solver. }
      exists ((path, content) :: done). split; [exact Hfiles|]. split; [|split].
      * intros Hr. now rewrite (Hall Hr).
      * intros page [<-|Hpage]; [now left|right; auto].
      * exact Hagain.
    + rewrite (write_file_raises _ _ _ _ Hopen). intros [= <- <-] Hdirs Hdom.
      exists []. split; [reflexivity|]. split; [discriminate|]. split; [intros page []|].
      rewrite (write_file_raises path content st2 e); [now destruct st2|].
      now rewrite <- (open_for_writing_names st st2) by auto.
Qed.

(** When every page can be opened in the state the loop starts from, all
    of them are written. *)
Lemma write_pages_ok pages st :
  Forall (fun page => open_for_writing (fst page) st = Ok tt) pages ->
  write_pages pages st
  = (Ok tt, {| dirs := dirs st; files := write_all pages (files st) |}).
Proof.
  revert st. induction pages as [|[path content] pages IH]; intros st Hall.
  - now destruct st.
  - inversion Hall as [|? ? Hopen Hrest]; subst. cbn [fst] in Hopen.
    cbn [write_pages fst snd]. rewrite (write_file_ok _ _ _ Hopen).
    rewrite IH; [reflexivity|].
    eapply List.Forall_impl; [|exact Hrest]. intros page Hpage.
    now apply open_for_writing_after.
Qed.

(** *** Making the directory *)

Lemma makedirs_files d st : files (snd (makedirs d st)) = files st.
Proof.
  unfold makedirs. destruct (String.eqb d EmptyString); [reflexivity|].
  destruct (first_obstacle st (ancestors d)) as [[]|]; reflexivity.
Qed.

Lemma create_directory_files d st :
  files (snd (create_directory_if_not_exists d st)) = files st.
Proof.
  unfold create_directory_if_not_exists. destruct (path_exists st d); [reflexivity|].
  apply makedirs_files.
Qed.

Lemma makedirs_dirs d st :
  dirs st ⊆ dirs (snd (makedirs d st))
  /\ dirs (snd (makedirs d st)) ⊆ {[d]} ∪ list_to_set (ancestors d) ∪ dirs st.
Proof.
  unfold makedirs. destruct (String.eqb d EmptyString); [cbn; set_solver|].
  assert (Hmissing : list_to_set (C := gset string)
                       (List.filter (fun a => negb (is_directory st a)) (ancestors d))
                     ⊆ list_to_set (ancestors d)).
  { intros a. rewrite !elem_of_list_to_set, !list_elem_of_In, filter_In. tauto. }
  destruct (first_obstacle st (ancestors d)) as [[]|]; cbn [snd dirs]; set_solver.
Qed.

Lemma create_directory_dirs d st :
  dirs st ⊆ dirs (snd (create_directory_if_not_exists d st))
  /\ dirs (snd (create_directory_if_not_exists d st))
     ⊆ {[d]} ∪ list_to_set (ancestors d) ∪ dirs st.
Proof.
  unfold create_directory_if_not_exists. destruct (path_exists st d); [cbn; set_solver|].
  apply makedirs_dirs.
Qed.

Lemma create_directory_exists d st :
  fst (create_directory_if_not_exists d st) = Ok tt ->
  path_exists (snd (create_directory_if_not_exists d st)) d = true.
Proof.
  unfold create_directory_if_not_exists. destruct (path_exists st d) eqn:Hthere; [easy|].
  unfold makedirs. destruct (String.eqb d EmptyString); [discriminate|].
  assert (Hmade : forall missing,
            path_exists {| dirs := {[d]} ∪ missing ∪ dirs st; files := files st |} d = true).
  { intros missing. unfold path_exists, is_directory. cbn [dirs].
    rewrite (bool_decide_eq_true_2 (d ∈ {[d]} ∪ missing ∪ dirs st)) by set_solver.
    now rewrite orb_true_r. }
  destruct (first_obstacle st (ancestors d)) as [[]|]; cbn [fst snd];
    try discriminate; intros _; apply Hmade.
Qed.

Lemma create_directory_again d st :
  path_exists st d = true -> create_directory_if_not_exists d st = (Ok tt, st).
Proof. unfold create_directory_if_not_exists. now intros ->. Qed.

Lemma create_directory_raises d st e :
  fst (create_directory_if_not_exists d st) = Raise e ->
  snd (create_directory_if_not_exists d st) = st
  /\ path_exists st d = false
  /\ (e = NotADirectoryError \/ (e = FileNotFoundError /\ d = EmptyString)).
Proof.
  unfold create_directory_if_not_exists. destruct (path_exists st d); [discriminate|].
  unfold makedirs. destruct (String.eqb_spec d EmptyString) as [->|Hd].
  - intros [= <-]. auto.
  - destruct (first_obstacle st (ancestors d)) as [[]|]; cbn [fst snd];
      try discriminate. intros [= <-]. auto.
Qed.

(** The state either way: the one the call found, or one with more
    directories and the same files. *)
Lemma create_directory_cases d st :
  (exists e, create_directory_if_not_exists d st = (Raise e, st))
  \/ (exists st1, create_directory_if_not_exists d st = (Ok tt, st1)
                  /\ files st1 = files st /\ dirs st ⊆ dirs st1
                  /\ path_exists st1 d = true).
Proof.
  destruct (create_directory_if_not_exists d st) as [[[]|e] st1] eqn:Hcreate.
  - right. exists st1. split; [reflexivity|].
    pose proof (create_directory_files d st) as Hfiles.
    pose proof (create_directory_dirs d st) as [Hdirs _].
    pose proof (create_directory_exists d st) as Hexists.
    rewrite Hcreate in Hfiles, Hdirs, Hexists. cbn [fst snd] in *. auto.
  - left. exists e.
    pose proof (create_directory_raises d st e) as Hraises.
    rewrite Hcreate in Hraises. cbn [fst snd] in Hraises.
    destruct Hraises as [-> _]; reflexivity.
Qed.

(** ** The pipeline *)

Section PipelineProperties.

Variable set_iter : list string -> list string.
Variable repr_float : spec_float -> string.
Variable cwd : string.

Local Abbreviation FILE := (BLOCK_DOCUMENTATION_FILE cwd).
Local Abbreviation DIRECTORY := (BLOCK_DOCUMENTATION_DIRECTORY cwd).
Local Abbreviation TOKEN := AUTOGENERATED_BLOCKS_LIST_TOKEN.
Local Abbreviation plan := (pages_and_cards set_iter repr_float cwd).

(** The index and the pages directory are two names in one directory. *)
Lemma index_and_directory :
  exists base,
    FILE = base +:+ "blocks.md" /\ DIRECTORY = base +:+ "blocks".
Proof.
  unfold BLOCK_DOCUMENTATION_FILE, BLOCK_DOCUMENTATION_DIRECTORY.
  set (workflows := path_join (path_join cwd "docs") "workflows").
  unfold path_join. cbn [starts_with_slash Ascii.eqb Bool.eqb].
  destruct (String.eqb workflows EmptyString || ends_with_slash workflows).
  - exists workflows. split; reflexivity.
  - exists (workflows +:+ "/"). now rewrite !append_associative.
Qed.

Lemma ancestors_of_index : ancestors FILE = ancestors DIRECTORY.
Proof.
  destruct index_and_directory as (base & -> & ->).
  now rewrite !ancestors_of_name by reflexivity.
Qed.

Lemma ends_with_slash_name base name :
  name <> EmptyString ->
  ends_with_slash (base +:+ name) = ends_with_slash name.
Proof.
  intros Hname. induction base as [|c base IH]; [reflexivity|].
  rewrite append_cons. cbn [ends_with_slash]. rewrite IH.
  destruct (base +:+ name) as [|d rest] eqn:Hrest; [|reflexivity].
  apply (f_equal String.length) in Hrest. rewrite length_of_append in Hrest.
  destruct name; [congruence|cbn in Hrest; lia].
Qed.

Lemma index_has_no_final_slash : ends_with_slash FILE = false.
Proof.
  destruct index_and_directory as (base & -> & _).
  now rewrite ends_with_slash_name by discriminate.
Qed.

(** Beside the index file, the pages directory is there or can be made. *)
Lemma create_directory_beside_index st :
  is_Some (files st !! FILE) ->
  fst (create_directory_if_not_exists DIRECTORY st) = Ok tt.
Proof.
  intros Hindex. unfold create_directory_if_not_exists.
  destruct (path_exists st DIRECTORY); [reflexivity|]. unfold makedirs.
  assert (Hway : first_obstacle st (ancestors DIRECTORY) = None).
  { apply first_obstacle_none, List.Forall_forall. intros a Ha.
    rewrite <- ancestors_of_index in Ha. eapply is_directory_above; eauto. }
  rewrite Hway. destruct (String.eqb_spec DIRECTORY EmptyString) as [Hempty|_]; [|reflexivity].
  destruct index_and_directory as (base & _ & Hdirectory). rewrite Hdirectory in Hempty.
  apply (f_equal String.length) in Hempty. rewrite length_of_append in Hempty.
  cbn in Hempty. lia.
Qed.

(** The loop writes the pages of [pages_and_cards], as far as they can be
    written, and then ends as it says. *)
Lemma process_blocks_pages blocks cards st :
  process_blocks set_iter repr_float cwd blocks cards st
  = match write_pages (fst (plan blocks cards)) st with
    | (Raise e, st') => (Raise e, st')
    | (Ok _, st') => (snd (plan blocks cards), st')
    end.
Proof.
  revert cards st. induction blocks as [|block blocks IH]; intros cards st.
  - reflexivity.
  - cbn [process_blocks pages_and_cards].
    destruct (block_page set_iter repr_float cwd block) as [[path content]|err];
      [|reflexivity].
    destruct (block_card repr_float block) as [card|err].
    + destruct (plan blocks (cards ++ [card])) as [pages outcome] eqn:Hplan.
      cbn [fst snd write_pages].
      destruct (write_file path content st) as [[[]|e] st']; [|reflexivity].
      rewrite IH, Hplan. reflexivity.
    + cbn [fst snd write_pages].
      destruct (write_file path content st) as [[[]|e] st']; reflexivity.
Qed.

(** [regenerate] by cases: the index cannot be read; not exactly two
    token lines; a page that cannot be written; an exception in the loop;
    the index rewritten. *)
Lemma regenerate_eq blocks st :
  regenerate set_iter repr_float cwd blocks st
  = match files st !! FILE with
    | None => (Raise (cannot_read FILE st), st)
    | Some content =>
        let lines := map rstrip (file_lines content) in
        match search_lines_with_token lines TOKEN with
        | [s; e] =>
            match write_pages (fst (plan blocks [])) st with
            | (Raise err, st') => (Raise err, st')
            | (Ok _, st') =>
                match snd (plan blocks []) with
                | Raise err => (Raise err, st')
                | Ok cards =>
                    save_lines_to_file FILE
                      (firstn (s + 1) lines ++ cards ++ skipn e lines) st'
                end
            end
        | _ => (Raise token_error, st)
        end
    end.
Proof.
  unfold regenerate, read_lines_from_file.
  destruct (files st !! FILE) as [content|]; [|reflexivity]. cbv zeta.
  destruct (search_lines_with_token _ TOKEN) as [|s [|e [|x found]]]; try reflexivity.
  cbn [List.length Nat.eqb negb]. cbv iota. rewrite process_blocks_pages.
  destruct (write_pages _ st) as [[[]|err] st']; [|reflexivity].
  destruct (snd (plan blocks [])); reflexivity.
Qed.

(** [regenerate] makes no directory and removes no file. *)
Lemma regenerate_grows blocks st :
  dirs (snd (regenerate set_iter repr_float cwd blocks st)) = dirs st
  /\ dom (files st) ⊆ dom (files (snd (regenerate set_iter repr_float cwd blocks st))).
Proof.
  rewrite regenerate_eq.
  destruct (files st !! FILE) as [content|]; [|split; reflexivity]. cbv zeta.
  destruct (search_lines_with_token _ TOKEN) as [|s [|e [|x found]]];
    try (split; reflexivity).
  destruct (write_pages _ st) as [r st'] eqn:Hpages.
  destruct (write_pages_grows _ _ _ _ Hpages) as [Hdirs Hdom].
  destruct r as [[]|err]; [|split; assumption].
  destruct (snd (plan blocks [])) as [cards|err]; [|split; assumption].
  unfold save_lines_to_file, write_file.
  destruct (open_for_writing FILE st') as [[]|err]; cbn [snd dirs files]; [|split; assumption].
  split; [exact Hdirs|]. rewrite dom_insert. set_solver.
Qed.

Lemma regenerate_idempotent blocks st :
  snd (regenerate set_iter repr_float cwd blocks (snd (regenerate set_iter repr_float cwd blocks st)))
  = snd (regenerate set_iter repr_float cwd blocks st).
Proof.
  rewrite (regenerate_eq blocks st).
  destruct (files st !! FILE) as [content|] eqn:Hfile.
  2:{ cbn [snd]. rewrite regenerate_eq, Hfile. reflexivity. }
  cbv zeta.
  destruct (search_lines_with_token (map rstrip (file_lines content)) TOKEN)
    as [|s [|e [|x found]]] eqn:Hsearch;
    try (cbn [snd]; rewrite regenerate_eq, Hfile; cbv zeta; rewrite Hsearch; reflexivity).
  destruct (write_pages (fst (plan blocks [])) st) as [r st1] eqn:Hpages.
  destruct (write_pages_grows _ _ _ _ Hpages) as [Hdirs Hdom].
  assert (Hindex : is_Some (files st1 !! FILE)).
  { apply elem_of_dom, Hdom, elem_of_dom. rewrite Hfile. eauto. }
  (* the loop of writes, done again on what a state [st2] with the names of [st1] *)
  assert (Hsame : forall st2,
            dirs st2 = dirs st1 -> dom (files st2) = dom (files st1) ->
            exists done,
              files st1 = write_all done (files st)
              /\ (r = Ok tt -> done = fst (plan blocks []))
              /\ write_pages (fst (plan blocks [])) st2
                 = (r, {| dirs := dirs st2; files := write_all done (files st2) |})).
  { intros st2 H1 H2.
    destruct (write_pages_again _ _ _ _ st2 Hpages H1 H2) as (done & Hd & Hall & _ & Hagain).
    exists done. auto. }
  assert (Hfixed : forall err, r = Raise err \/ snd (plan blocks []) = Raise err ->
            snd (regenerate set_iter repr_float cwd blocks st1) = st1).
  { intros err Herr. rewrite regenerate_eq. destruct Hindex as [content' ->]. cbv zeta.
    destruct (search_lines_with_token (map rstrip (file_lines content')) TOKEN)
      as [|s' [|e' [|x found]]]; try reflexivity.
    destruct (Hsame st1 eq_refl eq_refl) as (done & Hdone & Hall & ->).
    assert (Hstate : {| dirs := dirs st1; files := write_all done (files st1) |} = st1).
    { rewrite Hdone, write_all_twice, <- Hdone. now destruct st1. }
    rewrite Hstate.
    destruct r as [[]|err']; [|reflexivity].
    destruct Herr as [Herr|Herr]; [discriminate|]. now rewrite Herr. }
  destruct r as [[]|err]; [|cbn [snd]; apply (Hfixed err); now left].
  destruct (snd (plan blocks [])) as [cards|err] eqn:Hplan;
    [|cbn [snd]; apply (Hfixed err); now right].
  clear Hfixed.
  set (lines := map rstrip (file_lines content)) in *.
  set (index := lines_text (firstn (s + 1) lines ++ cards ++ skipn e lines)).
  set (st3 := {| dirs := dirs st1; files := <[FILE := index]> (files st1) |}).
  assert (Hsave : save_lines_to_file FILE (firstn (s + 1) lines ++ cards ++ skipn e lines) st1
                  = (Ok tt, st3)).
  { unfold save_lines_to_file. apply write_file_ok.
    apply open_for_writing_file; [apply index_has_no_final_slash|exact Hindex]. }
  rewrite Hsave. cbn [snd].
  rewrite regenerate_eq. unfold st3 at 1. cbn [files]. rewrite lookup_insert_eq. cbv zeta.
  change (map rstrip (file_lines index))
    with (read_back (firstn (s + 1) lines ++ cards ++ skipn e lines)).
  destruct (search_lines_with_token (read_back _) TOKEN)
    as [|s' [|e' [|x found]]] eqn:Hagain; try reflexivity.
  destruct (Hsame st3) as (done & Hdone & Hall & ->).
  { reflexivity. }
  { unfold st3. cbn [files]. rewrite dom_insert_L. apply elem_of_dom in Hindex. set_solver. }
  rewrite (Hall eq_refl) in *. rewrite Hplan.
  rewrite (resplice lines s e cards s' e' (read_lines_stripped content) Hsearch Hagain).
  unfold save_lines_to_file. fold index.
  rewrite write_file_ok.
  2:{ apply open_for_writing_file; [apply index_has_no_final_slash|]. cbn [files].
      apply write_all_keeps. unfold st3. cbn [files]. rewrite lookup_insert_eq. eauto. }
  cbn [snd dirs files]. unfold st3. cbn [dirs files]. f_equal.
  rewrite Hdone. apply write_all_resave.
Qed.

(** C4: when the index document does not hold the token on exactly two
    lines, the run ends with the exception whose message asks for the two
    tokens, and no file has been written: the files are those the run
    started from (only the pages directory, with what was missing above
    it, has been made). *)
Theorem token_count_aborts blocks st content :
  files st !! FILE = Some content ->
  List.length (search_lines_with_token (file_lines content) TOKEN) <> 2 ->
  run set_iter repr_float cwd blocks st
  = (Raise (Exception_ "Please inject two <!--- AUTOGENERATED_BLOCKS_LIST --> tokens to signal start and end of autogenerated table."),
     snd (create_directory_if_not_exists DIRECTORY st))
  /\ files (snd (run set_iter repr_float cwd blocks st)) = files st.
Proof.
  intros Hfile Hcount.
  assert (Hrun : run set_iter repr_float cwd blocks st
                 = (Raise token_error, snd (create_directory_if_not_exists DIRECTORY st))).
  { unfold run.
    pose proof (create_directory_beside_index st) as Hmade.
    pose proof (create_directory_files DIRECTORY st) as Hfiles.
    destruct (create_directory_if_not_exists DIRECTORY st) as [[[]|err] st1];
      cbn [fst snd] in *; [|rewrite Hfile in Hmade; discriminate Hmade; eauto].
    rewrite regenerate_eq, Hfiles, Hfile. cbv zeta.
    rewrite token_lines_of_file.
    destruct (search_lines_with_token _ TOKEN) as [|s [|e [|x found]]]; try reflexivity.
    now elim Hcount. }
  split; [exact Hrun|]. rewrite Hrun. apply create_directory_files.
Qed.

(** The plan of a listing all of whose pages and cards are made, and
    whose pages can be opened in [st]. *)
Lemma cards_of_all blocks cards st :
  Forall (fun block =>
            (exists page, block_page set_iter repr_float cwd block = Ok page
                          /\ open_for_writing (fst page) st = Ok tt)
            /\ raises (block_card repr_float block) = false) blocks ->
  exists new_cards,
    Forall2 (fun block card => block_card repr_float block = Ok card) blocks new_cards
    /\ snd (plan blocks cards) = Ok (cards ++ new_cards)
    /\ Forall (fun page => open_for_writing (fst page) st = Ok tt) (fst (plan blocks cards)).
Proof.
  intros Hall. revert cards.
  induction Hall as [|block blocks [(page & Hpage & Hopen) Hcard] _ IH]; intros cards.
  - exists []. split; [constructor|]. cbn. rewrite app_nil_r. split; [reflexivity|constructor].
  - cbn [pages_and_cards]. rewrite Hpage.
    destruct (block_card repr_float block) as [card|] eqn:Hc; [|discriminate].
    destruct (IH (cards ++ [card])) as (new_cards & Hcards & Hplan & Hopens).
    exists (card :: new_cards). split; [now constructor|].
    destruct (plan blocks (cards ++ [card])) as [pages outcome]. cbn [fst snd] in *.
    split; [now rewrite Hplan, <- app_assoc|now constructor].
Qed.

Lemma file_lines_written lines :
  Forall (fun line => one_line line = true) lines -> file_lines (lines_text lines) = lines.
Proof.
  induction 1 as [|line lines Hone _ IH]; [reflexivity|].
  rewrite file_lines_cons, IH. unfold file_lines.
  now rewrite (universal_newlines_one_line _ Hone), (text_lines_one_line _ Hone).
Qed.

(** C5, as the code has it: when the token is on exactly two lines of the
    index, [s] and [e], and every block of the listing gets its page and
    its card without an exception and its page can be opened for writing
    once the pages directory is there, the run ends normally and the
    index file holds, each without its trailing white space and followed
    by a newline: the lines up to and including the first marker, one
    card per block in listing order in place of the [e - s - 1] lines in
    between, and the lines from the second marker on.  When no card holds
    a line break these are the lines of the file: the cards take one line
    each. *)
Theorem index_region_replaced blocks st content s e :
  files st !! FILE = Some content ->
  search_lines_with_token (file_lines content) TOKEN = [s; e] ->
  Forall (fun block =>
            (exists page,
                block_page set_iter repr_float cwd block = Ok page
                /\ open_for_writing (fst page)
                     (snd (create_directory_if_not_exists DIRECTORY st)) = Ok tt)
            /\ raises (block_card repr_float block) = false) blocks ->
  exists before marker1 between marker2 after cards,
    map rstrip (file_lines content) = (before ++ [marker1]) ++ between ++ (marker2 :: after)
    /\ List.length before = s
    /\ List.length between = e - s - 1
    /\ s < e
    /\ has_token marker1 = true
    /\ has_token marker2 = true
    /\ Forall2 (fun block card => block_card repr_float block = Ok card) blocks cards
    /\ List.length cards = List.length blocks
    /\ fst (run set_iter repr_float cwd blocks st) = Ok tt
    /\ files (snd (run set_iter repr_float cwd blocks st)) !! FILE
       = Some (lines_text ((before ++ [marker1]) ++ cards ++ (marker2 :: after)))
    /\ (Forall (fun card => one_line card = true) cards ->
        file_lines (lines_text ((before ++ [marker1]) ++ cards ++ (marker2 :: after)))
        = (before ++ [marker1]) ++ cards ++ (marker2 :: after)).
Proof.
  intros Hfile Hsearch Hall. rewrite <- token_lines_of_file in Hsearch.
  destruct (search_two _ _ _ _ Hsearch)
    as (before & m1 & between & m2 & after & Hlines & Hs & He & _ & Hm1 & _ & Hm2 & _).
  destruct (cards_of_all blocks [] _ Hall) as (cards & Hcards & Hplan & Hopens).
  assert (Hrun : run set_iter repr_float cwd blocks st
                 = (Ok tt,
                    {| dirs := dirs (snd (create_directory_if_not_exists DIRECTORY st));
                       files := <[FILE := lines_text ((before ++ [m1]) ++ cards ++ (m2 :: after))]>
                                  (write_all (fst (plan blocks [])) (files st)) |})).
  { unfold run.
    pose proof (create_directory_beside_index st) as Hmade.
    pose proof (create_directory_files DIRECTORY st) as Hfiles.
    destruct (create_directory_if_not_exists DIRECTORY st) as [[[]|err] st1];
      cbn [fst snd] in *; [|rewrite Hfile in Hmade; discriminate Hmade; eauto].
    rewrite regenerate_eq, Hfiles, Hfile. cbv zeta.
    rewrite Hsearch, (write_pages_ok _ _ Hopens), Hplan. cbn [app].
    unfold save_lines_to_file. rewrite write_file_ok.
    2:{ apply open_for_writing_file; [apply index_has_no_final_slash|]. cbn [files].
        apply write_all_keeps. rewrite Hfiles, Hfile. eauto. }
    cbn [dirs files]. rewrite Hfiles, Hlines, Hs, He. rewrite firstn_head_marker.
    rewrite (skipn_to_tail (before ++ [m1]) between (m2 :: after))
      by (rewrite length_app; cbn; lia).
    reflexivity. }
  exists before, m1, between, m2, after, cards.
  split; [exact Hlines|]. split; [auto|]. split; [lia|]. split; [lia|].
  split; [exact Hm1|]. split; [exact Hm2|]. split; [exact Hcards|].
  split; [symmetry; eapply Forall2_length; eauto|].
  split; [now rewrite Hrun|]. split.
  - rewrite Hrun. cbn [snd files]. apply lookup_insert_eq.
  - intros Hone. apply file_lines_written.
    pose proof (read_lines_stripped content) as Hstripped. rewrite Hlines in Hstripped.
    apply Forall_app in Hstripped as [Hfront Hrest].
    apply Forall_app in Hrest as [_ Hback].
    apply Forall_app. split; [eapply List.Forall_impl; [|exact Hfront]; now intros l [H _]|].
    apply Forall_app. split; [exact Hone|].
    eapply List.Forall_impl; [|exact Hback]. now intros l [H _].
Qed.

(** C6, as the code has it: with the same iteration order of sets in both
    runs, a second run over the same block listing leaves the file system
    exactly as the first run left it: every page and the index are byte
    for byte the same. *)
Theorem second_run_changes_nothing blocks st :
  snd (run set_iter repr_float cwd blocks (snd (run set_iter repr_float cwd blocks st)))
  = snd (run set_iter repr_float cwd blocks st).
Proof.
  unfold run at 2 3.
  destruct (create_directory_cases DIRECTORY st)
    as [[err Hcreate]|(st1 & Hcreate & _ & _ & Hexists)]; rewrite Hcreate.
  - cbn [snd]. unfold run. now rewrite Hcreate.
  - unfold run.
    destruct (regenerate_grows blocks st1) as [Hdirs Hdom].
    rewrite create_directory_again.
    + apply regenerate_idempotent.
    + eapply path_exists_mono; [| |exact Hexists]; [now rewrite Hdirs|exact Hdom].
Qed.

End PipelineProperties.


(** ** Floats: magnitudes under rounding *)

Module FloatBounds.

Local Open Scope Z_scope.

Lemma within_le B B' m e : B <= B' -> within B m e -> within B' m e.
Proof.
  intros HB [[H0 Hm] He]. repeat split; try lia.
  eapply Z.lt_le_trans; [exact Hm|]. apply Z.pow_le_mono_r; lia.
Qed.

Lemma float_within_le B B' x : B <= B' -> float_within B x -> float_within B' x.
Proof. destruct x; simpl; auto. apply within_le. Qed.

Lemma shr_1_half r : 0 <= shr_m r -> shr_m (shr_1 r) = shr_m r / 2.
Proof.
  destruct r as [m b s]. cbn [shr_m]. intros Hm.
  destruct m as [|[p|p|]|p]; cbn [shr_1 shr_m]; try lia.
  - reflexivity.
  - apply Z.div_unique with 1; lia.
  - apply Z.div_unique with 0; lia.
  - reflexivity.
Qed.

Lemma iter_shr_1 p r :
  0 <= shr_m r -> shr_m (SpecFloat.iter_pos shr_1 p r) = shr_m r / 2 ^ Zpos p.
Proof.
  revert r. induction p as [p IH|p IH|]; intros r Hr; cbn [SpecFloat.iter_pos].
  - assert (H1 : 0 <= shr_m (shr_1 r)) by (rewrite shr_1_half by lia; apply Z.div_pos; lia).
    assert (H2 : 0 <= shr_m (SpecFloat.iter_pos shr_1 p (shr_1 r)))
      by (rewrite IH by lia; apply Z.div_pos; [lia|apply Z.pow_pos_nonneg; lia]).
    rewrite IH by lia. rewrite IH by lia. rewrite shr_1_half by lia.
    rewrite !Z.div_div by (try apply Z.pow_pos_nonneg; lia).
    f_equal. rewrite Pos2Z.inj_xI.
    rewrite Z.pow_add_r, Z.pow_mul_r by lia. change (2 ^ 2) with 4.
    rewrite <- Z.pow_mul_l. replace (2 ^ Z.pos p * 2 ^ Z.pos p) with ((2 * 2) ^ Z.pos p)
      by (rewrite Z.pow_mul_l; reflexivity).
    change (2 * 2) with 4. change (2 ^ 1) with 2. lia.
  - assert (H2 : 0 <= shr_m (SpecFloat.iter_pos shr_1 p r))
      by (rewrite IH by lia; apply Z.div_pos; [lia|apply Z.pow_pos_nonneg; lia]).
    rewrite IH by lia. rewrite IH by lia.
    rewrite !Z.div_div by (try apply Z.pow_pos_nonneg; lia).
    f_equal. rewrite Pos2Z.inj_xO. rewrite <- Z.pow_add_r by lia. f_equal. lia.
  - rewrite shr_1_half by lia. reflexivity.
Qed.

Lemma shr_record_of_loc_m m l : shr_m (shr_record_of_loc m l) = m.
Proof. destruct l as [|[]]; reflexivity. Qed.

Lemma digits2_size p : digits2_pos p = Pos.size p.
Proof. induction p; simpl; congruence. Qed.

Lemma Zdigits2_le m k : 0 <= m < 2 ^ k -> 0 <= k -> Zdigits2 m <= k.
Proof.
  intros [H0 Hm] Hk. destruct m as [|p|p]; cbn [Zdigits2]; try lia.
  rewrite digits2_size.
  pose proof (Pos.size_le p) as Hsize.
  apply Pos2Z.pos_le_pos in Hsize. rewrite Pos2Z.inj_pow in Hsize.
  assert (Hlt : 2 ^ Z.pos (Pos.size p) < 2 ^ (k + 1)).
  { rewrite Z.pow_add_r by lia. change (2 ^ 1) with 2. lia. }
  apply (proj2 (Z.pow_lt_mono_r_iff 2 (Z.pos (Pos.size p)) (k + 1)
                  ltac:(lia) ltac:(lia))) in Hlt.
  lia.
Qed.

Lemma shr_fexp_within B m e l :
  within B m e -> emin prec emax <= B ->
  within B (shr_m (fst (shr_fexp prec emax m e l))) (snd (shr_fexp prec emax m e l)).
Proof.
  intros [[H0 Hm] He] Hmin. unfold shr_fexp, shr.
  assert (Hd : Zdigits2 m <= B - e) by (apply Zdigits2_le; lia).
  destruct (fexp prec emax (Zdigits2 m + e) - e) as [|n|n] eqn:Hn; cbn [fst snd];
    rewrite ?shr_record_of_loc_m; try (repeat split; lia).
  rewrite iter_shr_1 by (rewrite shr_record_of_loc_m; lia).
  rewrite shr_record_of_loc_m.
  assert (He' : e + Z.pos n <= B).
  { unfold fexp in Hn. unfold prec in *. lia. }
  repeat split; try lia.
  - apply Z.div_pos; [lia|]. apply Z.pow_pos_nonneg; lia.
  - apply Z.div_lt_upper_bound; [apply Z.pow_pos_nonneg; lia|].
    rewrite <- Z.pow_add_r by lia. replace (Z.pos n + (B - (e + Z.pos n))) with (B - e) by lia.
    exact Hm.
Qed.

Lemma round_nearest_even_bounds m l :
  m <= round_nearest_even m l <= m + 1.
Proof. destruct l as [|[]]; cbn [round_nearest_even]; try destruct (Z.even m); lia. Qed.

Lemma binary_round_aux_within B sx mx ex lx :
  within B mx ex -> emin prec emax <= B -> B + 1 <= emax - prec ->
  float_within (B + 1) (binary_round_aux prec emax sx mx ex lx).
Proof.
  intros Hw Hmin Hmax. unfold binary_round_aux.
  pose proof (shr_fexp_within B mx ex lx Hw Hmin) as H1.
  destruct (shr_fexp prec emax mx ex lx) as [mrs1 e1]. cbn [fst snd] in H1.
  set (m2 := round_nearest_even (shr_m mrs1) (loc_of_shr_record mrs1)).
  assert (H2 : within (B + 1) m2 e1).
  { destruct H1 as [[H0 Hm] He].
    pose proof (round_nearest_even_bounds (shr_m mrs1) (loc_of_shr_record mrs1)) as Hr.
    fold m2 in Hr. repeat split; try lia.
    replace (B + 1 - e1) with (B - e1 + 1) by lia.
    rewrite Z.pow_add_r by lia. change (2 ^ 1) with 2. lia. }
  pose proof (shr_fexp_within (B + 1) m2 e1 loc_Exact H2 ltac:(lia)) as H3.
  destruct (shr_fexp prec emax m2 e1 loc_Exact) as [mrs3 e3]. cbn [fst snd] in H3.
  destruct H3 as [[H0 Hm] He].
  destruct (shr_m mrs3) as [|m3|m3] eqn:Hm3; cbn [float_within]; try lia.
  assert (Hle : (e3 <=? emax - prec) = true) by (apply Z.leb_le; lia).
  rewrite Hle. cbn [float_within]. repeat split; lia.
Qed.

Lemma shl_align_within B mx ex ex' :
  within B (Zpos mx) ex ->
  within B (Zpos (fst (shl_align mx ex ex'))) (snd (shl_align mx ex ex'))
  /\ snd (shl_align mx ex ex') = Z.min ex ex'
  /\ Zpos (fst (shl_align mx ex ex')) = Zpos mx * 2 ^ (ex - Z.min ex ex').
Proof.
  intros [[H0 Hm] He]. unfold shl_align.
  destruct (ex' - ex) as [|d|d] eqn:Hd; cbn [fst snd].
  - replace (Z.min ex ex') with ex by lia. rewrite Z.sub_diag. cbn.
    repeat split; lia.
  - replace (Z.min ex ex') with ex by lia. rewrite Z.sub_diag. cbn.
    repeat split; lia.
  - replace (Z.min ex ex') with ex' by lia.
    assert (Hshift : Z.pos (Pos.iter xO mx d) = Z.pos mx * 2 ^ Z.pos d).
    { change (Pos.iter xO mx d) with (shift_pos d mx).
      rewrite shift_pos_correct, Z.pow_pos_fold. lia. }
    change (PosDef.Pos.iter xO mx d) with (Pos.iter xO mx d).
    rewrite Hshift. replace (ex - ex') with (Z.pos d) by lia.
    repeat split; try lia.
    replace (B - ex') with (B - ex + Z.pos d) by lia.
    rewrite Z.pow_add_r by lia.
    apply Z.mul_lt_mono_pos_r; [apply Z.pow_pos_nonneg; lia|lia].
Qed.

Lemma binary_round_within B sx mx ex :
  within B (Zpos mx) ex -> emin prec emax <= B -> B + 1 <= emax - prec ->
  float_within (B + 1) (binary_round prec emax sx mx ex).
Proof.
  intros Hw Hmin Hmax. unfold binary_round.
  pose proof (shl_align_within B mx ex (fexp prec emax (Z.pos (digits2_pos mx) + ex)) Hw)
    as (Hal & _ & _).
  destruct (shl_align mx ex _) as [mz ez]. cbn [fst snd] in Hal.
  now apply binary_round_aux_within.
Qed.

Lemma binary_normalize_within B m e szero :
  within B (Z.abs m) e -> emin prec emax <= B -> B + 1 <= emax - prec ->
  float_within (B + 1) (binary_normalize prec emax m e szero).
Proof.
  intros Hw Hmin Hmax. destruct m as [|p|p]; cbn [binary_normalize]; [exact I| |];
    now apply binary_round_within.
Qed.

Lemma float_mul_within Bx By x y :
  float_within Bx x -> float_within By y ->
  emin prec emax <= Bx + By -> Bx + By + 1 <= emax - prec ->
  float_within (Bx + By + 1) (SFmul prec emax x y).
Proof.
  intros Hx Hy Hmin Hmax.
  destruct x as [sx|sx| |sx mx ex], y as [sy|sy| |sy my ey];
    cbn [float_within SFmul] in *; try tauto.
  apply binary_round_aux_within; try lia.
  destruct Hx as [[_ Hmx] Hex], Hy as [[_ Hmy] Hey].
  repeat split; try lia.
  replace (Bx + By - (ex + ey)) with ((Bx - ex) + (By - ey)) by lia.
  rewrite Z.pow_add_r by lia. rewrite Pos2Z.inj_mul.
  apply Z.mul_lt_mono_nonneg; lia.
Qed.

Lemma float_sub_within B x y :
  float_within B x -> float_within B y ->
  emin prec emax <= B + 1 -> B + 2 <= emax - prec ->
  float_within (B + 2) (SFsub prec emax x y).
Proof.
  intros Hx Hy Hmin Hmax.
  destruct x as [sx|sx| |sx mx ex], y as [sy|sy| |sy my ey];
    cbn [float_within SFsub] in *; try tauto.
  - destruct sx, sy; exact I.
  - apply (within_le B); [lia|exact Hy].
  - apply (within_le B); [lia|exact Hx].
  - replace (B + 2) with (B + 1 + 1) by lia.
    apply binary_normalize_within; try lia.
    destruct (shl_align_within B mx ex (Z.min ex ey) Hx) as ([[_ Ha] _] & Hea & _).
    destruct (shl_align_within B my ey (Z.min ex ey) Hy) as ([[_ Hb] _] & Heb & _).
    rewrite Hea in Ha. rewrite Heb in Hb.
    replace (Z.min ex (Z.min ex ey)) with (Z.min ex ey) in Ha by lia.
    replace (Z.min ey (Z.min ex ey)) with (Z.min ex ey) in Hb by lia.
    set (a := Z.pos (fst (shl_align mx ex (Z.min ex ey)))) in *.
    set (b := Z.pos (fst (shl_align my ey (Z.min ex ey)))) in *.
    assert (Ha0 : 0 < a) by (unfold a; lia).
    assert (Hb0 : 0 < b) by (unfold b; lia).
    destruct Hx as [_ Hex]. destruct Hy as [_ Hey].
    repeat split; try lia.
    replace (B + 1 - Z.min ex ey) with (B - Z.min ex ey + 1) by lia.
    rewrite Z.pow_add_r by lia. change (2 ^ 1) with 2.
    unfold cond_Zopp. destruct sx, sy; lia.
Qed.

Lemma round_float_within B x :
  float_within B x -> 0 <= B ->
  exists v, round_float x = Ok v /\ Z.abs v <= 2 ^ B.
Proof.
  intros Hx HB. destruct x as [s|s| |s m e]; cbn [float_within round_float] in *; try tauto.
  - exists 0. split; [reflexivity|]. cbn. apply Z.pow_nonneg. lia.
  - destruct Hx as [[_ Hm] He].
    eexists. split; [reflexivity|].
    assert (Hmag : 0 <= match e with
                        | Z.neg p =>
                            match 2 * (Z.pos m mod Z.pow_pos 2 p) ?= Z.pow_pos 2 p with
                            | Eq => if Z.even (Z.pos m / Z.pow_pos 2 p)
                                    then Z.pos m / Z.pow_pos 2 p
                                    else Z.pos m / Z.pow_pos 2 p + 1
                            | Lt => Z.pos m / Z.pow_pos 2 p
                            | Gt => Z.pos m / Z.pow_pos 2 p + 1
                            end
                        | _ => Z.pos m * 2 ^ e
                        end <= 2 ^ B).
    { destruct e as [|e|e].
      - rewrite Z.sub_0_r in Hm. cbn [Z.pow]. lia.
      - split; [apply Z.mul_nonneg_nonneg; [lia|apply Z.pow_nonneg; lia]|].
        replace B with ((B - Z.pos e) + Z.pos e) at 1 by lia.
        rewrite Z.pow_add_r by lia.
        apply Z.mul_le_mono_nonneg_r; [apply Z.pow_nonneg; lia|lia].
      - rewrite Z.pow_pos_fold.
        assert (Hpow : 0 < 2 ^ Z.pos e) by (apply Z.pow_pos_nonneg; lia).
        assert (Hq : 0 <= Z.pos m / 2 ^ Z.pos e < 2 ^ B).
        { split; [apply Z.div_pos; lia|].
          apply Z.div_lt_upper_bound; [lia|].
          rewrite <- Z.pow_add_r by lia.
          replace (Z.pos e + B) with (B - Z.neg e) by lia. exact Hm. }
        destruct (2 * (Z.pos m mod 2 ^ Z.pos e) ?= 2 ^ Z.pos e);
          try destruct (Z.even (Z.pos m / 2 ^ Z.pos e)); lia. }
    destruct s; lia.
Qed.

Lemma float_of_int_within B n :
  Z.abs n <= 2 ^ B -> 0 <= B -> B + 2 <= emax - prec ->
  exists f, float_of_int n = Ok f /\ float_within (B + 2) f.
Proof.
  intros Hn HB Hmax. unfold float_of_int.
  assert (Hw : float_within (B + 1 + 1) (binary_normalize prec emax n 0 false)).
  { apply binary_normalize_within; try (unfold emin, prec, emax in *; lia).
    repeat split; try lia.
    rewrite Z.sub_0_r, Z.pow_add_r by lia. change (2 ^ 1) with 2. lia. }
  replace (B + 1 + 1) with (B + 2) in Hw by lia.
  destruct (binary_normalize prec emax n 0 false); cbn [float_within] in Hw; try tauto;
    eexists; split; try reflexivity; exact Hw.
Qed.

Lemma int_halved_within B n :
  Z.abs n <= 2 ^ B -> 0 <= B -> B + 1 <= emax - prec ->
  exists f, int_halved n = Ok f /\ float_within (B + 1) f.
Proof.
  intros Hn HB Hmax. unfold int_halved.
  assert (Hw : float_within (B + 1) (binary_normalize prec emax n (-1) false)).
  { apply binary_normalize_within; try (unfold emin, prec, emax in *; lia).
    repeat split; try lia.
    replace (B - -1) with (B + 1) by lia.
    rewrite Z.pow_add_r by lia. change (2 ^ 1) with 2. lia. }
  destruct (binary_normalize prec emax n (-1) false); cbn [float_within] in Hw; try tauto;
    eexists; split; try reflexivity; exact Hw.
Qed.

Lemma unit_interval_within x : in_unit_interval x = true -> float_within 1 x.
Proof.
  destruct x as [s|s| |[|] m e]; cbn [in_unit_interval float_within]; try discriminate;
    [tauto|].
  intros H. apply andb_true_iff in H as [He Hm].
  apply Z.leb_le in He. apply Z.leb_le in Hm.
  repeat split; try lia.
  replace (1 - e) with (- e + 1) by lia.
  rewrite Z.pow_add_r by lia. change (2 ^ 1) with 2.
  assert (0 < 2 ^ (- e)) by (apply Z.pow_pos_nonneg; lia). lia.
Qed.

(** [round(n * x)] is defined for a size below [2^63] and a finite [x]
    below [2^900] in magnitude. *)
Lemma rounded_product n x :
  0 <= n < 2 ^ 63 -> float_within 900 x ->
  exists c, (let* p := int_mul_float n x in round_float p) = Ok c /\ Z.abs c <= 2 ^ 966.
Proof.
  intros Hn Hx. unfold int_mul_float.
  destruct (float_of_int_within 63 n) as (f & -> & Hf);
    try (unfold prec, emax; lia).
  cbn [bind].
  assert (Hp : float_within (65 + 900 + 1) (float_mul f x)).
  { apply float_mul_within; try (unfold emin, prec, emax; lia); auto. }
  apply (round_float_within 966); [exact Hp|lia].
Qed.

(** The left-top coordinate is defined for such a size and such crop
    parameters. *)
Lemma claimed_left_top_defined n center extent :
  0 <= n < 2 ^ 63 -> float_within 900 center -> float_within 900 extent ->
  exists v, claimed_left_top n center extent = Ok v.
Proof.
  intros Hn Hc He. unfold claimed_left_top.
  destruct (rounded_product n center Hn Hc) as (c & -> & Hcb).
  destruct (rounded_product n extent Hn He) as (w & -> & Hwb).
  cbn [bind].
  destruct (int_halved_within 966 w) as (half & -> & Hhalf); try (unfold prec, emax; lia).
  cbn [bind]. unfold int_sub_float.
  destruct (float_of_int_within 966 c) as (fc & -> & Hfc); try (unfold prec, emax; lia).
  cbn [bind].
  assert (Hd : float_within (968 + 2) (float_sub fc half)).
  { apply float_sub_within; try (unfold emin, prec, emax; lia); [exact Hfc|].
    apply (float_within_le 967); [lia|exact Hhalf]. }
  destruct (round_float_within 970 _ Hd) as (v & Hv & _); [lia|].
  now exists v.
Qed.

(** A crop parameter between 0 and 1 is such a parameter. *)
Lemma unit_interval_finite x : in_unit_interval x = true -> float_within 900 x.
Proof.
  intros H. apply (float_within_le 1); [lia|]. now apply unit_interval_within.
Qed.

End FloatBounds.

(** ** [take_static_crop] *)

Section CropProperties.

Context {A : Type}.
Variables IMAGE_TYPE_KEY IMAGE_VALUE_KEY PARENT_ID_KEY ORIGIN_COORDINATES_KEY : string.
Variables LEFT_TOP_X_KEY LEFT_TOP_Y_KEY ORIGIN_SIZE_KEY : string.
Variable NUMPY_OBJECT : string.

(** The keys are different strings. *)
Hypothesis parent_is_not_coordinates : PARENT_ID_KEY <> ORIGIN_COORDINATES_KEY.
Hypothesis x_is_not_y : LEFT_TOP_X_KEY <> LEFT_TOP_Y_KEY.
Hypothesis x_is_not_size : LEFT_TOP_X_KEY <> ORIGIN_SIZE_KEY.
Hypothesis y_is_not_size : LEFT_TOP_Y_KEY <> ORIGIN_SIZE_KEY.

(** When the two left-top coordinates are defined, the function returns
    its dict, which holds them. *)
Lemma take_static_crop_when_rounded (image : ndarray A) x_center y_center width height
    origin_size image_parent rows columns others x_min y_min :
  shape image = rows :: columns :: others ->
  claimed_left_top columns x_center width = Ok x_min ->
  claimed_left_top rows y_center height = Ok y_min ->
  exists crop coordinates,
    take_static_crop IMAGE_TYPE_KEY IMAGE_VALUE_KEY PARENT_ID_KEY ORIGIN_COORDINATES_KEY
      LEFT_TOP_X_KEY LEFT_TOP_Y_KEY ORIGIN_SIZE_KEY NUMPY_OBJECT
      image x_center y_center width height origin_size image_parent = Ok crop
    /\ dom crop = {[IMAGE_TYPE_KEY; IMAGE_VALUE_KEY; PARENT_ID_KEY; ORIGIN_COORDINATES_KEY]}
    /\ crop !! PARENT_ID_KEY = Some (VStr image_parent)
    /\ crop !! ORIGIN_COORDINATES_KEY = Some (VCoordinates coordinates)
    /\ coordinates !! LEFT_TOP_X_KEY = Some (CInt x_min)
    /\ coordinates !! LEFT_TOP_Y_KEY = Some (CInt y_min).
Proof.
  intros Hshape Hx Hy. unfold claimed_left_top in Hx, Hy.
  destruct (let* p := int_mul_float columns x_center in round_float p)
    as [cx|] eqn:Hcx; [|discriminate].
  destruct (let* p := int_mul_float columns width in round_float p)
    as [w|] eqn:Hw; [|discriminate].
  destruct (let* p := int_mul_float rows y_center in round_float p)
    as [cy|] eqn:Hcy; [|discriminate].
  destruct (let* p := int_mul_float rows height in round_float p)
    as [h|] eqn:Hh; [|discriminate].
  cbn [bind] in Hx, Hy.
  eexists. eexists. split.
  { unfold take_static_crop. rewrite Hshape. cbn [tuple_getitem nth_error bind].
    rewrite Hcx. cbn [bind]. rewrite Hcy. cbn [bind]. rewrite Hw. cbn [bind].
    rewrite Hh. cbn [bind]. rewrite Hx. cbn [bind]. rewrite Hy. cbn [bind].
    reflexivity. }
  split; [|split; [|split; [|split]]].
  - rewrite !dom_insert_L, dom_empty_L. set_solver.
  - rewrite lookup_insert_ne by congruence. apply lookup_insert_eq.
  - apply lookup_insert_eq.
  - rewrite !lookup_insert_ne by congruence. apply lookup_insert_eq.
  - rewrite lookup_insert_ne by congruence. apply lookup_insert_eq.
Qed.

(** C10, as the code has it: on an image with at least two axes,
    whenever the roundings the function makes are defined, that is,
    whenever
    [round(round(width * x_center) - round(width * crop_width) / 2)] and
    its counterpart on the height are, the function returns a dict with
    exactly the image-type, image-value, parent-id and origin-coordinates
    keys; the parent id is the [image_parent] argument, and the left-top x
    and y of the origin coordinates are these two numbers.  It returns
    only then.  The roundings are defined for all finite crop parameters
    below [2^900] in magnitude (those between 0 and 1 among them) on axes
    of less than [2^63] items. *)
Theorem take_static_crop_result (image : ndarray A) x_center y_center width height
    origin_size image_parent rows columns others :
  shape image = rows :: columns :: others ->
  (forall x_min y_min,
     claimed_left_top columns x_center width = Ok x_min ->
     claimed_left_top rows y_center height = Ok y_min ->
     exists crop coordinates,
       take_static_crop IMAGE_TYPE_KEY IMAGE_VALUE_KEY PARENT_ID_KEY ORIGIN_COORDINATES_KEY
         LEFT_TOP_X_KEY LEFT_TOP_Y_KEY ORIGIN_SIZE_KEY NUMPY_OBJECT
         image x_center y_center width height origin_size image_parent = Ok crop
       /\ dom crop = {[IMAGE_TYPE_KEY; IMAGE_VALUE_KEY; PARENT_ID_KEY; ORIGIN_COORDINATES_KEY]}
       /\ crop !! PARENT_ID_KEY = Some (VStr image_parent)
       /\ crop !! ORIGIN_COORDINATES_KEY = Some (VCoordinates coordinates)
       /\ coordinates !! LEFT_TOP_X_KEY = Some (CInt x_min)
       /\ coordinates !! LEFT_TOP_Y_KEY = Some (CInt y_min))
  /\ (forall crop,
        take_static_crop IMAGE_TYPE_KEY IMAGE_VALUE_KEY PARENT_ID_KEY ORIGIN_COORDINATES_KEY
          LEFT_TOP_X_KEY LEFT_TOP_Y_KEY ORIGIN_SIZE_KEY NUMPY_OBJECT
          image x_center y_center width height origin_size image_parent = Ok crop ->
        exists x_min y_min,
          claimed_left_top columns x_center width = Ok x_min
          /\ claimed_left_top rows y_center height = Ok y_min)
  /\ ((0 <= rows < 2 ^ 63)%Z ->
      (0 <= columns < 2 ^ 63)%Z ->
      float_within 900 x_center ->
      float_within 900 y_center ->
      float_within 900 width ->
      float_within 900 height ->
      exists x_min y_min,
        claimed_left_top columns x_center width = Ok x_min
        /\ claimed_left_top rows y_center height = Ok y_min)
  /\ (forall x, in_unit_interval x = true -> float_within 900 x).
Proof.
  intros Hshape. split; [|split; [|split]].
  - intros x_min y_min Hx Hy.
    exact (take_static_crop_when_rounded image x_center y_center width height
             origin_size image_parent rows columns others x_min y_min Hshape Hx Hy).
  - intros crop. unfold take_static_crop, claimed_left_top. rewrite Hshape.
    cbn [tuple_getitem nth_error bind].
    destruct (let* p := int_mul_float columns x_center in round_float p)
      as [cx|]; cbn [bind]; [|discriminate].
    destruct (let* p := int_mul_float rows y_center in round_float p)
      as [cy|]; cbn [bind]; [|discriminate].
    destruct (let* p := int_mul_float columns width in round_float p)
      as [w|]; cbn [bind]; [|discriminate].
    destruct (let* p := int_mul_float rows height in round_float p)
      as [h|]; cbn [bind]; [|discriminate].
    destruct (let* half := int_halved w in let* d := int_sub_float cx half in round_float d)
      as [x_min|]; cbn [bind]; [|discriminate].
    destruct (let* half := int_halved h in let* d := int_sub_float cy half in round_float d)
      as [y_min|]; cbn [bind]; [|discriminate].
    intros _. exists x_min, y_min. split; reflexivity.
  - intros Hrows Hcolumns Hxc Hyc Hw Hh.
    destruct (FloatBounds.claimed_left_top_defined columns x_center width Hcolumns Hxc Hw)
      as [x_min Hx].
    destruct (FloatBounds.claimed_left_top_defined rows y_center height Hrows Hyc Hh)
      as [y_min Hy].
    exists x_min, y_min. split; assumption.
  - exact FloatBounds.unit_interval_finite.
Qed.

End CropProperties.

(** * Instances *)

(** The formatter and the name functions on the examples of the
    specification. *)
Example array_of_unique_strings :
  create_array_typing (JDict [("type", JStr "array"); ("uniqueItems", JBool true);
                              ("items", JDict [("type", JStr "string")])])
  = Ok (ReturnedPair "Set[str]" false).
Proof. reflexivity. Qed.

Example array_of_anything :
  create_array_typing (JDict [("type", JStr "array"); ("items", JDict [])])
  = Ok (ReturnedPair "List[Any]" false).
Proof. reflexivity. Qed.

Example property_named_type_is_skipped :
  format_property (fun l => l) "type" (JDict [("type", JStr "string")]) = Ok None.
Proof. reflexivity. Qed.

Example snake_case_of_class_name :
  camel_to_snake "RelativeStaticCrop" = "relative_static_crop".
Proof. reflexivity. Qed.

Example title_of_class_name :
  block_class_name_to_block_title "RelativeStaticCropBlock" = Ok "Relative Static Crop".
Proof. reflexivity. Qed.

Example title_of_lower_case_name :
  block_class_name_to_block_title "crop" = Raise IndexError.
Proof. reflexivity. Qed.

Lemma identity_order_permutes : forall s : list string, Permutation ((fun l => l) s) s.
Proof. intros s. apply Permutation_refl. Qed.

Lemma reverse_order_permutes : forall s : list string, Permutation (rev s) s.
Proof. intros s. apply Permutation_sym, Permutation_rev. Qed.

Lemma primitive_property_row_witness :
  format_property (fun l => l) "name"
    (JDict [("type", JStr "integer"); ("description", JStr "Unique name")])
  = Ok (Some (Row4 "name" "int" (JStr "Unique name") false)).
Proof.
  apply (primitive_property_row (fun l => l) "name"
           [("type", JStr "integer"); ("description", JStr "Unique name")] "integer" "int").
  - discriminate.
  - reflexivity.
  - reflexivity.
Defined.

Lemma items_property_raises_witness :
  raises (format_property (fun l => l) "classes" list_of_strings) = true.
Proof.
  apply (items_property_raises (fun l => l) "classes"
           [("type", JStr "array"); ("items", JDict [("type", JStr "string")])]
           (JDict [("type", JStr "string")])).
  - discriminate.
  - intros p [= <-]. reflexivity.
  - reflexivity.
  - discriminate.
Defined.

(** What is raised on a plain list-of-strings property, and on one whose
    [items] lets [create_array_typing] return a pair. *)
Example array_property_exceptions :
  format_inputs (fun l => l) (JDict [("properties", JDict [("classes", list_of_strings)])])
  = Raise KeyError
  /\ create_array_typing (JDict [("items", JDict [])]) = Ok (ReturnedPair "List[Any]" false)
  /\ format_inputs (fun l => l) (JDict [("properties", JDict [("classes", items_with_items)])])
     = Raise TypeError.
Proof. repeat split; reflexivity. Qed.

Lemma create_array_typing_without_type_witness :
  create_array_typing items_by_reference = Ok ReturnedNone
  /\ unpack_pair ReturnedNone = Raise TypeError
  /\ forall ref_appears, resolve_branch items_by_reference ref_appears = Raise TypeError.
Proof.
  assert (Hnonempty : [("$ref", JStr "#/$defs/Point")] <> []) by discriminate.
  destruct (create_array_typing_without_type
              [("type", JStr "array"); ("items", JDict [("$ref", JStr "#/$defs/Point")])]
              [("$ref", JStr "#/$defs/Point")] eq_refl Hnonempty eq_refl)
    as (Hnone & Hunpack & Hcaller).
  split; [exact Hnone|]. split; [exact Hunpack|].
  apply Hcaller; reflexivity.
Defined.

Lemma unknown_type_name_degrades_witness :
  resolve_branch (JDict [("type", JStr "object")]) false = Ok ("unknown", false)
  /\ exists prefix,
       (prefix = "Set" \/ prefix = "List")
       /\ create_array_typing (JDict [("type", JStr "array");
                                      ("items", JDict [("type", JStr "object")])])
          = Ok (ReturnedPair (prefix +:+ "[unknown]") false).
Proof.
  assert (Hname : "object" <> "array") by discriminate.
  destruct (unknown_type_name_degrades [("type", JStr "object")] "object"
              eq_refl eq_refl Hname) as [Hunion Harray].
  split.
  - apply Hunion. reflexivity.
  - apply (Harray eq_refl [("type", JStr "array");
                           ("items", JDict [("type", JStr "object")])]).
    reflexivity.
Defined.

Lemma union_single_branch_unwrapped_witness :
  exists description,
    get number_or_selector "description" (JStr "not available") = Ok description
    /\ format_union (fun l => l) "confidence" number_or_selector
       = Ok (Some (Row4 "confidence" "float" description true)).
Proof.
  apply (union_single_branch_unwrapped (fun l => l) identity_order_permutes
           "confidence" number_or_selector
           (JList [JDict [("type", JStr "number")];
                   JDict [("type", JStr "string"); ("reference", JBool true)]])
           [JDict [("type", JStr "number")];
            JDict [("type", JStr "string"); ("reference", JBool true)]]
           (JDict [("type", JStr "number")]) "float" false).
  - reflexivity.
  - reflexivity.
  - reflexivity.
  - reflexivity.
  - discriminate.
Defined.

(** C1 as it was stated fails: on [anyOf: [{type: "string"}, {type:
    "null"}]] one name, "str", remains after "None" is dropped, and the
    display type is "Optional[str]", not the bare "str". *)
Lemma union_with_null_is_wrapped :
  remaining_names string_or_null = Ok ["str"]
  /\ format_union (fun l => l) "p" string_or_null
     = Ok (Some (Row4 "p" "Optional[str]" (JStr "not available") false))
  /\ format_union (fun l => l) "p" string_or_null
     <> Ok (Some (Row4 "p" "str" (JStr "not available") false)).
Proof. split; [reflexivity|]. split; [reflexivity | discriminate]. Qed.

Lemma union_string_integer_witness :
  format_union (fun l => l) "mode" string_or_integer
  = Ok (Some (Row4 "mode" "Union[int, str]" (JStr "not available") false))
  \/ format_union (fun l => l) "mode" string_or_integer
     = Ok (Some (Row4 "mode" "Union[str, int]" (JStr "not available") false)).
Proof.
  apply (union_string_integer (fun l => l) identity_order_permutes "mode").
Defined.

(** C3 as it was stated fails: an order in which the set yields "str"
    before "int" gives "Union[str, int]", not "Union[int, str]". *)
Lemma union_order_is_not_sorted :
  (forall s : list string, Permutation ((fun l => l) s) s)
  /\ format_union (fun l => l) "mode" string_or_integer
     = Ok (Some (Row4 "mode" "Union[str, int]" (JStr "not available") false))
  /\ format_union (fun l => l) "mode" string_or_integer
     <> Ok (Some (Row4 "mode" "Union[int, str]" (JStr "not available") false)).
Proof.
  split; [exact identity_order_permutes|]. split; [reflexivity | discriminate].
Qed.

(** C7 as it was stated fails: a union branch without a [type] raises
    [KeyError] (and the whole of [format_inputs] with it), and array items
    whose [type] is a list raise [TypeError]. *)
Lemma unexpected_structure_raises :
  resolve_branch (JDict [("enum", JList [JStr "a"; JStr "b"])]) false = Raise KeyError
  /\ format_inputs (fun l => l) (JDict [("properties", JDict [("mode", enum_only)])])
     = Raise KeyError
  /\ create_array_typing items_of_two_types = Raise TypeError.
Proof. repeat split; reflexivity. Qed.

Lemma token_count_aborts_witness :
  run (fun l => l) no_float "/w" [crop_block] (with_index index_one_token)
  = (Raise (Exception_ "Please inject two <!--- AUTOGENERATED_BLOCKS_LIST --> tokens to signal start and end of autogenerated table."),
     snd (create_directory_if_not_exists (BLOCK_DOCUMENTATION_DIRECTORY "/w")
            (with_index index_one_token)))
  /\ files (snd (run (fun l => l) no_float "/w" [crop_block] (with_index index_one_token)))
     = files (with_index index_one_token).
Proof.
  apply (token_count_aborts (fun l => l) no_float "/w" [crop_block]
           (with_index index_one_token) index_one_token).
  - reflexivity.
  - vm_compute. lia.
Defined.

Lemma index_region_replaced_witness :
  exists before marker1 between marker2 after cards,
    map rstrip (file_lines index_two_tokens)
    = (before ++ [marker1]) ++ between ++ (marker2 :: after)
    /\ List.length before = 1
    /\ List.length between = 3 - 1 - 1
    /\ 1 < 3
    /\ has_token marker1 = true
    /\ has_token marker2 = true
    /\ Forall2 (fun block card => block_card no_float block = Ok card) [crop_block] cards
    /\ List.length cards = List.length [crop_block]
    /\ fst (run (fun l => l) no_float "/w" [crop_block] (with_index index_two_tokens)) = Ok tt
    /\ files (snd (run (fun l => l) no_float "/w" [crop_block] (with_index index_two_tokens)))
         !! BLOCK_DOCUMENTATION_FILE "/w"
       = Some (lines_text ((before ++ [marker1]) ++ cards ++ (marker2 :: after)))
    /\ (Forall (fun card => one_line card = true) cards ->
        file_lines (lines_text ((before ++ [marker1]) ++ cards ++ (marker2 :: after)))
        = (before ++ [marker1]) ++ cards ++ (marker2 :: after)).
Proof.
  apply (index_region_replaced (fun l => l) no_float "/w" [crop_block]
           (with_index index_two_tokens) index_two_tokens 1 3).
  - reflexivity.
  - vm_compute. reflexivity.
  - constructor; [|constructor]. split; [|vm_compute; reflexivity].
    eexists. split; vm_compute; reflexivity.
Defined.

(** C5 as it was stated fails: the first line of the index, outside the
    delimited region, loses its trailing blanks when the index is
    rewritten. *)
Lemma outside_line_is_stripped :
  search_lines_with_token (map rstrip (file_lines index_two_tokens))
    AUTOGENERATED_BLOCKS_LIST_TOKEN = [1; 3]
  /\ nth 0 (file_lines index_two_tokens) EmptyString = "# Blocks  "
  /\ exists rewritten,
       files (snd (run (fun l => l) no_float "/w" [] (with_index index_two_tokens))) !! index_path
       = Some rewritten
       /\ nth 0 (file_lines rewritten) EmptyString = "# Blocks"
       /\ nth 0 (file_lines rewritten) EmptyString
          <> nth 0 (file_lines index_two_tokens) EmptyString.
Proof.
  split; [vm_compute; reflexivity|]. split; [vm_compute; reflexivity|].
  eexists. split; [vm_compute; reflexivity|].
  split; [vm_compute; reflexivity|]. vm_compute. discriminate.
Qed.

(** C6 as it was stated fails: a second run in which sets yield their
    elements in another order writes another page for a block with a
    two-name union. *)
Lemma second_run_with_other_order_differs :
  (forall s : list string, Permutation ((fun l => l) s) s)
  /\ (forall s : list string, Permutation (rev s) s)
  /\ fst (run (fun l => l) no_float "/w" [crop_block] (with_index index_two_tokens)) = Ok tt
  /\ snd (run (@rev string) no_float "/w" [crop_block]
            (snd (run (fun l => l) no_float "/w" [crop_block] (with_index index_two_tokens))))
     <> snd (run (fun l => l) no_float "/w" [crop_block] (with_index index_two_tokens)).
Proof.
  split; [exact identity_order_permutes|]. split; [exact reverse_order_permutes|].
  split; [vm_compute; reflexivity|].
  intros H. apply (f_equal (fun st => files st !! page_path)) in H.
  vm_compute in H. discriminate H.
Qed.

Lemma take_static_crop_result_witness :
  (forall x_min y_min,
     claimed_left_top 640 one_half one_quarter = Ok x_min ->
     claimed_left_top 480 one_half one_quarter = Ok y_min ->
     exists crop coordinates,
       take_static_crop "type" "value" "parent_id" "origin_coordinates"
         "left_top_x" "left_top_y" "origin_image_size" "numpy_object"
         small_image one_half one_half one_quarter one_quarter JNull "image"
       = Ok crop
       /\ dom crop = {["type"; "value"; "parent_id"; "origin_coordinates"]}
       /\ crop !! "parent_id" = Some (VStr "image")
       /\ crop !! "origin_coordinates" = Some (VCoordinates coordinates)
       /\ coordinates !! "left_top_x" = Some (CInt x_min)
       /\ coordinates !! "left_top_y" = Some (CInt y_min))
  /\ (forall crop,
        take_static_crop "type" "value" "parent_id" "origin_coordinates"
          "left_top_x" "left_top_y" "origin_image_size" "numpy_object"
          small_image one_half one_half one_quarter one_quarter JNull "image"
        = Ok crop ->
        exists x_min y_min,
          claimed_left_top 640 one_half one_quarter = Ok x_min
          /\ claimed_left_top 480 one_half one_quarter = Ok y_min)
  /\ ((0 <= 480 < 2 ^ 63)%Z ->
      (0 <= 640 < 2 ^ 63)%Z ->
      float_within 900 one_half ->
      float_within 900 one_half ->
      float_within 900 one_quarter ->
      float_within 900 one_quarter ->
      exists x_min y_min,
        claimed_left_top 640 one_half one_quarter = Ok x_min
        /\ claimed_left_top 480 one_half one_quarter = Ok y_min)
  /\ (forall x, in_unit_interval x = true -> float_within 900 x).
Proof.
  apply (take_static_crop_result "type" "value" "parent_id" "origin_coordinates"
           "left_top_x" "left_top_y" "origin_image_size" "numpy_object")
    with (others := [3%Z]).
  - discriminate.
  - discriminate.
  - discriminate.
  - discriminate.
  - reflexivity.
Defined.

(** The coordinates on that image: 240 and 180. *)
Example left_top_of_small_image :
  claimed_left_top 640 one_half one_quarter = Ok 240%Z
  /\ claimed_left_top 480 one_half one_quarter = Ok 180%Z.
Proof. split; vm_compute; reflexivity. Qed.

(** C10 as it was stated fails: a crop parameter that is not a number
    makes the first rounding raise, and no dict is returned. *)
Lemma take_static_crop_raises_on_nan :
  take_static_crop "type" "value" "parent_id" "origin_coordinates"
    "left_top_x" "left_top_y" "origin_image_size" "numpy_object"
    small_image S754_nan one_half one_quarter one_quarter JNull "image"
  = Raise ValueError.
Proof. reflexivity. Qed.

(** * Further properties *)

(** ** Names *)

Lemma to_lower_not_upper c : is_upper (to_lower c) = false.
Proof. destruct c as [[] [] [] [] [] [] [] []]; reflexivity. Qed.

Lemma to_lower_twice c : to_lower (to_lower c) = to_lower c.
Proof. destruct c as [[] [] [] [] [] [] [] []]; reflexivity. Qed.

Lemma to_lower_fixed c : to_lower c = c -> is_upper c = false.
Proof. destruct c as [[] [] [] [] [] [] [] []]; (reflexivity || discriminate). Qed.

Lemma lower_twice s : lower (lower s) = lower s.
Proof.
  unfold lower. induction s as [|c s IH]; [reflexivity|].
  cbn [map_string]. now rewrite to_lower_twice, IH.
Qed.

Lemma lower_fixed_no_upper s :
  lower s = s -> forallb (fun c => negb (is_upper c)) (list_ascii_of_string s) = true.
Proof.
  unfold lower. induction s as [|c s IH]; [reflexivity|].
  cbn [map_string list_ascii_of_string forallb]. intros [= Hc Hs].
  now rewrite (to_lower_fixed _ Hc), IH.
Qed.


Lemma list_of_map_string f s :
  list_ascii_of_string (map_string f s) = map f (list_ascii_of_string s).
Proof. induction s as [|c s IH]; [reflexivity|]. cbn. now rewrite IH. Qed.

Lemma sub_word_boundary_no_upper l :
  no_upper l = true -> sub_word_boundary 0 l = l.
Proof.
  induction l as [|c l IH]; [reflexivity|]. cbn [no_upper forallb].
  intros H. apply andb_true_iff in H as [_ Hl]. specialize (IH Hl).
  cbn [sub_word_boundary]. destruct l as [|u after]; [reflexivity|].
  cbn [no_upper forallb] in Hl. apply andb_true_iff in Hl as [Hu _].
  apply negb_true_iff in Hu. rewrite Hu, andb_false_r. cbn [andb]. now rewrite IH.
Qed.

Lemma sub_case_boundary_no_upper l :
  no_upper l = true -> sub_case_boundary 0 l = l.
Proof.
  induction l as [|c l IH]; [reflexivity|]. cbn [no_upper forallb].
  intros H. apply andb_true_iff in H as [_ Hl]. specialize (IH Hl).
  cbn [sub_case_boundary]. destruct l as [|u after]; [reflexivity|].
  cbn [no_upper forallb] in Hl. apply andb_true_iff in Hl as [Hu _].
  apply negb_true_iff in Hu. rewrite Hu, andb_false_r. now rewrite IH.
Qed.

Lemma no_upper_map_to_lower l : no_upper (map to_lower l) = true.
Proof.
  induction l as [|c l IH]; [reflexivity|]. cbn [map no_upper forallb].
  rewrite to_lower_not_upper. exact IH.
Qed.

(** The slug [camel_to_snake] gives has no upper-case letter. *)
Lemma camel_to_snake_lower_case name :
  no_upper (list_ascii_of_string (camel_to_snake name)) = true.
Proof.
  unfold camel_to_snake, lower. rewrite list_of_map_string. apply no_upper_map_to_lower.
Qed.

(** X1: the names [camel_to_snake] returns unchanged are those that
    [name.lower()] returns unchanged (the names without a capital letter,
    of ASCII or not), and applying it twice gives what applying it once
    gives. *)
Theorem camel_to_snake_idempotent name :
  (camel_to_snake name = name <-> lower name = name)
  /\ camel_to_snake (camel_to_snake name) = camel_to_snake name.
Proof.
  assert (Hlower : forall s, no_upper (list_ascii_of_string s) = true ->
                             camel_to_snake s = lower s).
  { intros s Hs. unfold camel_to_snake.
    rewrite (sub_word_boundary_no_upper _ Hs), (sub_case_boundary_no_upper _ Hs).
    now rewrite string_of_list_ascii_of_string. }
  assert (Hresult : lower (camel_to_snake name) = camel_to_snake name).
  { unfold camel_to_snake. apply lower_twice. }
  split; [split|].
  - intros Hfix. now rewrite <- Hfix at 1 2.
  - intros Hfix. rewrite Hlower; [exact Hfix|]. now apply lower_fixed_no_upper.
  - rewrite Hlower; [exact Hresult|]. apply camel_to_snake_lower_case.
Qed.





Lemma word_at_no_upper l : no_upper l = true -> word_at l = None.
Proof.
  destruct l as [|c l]; [reflexivity|]. cbn [no_upper forallb word_at].
  intros H. apply andb_true_iff in H as [Hc _]. apply negb_true_iff in Hc. now rewrite Hc.
Qed.

Lemma findall_words_no_upper skip l : no_upper l = true -> findall_words skip l = [].
Proof.
  revert skip. induction l as [|c l IH]; intros skip Hl; [reflexivity|].
  cbn [findall_words]. destruct skip as [|n].
  - rewrite (word_at_no_upper _ Hl). apply IH.
    cbn [no_upper forallb] in Hl. now apply andb_true_iff in Hl as [_ Hl].
  - apply IH. cbn [no_upper forallb] in Hl. now apply andb_true_iff in Hl as [_ Hl].
Qed.

(** X3: a class name without an upper-case letter (the empty name, a
    lower-case name) has no word for a title: [words[-1]] raises
    [IndexError]. *)
Theorem title_of_name_without_capital name :
  no_upper (list_ascii_of_string name) = true ->
  block_class_name_to_block_title name = Raise IndexError.
Proof.
  intros H. unfold block_class_name_to_block_title.
  now rewrite (findall_words_no_upper 0 _ H).
Qed.

Lemma title_of_name_without_capital_witness :
  block_class_name_to_block_title "crop_2" = Raise IndexError.
Proof. apply (title_of_name_without_capital "crop_2"). reflexivity. Defined.

Lemma firstn_run p n (l : list ascii) :
  n <= run_length p l -> forallb p (firstn n l) = true.
Proof.
  revert n. induction l as [|c l IH]; intros n Hn.
  - destruct n; reflexivity.
  - destruct n as [|n]; [reflexivity|]. cbn [run_length] in Hn.
    destruct (p c) eqn:Hc; [|lia]. cbn [firstn forallb]. rewrite Hc.
    apply IH. lia.
Qed.

Lemma forallb_weaken {A : Type} (p q : A -> bool) l :
  (forall x, p x = true -> q x = true) -> forallb p l = true -> forallb q l = true.
Proof.
  intros Hpq. induction l as [|x l IH]; [reflexivity|]. cbn [forallb].
  intros H. apply andb_true_iff in H as [Hx Hl]. now rewrite (Hpq _ Hx), IH.
Qed.

Lemma word_at_capitalised l w :
  word_at l = Some w ->
  capitalised_word (string_of_list_ascii (firstn w l)) = true.
Proof.
  unfold capitalised_word. rewrite list_ascii_of_string_of_list_ascii.
  destruct l as [|c rest]; [discriminate|]. cbn [word_at].
  destruct (is_upper c) eqn:Hc; [|discriminate].
  assert (Hlow : forall n, n <= run_length is_lower rest ->
                           forallb is_letter (firstn n rest) = true).
  { intros n Hn. apply (forallb_weaken is_lower); [|now apply firstn_run].
    intros x Hx. unfold is_letter. now rewrite Hx, orb_true_r. }
  assert (Hup : forall n, n <= run_length is_upper rest ->
                          forallb is_letter (firstn n rest) = true).
  { intros n Hn. apply (forallb_weaken is_upper); [|now apply firstn_run].
    intros x Hx. unfold is_letter. now rewrite Hx. }
  destruct (1 <=? run_length is_lower rest)%nat.
  - intros [= <-]. cbn [firstn]. rewrite Hc. now apply Hlow.
  - destruct (at_end (skipn (run_length is_upper rest) rest)).
    + intros [= <-]. cbn [firstn]. rewrite Hc. now apply Hup.
    + destruct (run_length is_upper rest) as [|up'] eqn:Hrun; [discriminate|].
      intros [= <-]. cbn [firstn]. rewrite Hc. apply Hup. lia.
Qed.

Lemma findall_words_capitalised skip l :
  Forall (fun w => capitalised_word w = true) (findall_words skip l).
Proof.
  revert skip. induction l as [|c l IH]; intros skip; [constructor|].
  cbn [findall_words]. destruct skip as [|n]; [|apply IH].
  destruct (word_at (c :: l)) as [w|] eqn:Hw; [|apply IH].
  constructor; [now apply word_at_capitalised|apply IH].
Qed.

Lemma Forall_removelast {A : Type} (P : A -> Prop) l : Forall P l -> Forall P (removelast l).
Proof.
  induction 1 as [|x l Hx Hl IH]; [constructor|]. cbn [removelast].
  destruct l; [constructor|]. constructor; assumption.
Qed.

Lemma list_of_append a b :
  list_ascii_of_string (a +:+ b) = list_ascii_of_string a ++ list_ascii_of_string b.
Proof. induction a as [|c a IH]; [reflexivity|]. rewrite append_cons. cbn. now rewrite IH. Qed.

Lemma capitalised_letters w :
  capitalised_word w = true -> letters_and_blanks w = true.
Proof.
  unfold capitalised_word, letters_and_blanks.
  destruct (list_ascii_of_string w) as [|c rest]; [discriminate|].
  intros H. apply andb_true_iff in H as [Hc Hrest]. cbn [forallb].
  unfold is_letter at 1. rewrite Hc. cbn [orb andb].
  apply (forallb_weaken is_letter); [|exact Hrest]. intros x Hx. now rewrite Hx.
Qed.

Lemma letters_and_blanks_append a b :
  letters_and_blanks (a +:+ b) = letters_and_blanks a && letters_and_blanks b.
Proof. unfold letters_and_blanks. now rewrite list_of_append, forallb_app. Qed.

Lemma join_letters_and_blanks words :
  Forall (fun w => capitalised_word w = true) words ->
  letters_and_blanks (join " " words) = true.
Proof.
  unfold join. induction 1 as [|w words Hw Hwords IH]; [reflexivity|].
  cbn [String.concat]. destruct words as [|w' words'].
  - now apply capitalised_letters.
  - rewrite !letters_and_blanks_append, (capitalised_letters _ Hw), IH. reflexivity.
Qed.

(** X4: the words [block_class_name_to_block_title] finds start with an
    upper-case letter and hold letters only, so a title is made of
    letters and blanks: digits and other characters of the class name do
    not reach it. *)
Theorem title_is_letters_and_blanks name title :
  block_class_name_to_block_title name = Ok title ->
  letters_and_blanks title = true.
Proof.
  unfold block_class_name_to_block_title.
  pose proof (findall_words_capitalised 0 (list_ascii_of_string name)) as Hwords.
  destruct (last_item (findall_words 0 (list_ascii_of_string name))) as [last_word|];
    [|discriminate].
  cbn [bind]. intros [= <-].
  destruct (String.eqb last_word "Block"); apply join_letters_and_blanks;
    [apply Forall_removelast|]; exact Hwords.
Qed.

Lemma title_is_letters_and_blanks_witness :
  block_class_name_to_block_title "YoloWorld3Block" = Ok "Yolo World"
  /\ letters_and_blanks "Yolo World" = true.
Proof.
  split; [reflexivity|].
  apply (title_is_letters_and_blanks "YoloWorld3Block" "Yolo World"). reflexivity.
Defined.

Lemma split_on_nonempty sep s : split_on sep s <> [].
Proof.
  induction s as [|a s IH]; [discriminate|]. cbn [split_on].
  destruct (Ascii.eqb a sep); [discriminate|]. destruct (split_on sep s); discriminate.
Qed.

Lemma split_on_concat sep s :
  String.concat (String sep EmptyString) (split_on sep s) = s.
Proof.
  induction s as [|a s IH]; [reflexivity|]. cbn [split_on].
  pose proof (split_on_nonempty sep s) as Hne.
  destruct (Ascii.eqb_spec a sep) as [->|Hneq].
  - destruct (split_on sep s) as [|w ws]; [congruence|].
    cbn [String.concat] in *. now rewrite IH.
  - destruct (split_on sep s) as [|w ws]; [congruence|].
    cbn [String.concat] in *. destruct ws; now rewrite <- IH.
Qed.

Lemma split_on_pieces sep s :
  Forall (fun w => ~ In sep (list_ascii_of_string w)) (split_on sep s).
Proof.
  induction s as [|a s IH]; [repeat constructor; auto|]. cbn [split_on].
  destruct (Ascii.eqb_spec a sep) as [->|Hneq].
  - constructor; [cbn; tauto|exact IH].
  - destruct (split_on sep s) as [|w ws].
    + constructor; [|constructor]. cbn. intros [H|[]]. congruence.
    + inversion IH; subst. constructor; [|assumption].
      cbn. intros [H|H]; [congruence|contradiction].
Qed.

Lemma concat_cons sep x y (l : list string) :
  String.concat sep (x :: y :: l) = x +:+ sep +:+ String.concat sep (y :: l).
Proof. reflexivity. Qed.

Lemma concat_last sep init x last :
  String.concat sep ((x :: init) ++ [last])
  = String.concat sep (x :: init) +:+ sep +:+ last.
Proof.
  revert x. induction init as [|y init IH]; intros x; [reflexivity|].
  change ((x :: y :: init) ++ [last]) with (x :: (y :: init) ++ [last]).
  change ((y :: init) ++ [last]) with (y :: init ++ [last]) at 1.
  rewrite concat_cons. change (y :: init ++ [last]) with ((y :: init) ++ [last]).
  rewrite IH, concat_cons. now rewrite !append_associative.
Qed.

(** X5: [get_class_name] never raises; the name it gives holds no dot,
    and the qualified name is that name, or a package path, a dot and that
    name. *)
Theorem get_class_name_last_segment fully_qualified_name :
  exists class_name,
    get_class_name fully_qualified_name = Ok class_name
    /\ ~ In "."%char (list_ascii_of_string class_name)
    /\ (fully_qualified_name = class_name
        \/ exists package, fully_qualified_name = package +:+ "." +:+ class_name).
Proof.
  unfold get_class_name, last_item.
  pose proof (split_on_nonempty "." fully_qualified_name) as Hne.
  pose proof (split_on_concat "." fully_qualified_name) as Hconcat.
  pose proof (split_on_pieces "." fully_qualified_name) as Hpieces.
  destruct (exists_last Hne) as (init & class_name & Hsplit).
  rewrite Hsplit in *. rewrite rev_app_distr. cbn [rev app].
  exists class_name. split; [reflexivity|]. split.
  - apply Forall_app in Hpieces as [_ Hlast]. now inversion Hlast.
  - destruct init as [|x init]; [left; now rewrite <- Hconcat|].
    right. exists (String.concat "." (x :: init)).
    rewrite <- Hconcat. apply concat_last.
Qed.

(** ** Files *)

Lemma search_from_spec n lines token i :
  In i (search_from n lines token)
  <-> n <= i /\ exists line, nth_error lines (i - n) = Some line
                             /\ str_contains token line = true.
Proof.
  revert n. induction lines as [|x lines IH]; intros n.
  - cbn [search_from In]. split; [tauto|]. intros [_ (line & H & _)].
    destruct (i - n); discriminate.
  - cbn [search_from].
    assert (Hrest : In i (search_from (S n) lines token)
                    <-> n < i /\ exists line, nth_error (x :: lines) (i - n) = Some line
                                              /\ str_contains token line = true).
    { rewrite IH. split.
      - intros [Hi (line & Hline & Hc)]. split; [lia|]. exists line.
        replace (i - n) with (S (i - S n)) by lia. auto.
      - intros [Hi (line & Hline & Hc)]. split; [lia|]. exists line.
        replace (i - n) with (S (i - S n)) in Hline by lia. auto. }
    destruct (str_contains token x) eqn:Hx.
    + cbn [In]. rewrite Hrest. split.
      * intros [<-|[Hi H]]; [|split; [lia|exact H]].
        split; [lia|]. exists x. rewrite Nat.sub_diag. auto.
      * intros [Hi H]. destruct (Nat.eq_dec n i) as [->|Hne]; [now left|].
        right. split; [lia|exact H].
    + rewrite Hrest. split.
      * intros [Hi H]. split; [lia|exact H].
      * intros [Hi (line & Hline & Hc)].
        destruct (Nat.eq_dec n i) as [->|Hne].
        -- rewrite Nat.sub_diag in Hline. cbn in Hline. congruence.
        -- split; [lia|]. eauto.
Qed.

Lemma search_from_sorted n lines token :
  StronglySorted lt (search_from n lines token).
Proof.
  revert n. induction lines as [|x lines IH]; intros n; [constructor|].
  cbn [search_from]. destruct (str_contains token x); [|apply IH].
  constructor; [apply IH|]. apply List.Forall_forall. intros i Hi.
  apply search_from_spec in Hi. lia.
Qed.

(** X6: [search_lines_with_token] returns, in increasing order and each
    once, exactly the indexes of the lines that hold the token. *)
Theorem search_lines_with_token_spec lines token :
  StronglySorted lt (search_lines_with_token lines token)
  /\ forall i, In i (search_lines_with_token lines token)
               <-> exists line, nth_error lines i = Some line
                                /\ str_contains token line = true.
Proof.
  unfold search_lines_with_token. split; [apply search_from_sorted|].
  intros i. rewrite search_from_spec, Nat.sub_0_r. split.
  - now intros [_ H].
  - intros H. split; [lia|exact H].
Qed.

(** X7: every line [read_lines_from_file] returns is free of line breaks
    and of trailing white space, whatever the file holds. *)
Theorem read_lines_are_stripped path st lines :
  read_lines_from_file path st = Ok lines ->
  Forall (fun line => one_line line = true /\ rstrip line = line) lines.
Proof.
  unfold read_lines_from_file. destruct (files st !! path) as [content|]; [|discriminate].
  intros [= <-]. apply read_lines_stripped.
Qed.

Lemma read_lines_are_stripped_witness :
  Forall (fun line => one_line line = true /\ rstrip line = line)
    ["# Blocks"; AUTOGENERATED_BLOCKS_LIST_TOKEN; "footer"].
Proof.
  apply (read_lines_are_stripped index_path (with_index index_one_token)). reflexivity.
Defined.

(** X8: when [save_lines_to_file] can open the path, as it can whenever
    a regular file is there already, the lines it writes (without line
    breaks and trailing white space) are the lines [read_lines_from_file]
    reads back from that path.  When it cannot, it raises and leaves the
    file system as it was. *)
Theorem save_then_read_lines path lines st :
  Forall (fun line => one_line line = true /\ rstrip line = line) lines ->
  (fst (save_lines_to_file path lines st) = Ok tt ->
   read_lines_from_file path (snd (save_lines_to_file path lines st)) = Ok lines)
  /\ (is_Some (files st !! path) -> ends_with_slash path = false ->
      fst (save_lines_to_file path lines st) = Ok tt)
  /\ (forall e, fst (save_lines_to_file path lines st) = Raise e ->
      snd (save_lines_to_file path lines st) = st).
Proof.
  intros Hlines. unfold save_lines_to_file, write_file. split; [|split].
  - destruct (open_for_writing path st) as [[]|e]; [|discriminate]. intros _.
    unfold read_lines_from_file. cbn [snd files]. rewrite lookup_insert_eq. f_equal.
    now apply read_back_stripped.
  - intros Hfile Hslash. now rewrite (open_for_writing_file _ _ Hslash Hfile).
  - intros e. destruct (open_for_writing path st) as [[]|e']; [discriminate|reflexivity].
Qed.

Lemma save_then_read_lines_witness :
  (fst (save_lines_to_file index_path ["# Blocks"; ""; "  indented"] (with_index EmptyString))
   = Ok tt ->
   read_lines_from_file index_path
     (snd (save_lines_to_file index_path ["# Blocks"; ""; "  indented"]
             (with_index EmptyString)))
   = Ok ["# Blocks"; ""; "  indented"])
  /\ (is_Some (files (with_index EmptyString) !! index_path) ->
      ends_with_slash index_path = false ->
      fst (save_lines_to_file index_path ["# Blocks"; ""; "  indented"]
             (with_index EmptyString)) = Ok tt)
  /\ (forall e,
        fst (save_lines_to_file index_path ["# Blocks"; ""; "  indented"]
               (with_index EmptyString)) = Raise e ->
        snd (save_lines_to_file index_path ["# Blocks"; ""; "  indented"]
               (with_index EmptyString)) = with_index EmptyString).
Proof.
  apply (save_then_read_lines index_path ["# Blocks"; ""; "  indented"]).
  repeat constructor.
Defined.

(** Saving does raise: under a regular file, in a directory that is not
    there, and at a directory. *)
Example save_lines_raises :
  fst (save_lines_to_file "/w/docs/notes.md" ["text"] docs_is_a_file)
  = Raise NotADirectoryError
  /\ fst (save_lines_to_file "/w/other/notes.md" ["text"] docs_is_a_file)
     = Raise FileNotFoundError
  /\ fst (save_lines_to_file "/w/docs/workflows" ["text"] (with_index index_one_token))
     = Raise IsADirectoryError.
Proof. repeat split; vm_compute; reflexivity. Qed.

(** X9: [create_directory_if_not_exists] touches no file.  When it
    returns, the path exists (as a directory, or as the file that sat
    there already) and a second call has nothing left to do.  It raises
    only when the directory cannot be made, for a regular file above it
    ([NotADirectoryError]) or for the empty path, and then it has changed
    nothing. *)
Theorem create_directory_idempotent directory_path st :
  files (snd (create_directory_if_not_exists directory_path st)) = files st
  /\ (fst (create_directory_if_not_exists directory_path st) = Ok tt ->
      path_exists (snd (create_directory_if_not_exists directory_path st)) directory_path
      = true
      /\ create_directory_if_not_exists directory_path
           (snd (create_directory_if_not_exists directory_path st))
         = (Ok tt, snd (create_directory_if_not_exists directory_path st)))
  /\ (forall e,
        fst (create_directory_if_not_exists directory_path st) = Raise e ->
        snd (create_directory_if_not_exists directory_path st) = st
        /\ path_exists st directory_path = false
        /\ (e = NotADirectoryError
            \/ (e = FileNotFoundError /\ directory_path = EmptyString))).
Proof.
  split; [apply create_directory_files|]. split.
  - intros Hmade. pose proof (create_directory_exists _ _ Hmade) as Hexists.
    split; [exact Hexists|]. now apply create_directory_again.
  - intros e. apply create_directory_raises.
Qed.

(** The directory is made with those above it; under a regular file
    nothing can be made. *)
Example create_directory_makes_ancestors :
  create_directory_if_not_exists "/w/docs/workflows/blocks" without_index
  = (Ok tt,
     {| dirs := {["/w/docs/workflows/blocks"; "/w/docs"; "/w/docs/workflows"]};
        files := files without_index |})
  /\ create_directory_if_not_exists "/w/docs/workflows/blocks" docs_is_a_file
     = (Raise NotADirectoryError, docs_is_a_file).
Proof.
  split.
  - vm_compute. reflexivity.
  - vm_compute. reflexivity.
Qed.

(** ** The schema formatter, further *)

(** X10: an array whose items are themselves of type "array" is never
    typed: line 155 hands the recursive call the type name, a [str], and
    its [get] raises [AttributeError]. *)
Theorem array_of_arrays_raises kvs item_kvs :
  dict_lookup "items" kvs = Some (JDict item_kvs) ->
  dict_lookup "type" item_kvs = Some (JStr "array") ->
  create_array_typing (JDict kvs) = Raise AttributeError.
Proof.
  intros Hitems Htype.
  unfold create_array_typing. cbn [create_array_typing_fuel]. unfold create_array_typing_body at 1.
  cbn [get getitem]. rewrite Hitems.
  assert (Hhas : dict_has "type" item_kvs = true) by (unfold dict_has; now rewrite Htype).
  destruct item_kvs as [|kv item_kvs']; [discriminate|].
  destruct (dict_lookup "uniqueItems" kvs) as [u|];
    cbn [bind len List.length Nat.eqb contains getitem];
    rewrite Hhas, Htype; reflexivity.
Qed.

Lemma array_of_arrays_raises_witness :
  create_array_typing
    (JDict [("type", JStr "array");
            ("items", JDict [("type", JStr "array");
                             ("items", JDict [("type", JStr "number")])])])
  = Raise AttributeError.
Proof.
  apply (array_of_arrays_raises _ [("type", JStr "array");
                                   ("items", JDict [("type", JStr "number")])]);
    reflexivity.
Defined.

Section FormatInputsProperties.

Variable set_iter : list string -> list string.
Variable repr_float : spec_float -> string.

Lemma format_union_row name property_definition r :
  format_union set_iter name property_definition = Ok (Some r) ->
  is_row4 r = true /\ row_name r = name.
Proof.
  unfold format_union.
  destruct (union_operands property_definition) as [x|]; cbn [bind]; [|discriminate].
  destruct (iter x) as [elements|]; cbn [bind]; [|discriminate].
  destruct (without_reference elements) as [primitive_types|]; cbn [bind]; [|discriminate].
  destruct (List.length primitive_types =? 0)%nat; [discriminate|].
  destruct (len x) as [len_x|]; cbn [bind]; [|discriminate].
  destruct (resolve_branches _ _ _) as [[names ref_appears]|]; cbn [bind]; [|discriminate].
  destruct (optional_or_union names) as [high_level_type result_].
  destruct (get property_definition "description" _); cbn [bind]; [|discriminate].
  intros [= <-]. split; reflexivity.
Qed.

Lemma format_property_row name property_definition r :
  format_property set_iter name property_definition = Ok (Some r) ->
  is_row4 r = true /\ row_name r = name /\ name <> "type".
Proof.
  unfold format_property. destruct (String.eqb_spec name "type") as [->|Hname]; [discriminate|].
  destruct (get property_definition "type" JNull) as [ty|]; cbn [bind]; [|discriminate].
  destruct (in_table ty TYPE_MAPPING) as [[|]|]; cbn [bind]; try discriminate.
  - destruct (getitem property_definition "type") as [ty'|]; cbn [bind]; [|discriminate].
    destruct (table_getitem TYPE_MAPPING ty'); cbn [bind]; [|discriminate].
    destruct (get property_definition "description" _); cbn [bind]; [|discriminate].
    intros [= <-]. repeat split. exact Hname.
  - destruct (contains "items" property_definition) as [[|]|]; cbn [bind]; try discriminate.
    + destruct (getitem property_definition "items") as [items|]; cbn [bind]; [|discriminate].
      destruct (contains "reference" items) as [[|]|]; cbn [bind]; try discriminate.
      destruct (create_array_typing items) as [typing|]; cbn [bind]; [|discriminate].
      destruct (unpack_pair typing) as [[t_name ref_appears]|]; cbn [bind]; [|discriminate].
      destruct property_definition; discriminate.
    + destruct (contains "anyOf" property_definition) as [any_of|]; cbn [bind]; [|discriminate].
      destruct (if any_of then Ok true else contains "oneOf" property_definition)
        as [one_of|]; cbn [bind]; [|discriminate].
      destruct (if one_of then Ok true else contains "allOf" property_definition)
        as [[|]|]; cbn [bind]; try discriminate.
      * destruct (format_union set_iter name property_definition) as [[r'|]|] eqn:Hunion;
          cbn [bind]; try discriminate.
        destruct (contains "reference" property_definition); cbn [bind]; [|discriminate].
        intros [= <-]. destruct (format_union_row _ _ _ Hunion). auto.
      * destruct (contains "reference" property_definition); discriminate.
Qed.

Lemma format_properties_rows properties global_result rows :
  format_properties set_iter properties global_result = Ok rows ->
  exists appended,
    rows = global_result ++ appended
    /\ forallb is_row4 appended = true
    /\ map row_name appended `sublist_of` map fst properties
    /\ ~ In "type" (map row_name appended).
Proof.
  revert global_result. induction properties as [|[name definition] properties IH];
    intros global_result; cbn [format_properties].
  - intros [= <-]. exists []. rewrite app_nil_r. repeat split; [constructor|intros []].
  - destruct (format_property set_iter name definition) as [[r|]|] eqn:Hrow; cbn [bind];
      [| |discriminate]; intros Hrest; destruct (IH _ Hrest) as (appended & -> & H4 & Hsub & Htype).
    + destruct (format_property_row _ _ _ Hrow) as (Hr4 & Hname & Hne).
      exists (r :: appended). rewrite <- app_assoc. cbn [app forallb map fst In].
      rewrite Hr4, H4, Hname. repeat split.
      * now constructor.
      * intros [Heq|Hin]; [congruence|auto].
    + exists appended. cbn [map fst]. repeat split; auto. now constructor.
Qed.

Lemma input_rows_of_row4 data :
  forallb is_row4 data = true ->
  exists rows, input_rows repr_float data = Ok rows /\ List.length rows = List.length data.
Proof.
  induction data as [|[name kind description flag|name kind description] data IH];
    cbn [forallb is_row4 andb]; [|intros H|discriminate].
  - exists []. split; reflexivity.
  - destruct (IH H) as (rows & Hrows & Hlen). cbn [input_rows]. rewrite Hrows. cbn [bind].
    eexists. split; [reflexivity|]. cbn [List.length]. now rewrite Hlen.
Qed.

Lemma format_inputs_rows_aux manifest data :
  format_inputs set_iter manifest = Ok data ->
  exists rows, input_rows repr_float data = Ok rows /\ List.length rows = List.length data.
Proof.
  unfold format_inputs.
  destruct (getitem manifest "properties") as [p|]; cbn [bind]; [|discriminate].
  destruct (items_of p) as [properties|]; cbn [bind]; [|discriminate].
  intros Hrows. destruct (format_properties_rows _ _ _ Hrows) as (appended & -> & H4 & _).
  now apply input_rows_of_row4.
Qed.

(** X11: every row [format_inputs] returns has the four components its
    caller unpacks; the rows follow the order of the properties, at most
    one for each, and none is for the property named "type". *)
Theorem format_inputs_rows block_definition rows :
  format_inputs set_iter block_definition = Ok rows ->
  exists properties,
    (let* p := getitem block_definition "properties" in items_of p) = Ok properties
    /\ forallb is_row4 rows = true
    /\ map row_name rows `sublist_of` map fst properties
    /\ ~ In "type" (map row_name rows).
Proof.
  unfold format_inputs.
  destruct (getitem block_definition "properties") as [p|]; cbn [bind]; [|discriminate].
  destruct (items_of p) as [properties|]; cbn [bind]; [|discriminate].
  intros Hrows. destruct (format_properties_rows _ _ _ Hrows) as (appended & -> & H).
  exists properties. split; [reflexivity|exact H].
Qed.

(** X12: the unpacking of line 164 never fails.  [format_block_inputs]
    raises only what [format_inputs] raises; otherwise it returns the
    two header lines and one line for each row, joined by newlines. *)
Theorem format_block_inputs_outcome manifest :
  match format_inputs set_iter manifest with
  | Ok data =>
      exists rows,
        List.length rows = List.length data
        /\ format_block_inputs set_iter repr_float manifest
           = Ok (join nl (USER_CONFIGURATION_HEADER ++ rows))
  | Raise e => format_block_inputs set_iter repr_float manifest = Raise e
  end.
Proof.
  unfold format_block_inputs.
  destruct (format_inputs set_iter manifest) as [data|e] eqn:Hdata; cbn [bind]; [|reflexivity].
  destruct (format_inputs_rows_aux manifest data Hdata) as [rows [Hrows Hlen]].
  exists rows. split; [exact Hlen|]. rewrite Hrows. reflexivity.
Qed.

End FormatInputsProperties.

(** *** Unions *)

Lemma without_reference_all elements :
  Forall (fun e => contains "reference" e = Ok true) elements ->
  without_reference elements = Ok [].
Proof.
  induction 1 as [|e elements He _ IH]; [reflexivity|].
  cbn [without_reference]. rewrite He, IH. reflexivity.
Qed.

Lemma resolve_branches_flag primitive_types result_ ref_appears :
  resolve_branches primitive_types result_ ref_appears
  = (let* (names, nested) := resolve_branches primitive_types result_ false in
     Ok (names, ref_appears || nested)).
Proof.
  revert result_ ref_appears.
  induction primitive_types as [|t rest IH]; intros result_ ref_appears;
    cbn [resolve_branches bind].
  - now rewrite orb_false_r.
  - rewrite (resolve_branch_flag t ref_appears).
    destruct (resolve_branch t false) as [[t_name nested]|]; cbn [bind orb]; [|reflexivity].
    rewrite (IH _ (ref_appears || nested)), (IH _ nested).
    destruct (resolve_branches rest (result_ ++ [t_name]) false) as [[names k]|];
      cbn [bind]; [|reflexivity].
    now rewrite orb_assoc.
Qed.

Lemma set_of_list_In seen l n : In n (set_of_list seen l) <-> In n seen \/ In n l.
Proof.
  revert seen. induction l as [|x l IH]; intros seen; cbn [set_of_list In].
  - tauto.
  - destruct (existsb (String.eqb x) seen) eqn:Hx; rewrite IH.
    + apply existsb_eqb_In in Hx. split; [tauto|]. intros [H|[<-|H]]; auto.
    + rewrite in_app_iff. cbn [In]. tauto.
Qed.

Lemma set_of_list_NoDup seen l : List.NoDup seen -> List.NoDup (set_of_list seen l).
Proof.
  revert seen. induction l as [|x l IH]; intros seen Hseen; cbn [set_of_list]; [exact Hseen|].
  destruct (existsb (String.eqb x) seen) eqn:Hx; apply IH; [exact Hseen|].
  apply List.NoDup_app; [exact Hseen|repeat constructor; intros []|].
  intros y Hy [<-|[]]. apply existsb_eqb_In in Hy. congruence.
Qed.

Lemma set_remove_In x s n : In n (set_remove x s) <-> In n s /\ n <> x.
Proof.
  unfold set_remove. rewrite <- !list_elem_of_In, list_elem_of_filter.
  rewrite negb_True, Is_true_true, String.eqb_eq. tauto.
Qed.

Lemma set_remove_NoDup x s : List.NoDup s -> List.NoDup (set_remove x s).
Proof.
  induction 1 as [|y s Hy Hs IH]; [constructor|].
  unfold set_remove in *. rewrite filter_cons. destruct (decide _) as [H|H]; [|exact IH].
  constructor; [|exact IH]. intros Hin. apply (set_remove_In x s y) in Hin. tauto.
Qed.

Section UnionProperties.

Variable set_iter : list string -> list string.
Hypothesis set_iter_permutation : forall s, Permutation (set_iter s) s.

(** X13: a union all of whose branches carry a "reference" key (or that
    has no branch at all) gets no row, and nothing is raised on the way. *)
Theorem union_of_references_skipped name property_definition x elements :
  union_operands property_definition = Ok x ->
  iter x = Ok elements ->
  Forall (fun e => contains "reference" e = Ok true) elements ->
  format_union set_iter name property_definition = Ok None.
Proof.
  intros Hx Helements Hall. unfold format_union.
  rewrite Hx. cbn [bind]. rewrite Helements. cbn [bind].
  rewrite (without_reference_all _ Hall). reflexivity.
Qed.

(** X14: the display type of a union.  With [names] the names its
    non-reference branches resolve to, the names shown are the different
    ones among them other than "None", each once; two or more branches
    wrap them in [Optional[...]] when some branch resolves to "None" and
    in [Union[...]] otherwise; the references flag says whether a branch
    was left out as a reference or an array branch reported one. *)
Theorem union_display name property_definition x elements primitive_types names nested :
  union_operands property_definition = Ok x ->
  iter x = Ok elements ->
  without_reference elements = Ok primitive_types ->
  primitive_types <> [] ->
  resolve_branches primitive_types [] false = Ok (names, nested) ->
  exists shown description,
    List.NoDup shown
    /\ (forall n, In n shown <-> In n names /\ n <> "None")
    /\ get property_definition "description" (JStr "not available") = Ok description
    /\ format_union set_iter name property_definition
       = Ok (Some (Row4 name
                     (if (1 <? List.length primitive_types)%nat
                      then (if existsb (String.eqb "None") names then "Optional" else "Union")
                           +:+ "[" +:+ join ", " shown +:+ "]"
                      else join ", " shown)
                     description
                     (negb (List.length primitive_types =? List.length elements)%nat
                      || nested))).
Proof.
  intros Hx Helements Hbranches Hnonempty Hresolve.
  assert (Hdict : exists kvs, property_definition = JDict kvs).
  { unfold union_operands in Hx.
    destruct (get property_definition "anyOf" (JList [])) eqn:Hget; [|discriminate].
    eapply get_dict_inv; eauto. }
  destruct Hdict as [kvs ->].
  assert (Hwrapper : existsb (String.eqb "None") (set_of_list [] names)
                     = existsb (String.eqb "None") names).
  { apply eq_true_iff_eq. rewrite !existsb_eqb_In, set_of_list_In. cbn [In]. tauto. }
  exists (set_iter (snd (optional_or_union names))),
         (match dict_lookup "description" kvs with
          | Some d => d
          | None => JStr "not available"
          end).
  assert (Hset : List.NoDup (snd (optional_or_union names))
                 /\ forall n, In n (snd (optional_or_union names))
                              <-> In n names /\ n <> "None").
  { unfold optional_or_union.
    destruct (existsb (String.eqb "None") (set_of_list [] names)) eqn:Hnone; cbn [snd].
    - split; [apply set_remove_NoDup, set_of_list_NoDup; constructor|].
      intros n. rewrite set_remove_In, set_of_list_In. cbn [In]. tauto.
    - split; [apply set_of_list_NoDup; constructor|].
      intros n. rewrite set_of_list_In. cbn [In]. split; [|tauto].
      intros [[]|Hin]. split; [exact Hin|]. intros ->.
      apply existsb_eqb_In in Hin. rewrite Hwrapper in Hnone. congruence. }
  destruct Hset as [Hnodup Hin].
  split; [|split; [|split]].
  - eapply Permutation_NoDup; [apply Permutation_sym, set_iter_permutation|exact Hnodup].
  - intros n. rewrite <- Hin. split; apply Permutation_in;
      [apply set_iter_permutation|apply Permutation_sym, set_iter_permutation].
  - cbn [get]. destruct (dict_lookup "description" kvs); reflexivity.
  - unfold format_union. rewrite Hx. cbn [bind]. rewrite Helements. cbn [bind].
    rewrite Hbranches. cbn [bind].
    destruct primitive_types as [|t rest]; [congruence|].
    change (List.length (t :: rest) =? 0)%nat with false. cbv iota.
    rewrite (len_iter _ _ Helements). cbn [bind].
    rewrite resolve_branches_flag, Hresolve. cbn [bind].
    unfold optional_or_union. rewrite Hwrapper.
    cbn [get]. destruct (existsb (String.eqb "None") names); cbn [snd];
      destruct (dict_lookup "description" kvs); cbn [bind];
      destruct (1 <? List.length (t :: rest))%nat; reflexivity.
Qed.

End UnionProperties.

Lemma format_inputs_rows_witness :
  exists properties,
    (let* p := getitem (block_manifest crop_block) "properties" in items_of p) = Ok properties
    /\ forallb is_row4
         [Row4 "name" "str" (JStr "Unique name of step in workflows") false;
          Row4 "mode" "Union[str, int]" (JStr "not available") false] = true
    /\ map row_name
         [Row4 "name" "str" (JStr "Unique name of step in workflows") false;
          Row4 "mode" "Union[str, int]" (JStr "not available") false]
       `sublist_of` map fst properties
    /\ ~ In "type"
         (map row_name
            [Row4 "name" "str" (JStr "Unique name of step in workflows") false;
             Row4 "mode" "Union[str, int]" (JStr "not available") false]).
Proof.
  apply (format_inputs_rows (fun l => l) (block_manifest crop_block)). reflexivity.
Defined.

Lemma union_of_references_skipped_witness :
  format_union (fun l => l) "image"
    (JDict [("anyOf", JList [JDict [("type", JStr "string"); ("reference", JBool true)]])])
  = Ok None.
Proof.
  apply (union_of_references_skipped (fun l => l) "image" _
           (JList [JDict [("type", JStr "string"); ("reference", JBool true)]])
           [JDict [("type", JStr "string"); ("reference", JBool true)]]).
  - reflexivity.
  - reflexivity.
  - repeat constructor.
Defined.

Lemma union_display_witness :
  exists shown description,
    List.NoDup shown
    /\ (forall n, In n shown <-> In n ["str"; "None"] /\ n <> "None")
    /\ get string_or_null "description" (JStr "not available") = Ok description
    /\ format_union (fun l => l) "mode" string_or_null
       = Ok (Some (Row4 "mode" ("Optional" +:+ "[" +:+ join ", " shown +:+ "]")
                     description false)).
Proof.
  apply (union_display (fun l => l) identity_order_permutes "mode" string_or_null
           (JList [JDict [("type", JStr "string")]; JDict [("type", JStr "null")]])
           [JDict [("type", JStr "string")]; JDict [("type", JStr "null")]]
           [JDict [("type", JStr "string")]; JDict [("type", JStr "null")]]
           ["str"; "None"] false).
  - reflexivity.
  - reflexivity.
  - reflexivity.
  - discriminate.
  - reflexivity.
Defined.

(** ** The pipeline, further *)

Lemma written_in pages path content :
  written pages path = Some content -> In (path, content) pages.
Proof.
  induction pages as [|[p c] pages IH]; cbn [written fst snd]; [discriminate|].
  destruct (written pages path) as [content'|].
  - intros [= <-]. right. now apply IH.
  - destruct (String.eqb_spec p path) as [->|]; [|discriminate].
    intros [= <-]. now left.
Qed.

Lemma written_app pages page path :
  written (pages ++ [page]) path
  = if String.eqb (fst page) path then Some (snd page) else written pages path.
Proof.
  induction pages as [|q pages IH]; cbn [app written].
  - destruct (String.eqb (fst page) path); reflexivity.
  - rewrite IH. destruct (String.eqb (fst page) path); reflexivity.
Qed.

(** The files the loop of writes leaves: those it found, with the pages
    it came to write. *)
Lemma write_pages_files pages st r st1 :
  write_pages pages st = (r, st1) ->
  exists done,
    files st1 = write_all done (files st)
    /\ (r = Ok tt -> done = pages)
    /\ (forall page, In page done -> In page pages).
Proof.
  intros Hpages.
  destruct (write_pages_again _ _ _ _ st1 Hpages eq_refl eq_refl)
    as (done & Hfiles & Hall & Hin & _).
  exists done. auto.
Qed.

Lemma is_root_name base name :
  forallb is_slash (list_ascii_of_string name) = false -> is_root (base +:+ name) = false.
Proof.
  intros Hname. unfold is_root. destruct (base +:+ name) eqn:Hpath; [reflexivity|].
  rewrite <- Hpath, list_of_append, forallb_app, Hname. apply andb_false_r.
Qed.

(** What is above something that exists is a directory. *)
Lemma is_directory_up st d a :
  is_root d = false -> path_exists st d = true -> In a (ancestors d) ->
  is_directory st a = true.
Proof.
  intros Hroot Hexists Ha. unfold path_exists in Hexists.
  apply orb_true_iff in Hexists as [Hdir|Hfile].
  - apply is_directory_spec in Hdir. destruct Hdir as [H|[H|(q & Hq & Hd)]].
    + congruence.
    + eapply is_directory_above; eauto.
    + eapply is_directory_above; [exact Hq|]. eapply ancestors_transitive; eauto.
  - apply is_file_spec in Hfile. eapply is_directory_above; eauto.
Qed.

Section PipelineFurther.

Variable set_iter : list string -> list string.
Variable repr_float : spec_float -> string.
Variable cwd : string.

Local Abbreviation FILE := (BLOCK_DOCUMENTATION_FILE cwd).
Local Abbreviation DIRECTORY := (BLOCK_DOCUMENTATION_DIRECTORY cwd).
Local Abbreviation TOKEN := AUTOGENERATED_BLOCKS_LIST_TOKEN.
Local Abbreviation plan := (pages_and_cards set_iter repr_float cwd).
Local Abbreviation page_of := (block_page set_iter repr_float cwd).
Local Abbreviation card_of := (block_card repr_float).
Local Abbreviation run_on := (run set_iter repr_float cwd).

(** Every page of the plan is the page of a block of the listing. *)
Lemma plan_pages blocks cards page :
  In page (fst (plan blocks cards)) ->
  exists block, In block blocks /\ page_of block = Ok page.
Proof.
  revert cards. induction blocks as [|block blocks IH]; intros cards;
    cbn [pages_and_cards fst]; [intros []|].
  destruct (page_of block) as [page'|] eqn:Hpage; [|intros []].
  destruct (card_of block) as [card|].
  - destruct (plan blocks (cards ++ [card])) as [pages outcome] eqn:Hplan. cbn [fst].
    intros [<-|Hin].
    + exists block. split; [now left|exact Hpage].
    + destruct (IH (cards ++ [card]) ) as (b & Hb & Hp); [now rewrite Hplan|].
      exists b. split; [now right|exact Hp].
  - cbn [fst]. intros [<-|[]]. exists block. split; [now left|exact Hpage].
Qed.

(** The run depends on the listing through its plan. *)
Lemma run_by_plan blocks blocks' st :
  plan blocks [] = plan blocks' [] -> run_on blocks st = run_on blocks' st.
Proof.
  intros Hplan. unfold run.
  destruct (create_directory_if_not_exists DIRECTORY st) as [[[]|err] st1]; [|reflexivity].
  now rewrite !regenerate_eq, Hplan.
Qed.

(** The files a run leaves, by cases on how it goes. *)
Lemma run_files blocks st path :
  files (snd (run_on blocks st)) !! path = files st !! path
  \/ path = FILE
  \/ exists content, In (path, content) (fst (plan blocks [])).
Proof.
  unfold run.
  pose proof (create_directory_files DIRECTORY st) as Hfiles.
  destruct (create_directory_if_not_exists DIRECTORY st) as [[[]|err] st1];
    cbn [snd] in *; [|left; now rewrite Hfiles].
  rewrite regenerate_eq.
  destruct (files st1 !! FILE) as [index|]; [|left; cbn [snd]; now rewrite Hfiles].
  cbv zeta.
  destruct (search_lines_with_token _ TOKEN) as [|s [|e [|x found]]];
    try (left; cbn [snd]; now rewrite Hfiles).
  destruct (write_pages (fst (plan blocks [])) st1) as [r st2] eqn:Hpages.
  destruct (write_pages_files _ _ _ _ Hpages) as (done & Hdone & _ & Hin).
  assert (Hst2 : files st2 !! path = files st !! path
                 \/ exists content, In (path, content) (fst (plan blocks []))).
  { rewrite Hdone, lookup_write_all, Hfiles.
    destruct (written done path) as [content|] eqn:Hwritten; [|now left].
    right. exists content. apply Hin. now apply written_in. }
  destruct r as [[]|err]; [|cbn [snd]; tauto].
  destruct (snd (plan blocks [])) as [cards|err]; [|cbn [snd]; tauto].
  unfold save_lines_to_file, write_file.
  destruct (open_for_writing FILE st2) as [[]|err]; cbn [snd files]; [|tauto].
  destruct (decide (FILE = path)) as [<-|Hne]; [now right; left|].
  rewrite lookup_insert_ne by assumption. tauto.
Qed.

(** The names a run leaves. *)
Lemma run_names blocks st :
  dom (files st) ⊆ dom (files (snd (run_on blocks st)))
  /\ dirs st ⊆ dirs (snd (run_on blocks st))
  /\ dirs (snd (run_on blocks st))
     ⊆ {[DIRECTORY]} ∪ list_to_set (ancestors DIRECTORY) ∪ dirs st.
Proof.
  unfold run.
  pose proof (create_directory_files DIRECTORY st) as Hfiles.
  pose proof (create_directory_dirs DIRECTORY st) as [Hdirs Hmade].
  destruct (create_directory_if_not_exists DIRECTORY st) as [[[]|err] st1];
    cbn [snd] in *; [|now rewrite Hfiles].
  destruct (regenerate_grows set_iter repr_float cwd blocks st1) as [-> Hdom].
  rewrite Hfiles in Hdom. auto.
Qed.

(** X15: when nothing is at the path of the index (and the pages
    directory is there or can be made) the run ends with
    [FileNotFoundError] once the pages directory is there: no block is
    looked at and no file is written. *)
Theorem missing_index_aborts blocks st :
  path_exists st FILE = false ->
  fst (create_directory_if_not_exists DIRECTORY st) = Ok tt ->
  run set_iter repr_float cwd blocks st
  = (Raise FileNotFoundError, snd (create_directory_if_not_exists DIRECTORY st))
  /\ files (snd (run set_iter repr_float cwd blocks st)) = files st.
Proof.
  intros Hindex Hmade.
  destruct (index_and_directory cwd) as (base & Hfile & Hdirectory).
  assert (Hlonger : String.length DIRECTORY < String.length FILE).
  { rewrite Hfile, Hdirectory, !length_of_append. cbn. lia. }
  assert (Hroot : is_root DIRECTORY = false)
    by (rewrite Hdirectory; now apply is_root_name).
  apply orb_false_iff in Hindex as [Hdir Hnone].
  assert (Hlookup : files st !! FILE = None).
  { destruct (files st !! FILE) as [x|] eqn:H; [|reflexivity].
    assert (is_file st FILE = true) by (apply is_file_spec; rewrite H; eauto). congruence. }
  pose proof (create_directory_files DIRECTORY st) as Hfiles.
  pose proof (create_directory_dirs DIRECTORY st) as [_ Hdirs].
  pose proof (create_directory_exists DIRECTORY st Hmade) as Hexists.
  assert (Hrun : run_on blocks st
                 = (Raise FileNotFoundError, snd (create_directory_if_not_exists DIRECTORY st))).
  { unfold run.
    destruct (create_directory_if_not_exists DIRECTORY st) as [[[]|err] st1];
      cbn [fst snd] in *; [|discriminate].
    rewrite regenerate_eq, Hfiles, Hlookup. f_equal. f_equal. unfold cannot_read.
    assert (Hdir1 : is_directory st1 FILE = false).
    { apply not_true_is_false. intros H. apply is_directory_spec in H.
      assert (Hshort : forall q, q ∈ dirs st1 -> q ∈ dirs st \/ String.length q < String.length FILE).
      { intros q Hq. apply Hdirs in Hq.
        rewrite !elem_of_union, elem_of_singleton, elem_of_list_to_set, list_elem_of_In in Hq.
        destruct Hq as [[->|Hq]|Hq]; auto.
        right. apply ancestors_not_longer in Hq. lia. }
      assert (Hold : is_directory st FILE = true -> False) by congruence.
      destruct H as [H|[H|(q & Hq & Ha)]].
      - apply Hold, is_directory_spec. auto.
      - destruct (Hshort _ H) as [H'|H']; [|lia]. apply Hold, is_directory_spec. auto.
      - pose proof (ancestors_not_longer _ _ Ha) as Hlen.
        rewrite Hfiles in Hq. destruct Hq as [Hq|Hq].
        + destruct (Hshort _ Hq) as [H'|H']; [|lia].
          apply Hold. eapply is_directory_above; eauto.
        + apply Hold. eapply is_directory_above; eauto. }
    rewrite Hdir1.
    assert (Hway : first_obstacle st1 (ancestors FILE) = None).
    { apply first_obstacle_none, List.Forall_forall. intros a Ha.
      rewrite ancestors_of_index in Ha. eapply is_directory_up; eauto. }
    now rewrite Hway. }
  split; [exact Hrun|]. rewrite Hrun. exact Hfiles.
Qed.

(** X16: a run removes nothing.  Every file that was there is still
    there, every directory too, and what exists still exists; the only
    directories it may add are the pages directory and those above it. *)
Theorem run_removes_nothing blocks st :
  dom (files st) ⊆ dom (files (snd (run set_iter repr_float cwd blocks st)))
  /\ dirs st ⊆ dirs (snd (run set_iter repr_float cwd blocks st))
  /\ dirs (snd (run set_iter repr_float cwd blocks st))
     ⊆ {[DIRECTORY]} ∪ list_to_set (ancestors DIRECTORY) ∪ dirs st
  /\ (forall path,
        path_exists st path = true ->
        path_exists (snd (run set_iter repr_float cwd blocks st)) path = true).
Proof.
  destruct (run_names blocks st) as (Hfiles & Hdirs & Hmade).
  split; [exact Hfiles|]. split; [exact Hdirs|]. split; [exact Hmade|].
  intros path. now apply path_exists_mono.
Qed.

(** X17: a run changes only the index and the pages of the blocks of the
    listing: a file at any other path is what it was, or is still
    missing. *)
Theorem run_touches_index_and_pages blocks st path :
  path <> FILE ->
  (forall block page,
     In block blocks -> block_page set_iter repr_float cwd block = Ok page ->
     fst page <> path) ->
  files (snd (run set_iter repr_float cwd blocks st)) !! path = files st !! path.
Proof.
  intros Hindex Hpages.
  destruct (run_files blocks st path) as [H|[H|(content & Hwritten)]];
    [exact H|congruence|].
  apply plan_pages in Hwritten. destruct Hwritten as (block & Hin & Hpage).
  now elim (Hpages block (path, content) Hin Hpage).
Qed.

(** The plan of a listing that begins with blocks whose page and card
    are made without an exception. *)
Lemma plan_app good cards :
  Forall (fun block => raises (page_of block) = false /\ raises (card_of block) = false) good ->
  exists pages new_cards,
    (forall page, In page pages -> exists block, In block good /\ page_of block = Ok page)
    /\ forall rest,
         plan (good ++ rest) cards
         = (pages ++ fst (plan rest (cards ++ new_cards)),
            snd (plan rest (cards ++ new_cards))).
Proof.
  intros Hgood. revert cards.
  induction Hgood as [|block good [Hpage Hcard] _ IH]; intros cards.
  - exists [], []. split; [intros page []|]. intros rest. rewrite app_nil_r. cbn [app].
    now destruct (plan rest cards).
  - destruct (page_of block) as [page|] eqn:Hp; [|discriminate].
    destruct (card_of block) as [card|] eqn:Hc; [|discriminate].
    destruct (IH (cards ++ [card])) as (pages & new_cards & Hpages & Heq).
    exists (page :: pages), (card :: new_cards). split.
    + intros q [<-|Hq]; [exists block; split; [now left|exact Hp]|].
      destruct (Hpages q Hq) as (b & Hb & Hbq). exists b. split; [now right|exact Hbq].
    + intros rest. cbn [app pages_and_cards]. rewrite Hp, Hc, Heq.
      now rewrite <- app_assoc.
Qed.

(** X18: a block whose page is made and written but whose card raises
    stops the run with that exception after its page has been written:
    the page is on disk, the blocks after it are not looked at (the run
    is the run of the listing that ends with this block), and the index is
    not rewritten (it is as it was unless one of the pages went to its
    path). *)
Theorem card_failure_leaves_page good bad rest st content s e page err :
  files st !! FILE = Some content ->
  search_lines_with_token (file_lines content) TOKEN = [s; e] ->
  Forall (fun block =>
            (exists p,
                block_page set_iter repr_float cwd block = Ok p
                /\ open_for_writing (fst p)
                     (snd (create_directory_if_not_exists DIRECTORY st)) = Ok tt)
            /\ raises (block_card repr_float block) = false) good ->
  block_page set_iter repr_float cwd bad = Ok page ->
  open_for_writing (fst page) (snd (create_directory_if_not_exists DIRECTORY st)) = Ok tt ->
  block_card repr_float bad = Raise err ->
  run set_iter repr_float cwd (good ++ bad :: rest) st
  = run set_iter repr_float cwd (good ++ [bad]) st
  /\ fst (run set_iter repr_float cwd (good ++ bad :: rest) st) = Raise err
  /\ files (snd (run set_iter repr_float cwd (good ++ bad :: rest) st)) !! fst page
     = Some (snd page)
  /\ (fst page <> FILE ->
      (forall block p,
         In block good -> block_page set_iter repr_float cwd block = Ok p ->
         fst p <> FILE) ->
      files (snd (run set_iter repr_float cwd (good ++ bad :: rest) st)) !! FILE
      = Some content).
Proof.
  intros Hfile Hsearch Hgood Hpage Hopen Hcard. rewrite <- token_lines_of_file in Hsearch.
  assert (Hgood' : Forall (fun block => raises (page_of block) = false
                                        /\ raises (card_of block) = false) good).
  { eapply List.Forall_impl; [|exact Hgood]. intros block [(p & -> & _) Hc]. auto. }
  destruct (plan_app good [] Hgood') as (pages & new_cards & Hpages & Hplan).
  assert (Heq : forall rest', plan (good ++ bad :: rest') [] = (pages ++ [page], Raise err)).
  { intros rest'. rewrite Hplan. cbn [pages_and_cards]. now rewrite Hpage, Hcard. }
  split; [apply run_by_plan; now rewrite !Heq|].
  specialize (Heq rest).
  assert (Hopens : Forall (fun p => open_for_writing (fst p)
                                      (snd (create_directory_if_not_exists DIRECTORY st))
                                    = Ok tt) (pages ++ [page])).
  { apply Forall_app. split; [|now constructor].
    apply List.Forall_forall. intros p Hp. destruct (Hpages p Hp) as (block & Hin & Hblock).
    rewrite List.Forall_forall in Hgood. destruct (Hgood block Hin) as [(p' & Hp' & Ho) _].
    rewrite Hblock in Hp'. now injection Hp' as <-. }
  assert (Hrun : run_on (good ++ bad :: rest) st
                 = (Raise err,
                    {| dirs := dirs (snd (create_directory_if_not_exists DIRECTORY st));
                       files := write_all (pages ++ [page]) (files st) |})).
  { unfold run.
    pose proof (create_directory_beside_index cwd st) as Hmade.
    pose proof (create_directory_files DIRECTORY st) as Hfiles.
    destruct (create_directory_if_not_exists DIRECTORY st) as [[[]|err'] st1];
      cbn [fst snd] in *; [|rewrite Hfile in Hmade; discriminate Hmade; eauto].
    rewrite regenerate_eq, Hfiles, Hfile. cbv zeta.
    rewrite Hsearch, Heq. cbn [fst snd]. rewrite (write_pages_ok _ _ Hopens).
    now rewrite Hfiles. }
  rewrite Hrun. cbn [fst snd files]. split; [reflexivity|].
  rewrite !lookup_write_all, !written_app, String.eqb_refl. split; [reflexivity|].
  intros Hne Hothers. apply String.eqb_neq in Hne. rewrite Hne.
  destruct (written pages FILE) as [text|] eqn:Hwritten; [|exact Hfile].
  apply written_in, Hpages in Hwritten. destruct Hwritten as (block & Hin & Hp).
  now elim (Hothers block _ Hin Hp).
Qed.

End PipelineFurther.

Lemma missing_index_aborts_witness :
  run (fun l => l) no_float "/w" [crop_block] without_index
  = (Raise FileNotFoundError,
     snd (create_directory_if_not_exists (BLOCK_DOCUMENTATION_DIRECTORY "/w") without_index))
  /\ files (snd (run (fun l => l) no_float "/w" [crop_block] without_index))
     = files without_index.
Proof.
  apply (missing_index_aborts (fun l => l) no_float "/w" [crop_block] without_index).
  - vm_compute. reflexivity.
  - vm_compute. reflexivity.
Defined.

(** Without the index but with a regular file where [docs] would be, the
    run ends at line 195, where the directory cannot be made. *)
Example missing_index_under_a_file :
  run (fun l => l) no_float "/w" [crop_block] docs_is_a_file
  = (Raise NotADirectoryError, docs_is_a_file).
Proof. vm_compute. reflexivity. Qed.

(** With a regular file where the pages directory would be, the first
    page cannot be written: the run ends there and the index is as it
    was. *)
Example page_under_a_file_is_not_written :
  run (fun l => l) no_float "/w" [crop_block] pages_directory_is_a_file
  = (Raise NotADirectoryError, pages_directory_is_a_file).
Proof. vm_compute. reflexivity. Qed.

Lemma run_touches_index_and_pages_witness :
  files (snd (run (fun l => l) no_float "/w" [crop_block] with_index_and_notes))
    !! "/w/notes.txt"
  = files with_index_and_notes !! "/w/notes.txt".
Proof.
  apply (run_touches_index_and_pages (fun l => l) no_float "/w" [crop_block]
           with_index_and_notes "/w/notes.txt").
  - intros H. vm_compute in H. discriminate H.
  - intros block page [<-|[]] Hpage H. vm_compute in Hpage. injection Hpage as <-.
    vm_compute in H. discriminate H.
Defined.

Lemma card_failure_leaves_page_witness :
  exists page,
    block_page (fun l => l) no_float "/w" lower_case_block = Ok page
    /\ run (fun l => l) no_float "/w" ([crop_block] ++ lower_case_block :: [crop_block])
         (with_index index_two_tokens)
       = run (fun l => l) no_float "/w" ([crop_block] ++ [lower_case_block])
           (with_index index_two_tokens)
    /\ fst (run (fun l => l) no_float "/w" ([crop_block] ++ lower_case_block :: [crop_block])
              (with_index index_two_tokens)) = Raise IndexError
    /\ files (snd (run (fun l => l) no_float "/w"
                     ([crop_block] ++ lower_case_block :: [crop_block])
                     (with_index index_two_tokens))) !! fst page = Some (snd page)
    /\ (fst page <> BLOCK_DOCUMENTATION_FILE "/w" ->
        (forall block p, In block [crop_block] ->
                         block_page (fun l => l) no_float "/w" block = Ok p ->
                         fst p <> BLOCK_DOCUMENTATION_FILE "/w") ->
        files (snd (run (fun l => l) no_float "/w"
                      ([crop_block] ++ lower_case_block :: [crop_block])
                      (with_index index_two_tokens))) !! BLOCK_DOCUMENTATION_FILE "/w"
        = Some index_two_tokens).
Proof.
  eexists. split; [vm_compute; reflexivity|].
  apply (card_failure_leaves_page (fun l => l) no_float "/w" [crop_block] lower_case_block
           [crop_block] (with_index index_two_tokens) index_two_tokens 1 3).
  - reflexivity.
  - vm_compute. reflexivity.
  - constructor; [|constructor]. split; [|vm_compute; reflexivity].
    eexists. split; vm_compute; reflexivity.
  - vm_compute. reflexivity.
  - vm_compute. reflexivity.
  - vm_compute. reflexivity.
Defined.

(** ** [take_static_crop], further *)

Lemma slice_length_bounds start stop n :
  (0 <= n -> 0 <= slice_length start stop n <= n)%Z.
Proof.
  unfold slice_length, slice_start.
  destruct (Z.ltb_spec stop 0), (Z.ltb_spec start 0); lia.
Qed.

Lemma slice_over_the_edge start extent n :
  (start < 0 <= start + extent -> extent <= n ->
   slice_length start (start + extent) n = 0)%Z.
Proof.
  unfold slice_length, slice_start. intros Hstart Hextent.
  destruct (Z.ltb_spec (start + extent) 0), (Z.ltb_spec start 0); lia.
Qed.

Section CropFurther.

Context {A : Type}.
Variables IMAGE_TYPE_KEY IMAGE_VALUE_KEY PARENT_ID_KEY ORIGIN_COORDINATES_KEY : string.
Variables LEFT_TOP_X_KEY LEFT_TOP_Y_KEY ORIGIN_SIZE_KEY : string.
Variable NUMPY_OBJECT : string.

(** The keys are different strings. *)
Hypothesis value_is_not_parent : IMAGE_VALUE_KEY <> PARENT_ID_KEY.
Hypothesis value_is_not_coordinates : IMAGE_VALUE_KEY <> ORIGIN_COORDINATES_KEY.

Local Abbreviation crop_of :=
  (take_static_crop IMAGE_TYPE_KEY IMAGE_VALUE_KEY PARENT_ID_KEY ORIGIN_COORDINATES_KEY
     LEFT_TOP_X_KEY LEFT_TOP_Y_KEY ORIGIN_SIZE_KEY NUMPY_OBJECT).

(** What a returned dict says about the run that made it. *)
Lemma take_static_crop_inv (image : ndarray A) x_center y_center width height
    origin_size image_parent crop :
  crop_of image x_center y_center width height origin_size image_parent = Ok crop ->
  exists rows columns others crop_width crop_height x_min y_min coordinates,
    shape image = rows :: columns :: others
    /\ (let* p := int_mul_float columns width in round_float p) = Ok crop_width
    /\ (let* p := int_mul_float rows height in round_float p) = Ok crop_height
    /\ claimed_left_top columns x_center width = Ok x_min
    /\ claimed_left_top rows y_center height = Ok y_min
    /\ crop !! IMAGE_VALUE_KEY
       = Some (VArray (crop_rows_columns image y_min (y_min + crop_height)
                         x_min (x_min + crop_width)))
    /\ crop !! ORIGIN_COORDINATES_KEY = Some (VCoordinates coordinates)
    /\ coordinates !! ORIGIN_SIZE_KEY = Some (CSize origin_size).
Proof.
  unfold take_static_crop.
  destruct (shape image) as [|rows [|columns others]] eqn:Hshape;
    cbn [tuple_getitem nth_error bind]; try discriminate.
  destruct (let* p := int_mul_float columns x_center in round_float p)
    as [cx|] eqn:Hcx; cbn [bind]; [|discriminate].
  destruct (let* p := int_mul_float rows y_center in round_float p)
    as [cy|] eqn:Hcy; cbn [bind]; [|discriminate].
  destruct (let* p := int_mul_float columns width in round_float p)
    as [w|] eqn:Hw; cbn [bind]; [|discriminate].
  destruct (let* p := int_mul_float rows height in round_float p)
    as [h|] eqn:Hh; cbn [bind]; [|discriminate].
  destruct (let* half := int_halved w in let* d := int_sub_float cx half in round_float d)
    as [x_min|] eqn:Hx; cbn [bind]; [|discriminate].
  destruct (let* half := int_halved h in let* d := int_sub_float cy half in round_float d)
    as [y_min|] eqn:Hy; cbn [bind]; [|discriminate].
  intros [= <-].
  exists rows, columns, others, w, h, x_min, y_min. eexists.
  split; [reflexivity|]. split; [exact Hw|]. split; [exact Hh|].
  split; [unfold claimed_left_top; rewrite Hcx, Hw; exact Hx|].
  split; [unfold claimed_left_top; rewrite Hcy, Hh; exact Hy|].
  split; [|split].
  - rewrite !lookup_insert_ne by congruence. apply lookup_insert_eq.
  - apply lookup_insert_eq.
  - apply lookup_insert_eq.
Qed.

(** X19: the image [take_static_crop] returns has the axes of the input
    image; its first two are not longer than the input's, and the others
    are kept.  The origin size is handed on as it came. *)
Theorem take_static_crop_image (image : ndarray A) x_center y_center width height
    origin_size image_parent crop :
  Forall (fun n => (0 <= n)%Z) (shape image) ->
  crop_of image x_center y_center width height origin_size image_parent = Ok crop ->
  exists rows columns others cropped crop_rows crop_columns coordinates,
    shape image = rows :: columns :: others
    /\ crop !! IMAGE_VALUE_KEY = Some (VArray cropped)
    /\ shape cropped = crop_rows :: crop_columns :: others
    /\ (0 <= crop_rows <= rows)%Z
    /\ (0 <= crop_columns <= columns)%Z
    /\ crop !! ORIGIN_COORDINATES_KEY = Some (VCoordinates coordinates)
    /\ coordinates !! ORIGIN_SIZE_KEY = Some (CSize origin_size).
Proof.
  intros Hpositive Hcrop.
  destruct (take_static_crop_inv _ _ _ _ _ _ _ _ Hcrop)
    as (rows & columns & others & w & h & x_min & y_min & coordinates
        & Hshape & _ & _ & _ & _ & Hvalue & Hcoordinates & Hsize).
  rewrite Hshape in Hpositive.
  apply Forall_cons_iff in Hpositive as [Hrows Hpositive].
  apply Forall_cons_iff in Hpositive as [Hcolumns _].
  exists rows, columns, others. eexists. eexists. eexists. exists coordinates.
  split; [exact Hshape|]. split; [exact Hvalue|].
  split; [unfold crop_rows_columns; rewrite Hshape; reflexivity|].
  split; [now apply slice_length_bounds|]. split; [now apply slice_length_bounds|].
  split; assumption.
Qed.

Hypothesis x_is_not_y : LEFT_TOP_X_KEY <> LEFT_TOP_Y_KEY.
Hypothesis x_is_not_size : LEFT_TOP_X_KEY <> ORIGIN_SIZE_KEY.

(** The left-top x a returned dict reports. *)
Lemma take_static_crop_left_top_x (image : ndarray A) x_center y_center width height
    origin_size image_parent rows columns others x_min crop :
  shape image = rows :: columns :: others ->
  claimed_left_top columns x_center width = Ok x_min ->
  crop_of image x_center y_center width height origin_size image_parent = Ok crop ->
  exists coordinates,
    crop !! ORIGIN_COORDINATES_KEY = Some (VCoordinates coordinates)
    /\ coordinates !! LEFT_TOP_X_KEY = Some (CInt x_min).
Proof.
  intros Hshape Hleft. unfold take_static_crop, claimed_left_top in *. rewrite Hshape.
  cbn [tuple_getitem nth_error bind].
  destruct (let* p := int_mul_float columns x_center in round_float p)
    as [cx|]; cbn [bind] in *; [|discriminate].
  destruct (let* p := int_mul_float rows y_center in round_float p)
    as [cy|]; cbn [bind]; [|discriminate].
  destruct (let* p := int_mul_float columns width in round_float p)
    as [w|]; cbn [bind] in *; [|discriminate].
  destruct (let* p := int_mul_float rows height in round_float p)
    as [h|]; cbn [bind]; [|discriminate].
  rewrite Hleft. cbn [bind].
  destruct (let* half := int_halved h in let* d := int_sub_float cy half in round_float d)
    as [y_min|]; cbn [bind]; [|discriminate].
  intros [= <-]. eexists. split; [apply lookup_insert_eq|].
  rewrite !lookup_insert_ne by congruence. apply lookup_insert_eq.
Qed.

(** X20: a crop box that reaches over the left edge of the image is not
    clipped to the image.  When the left-top x is negative (and the box
    is no wider than the image and ends inside it), the slice counts the
    negative bound from the right edge, and the returned image has no
    column at all, while the left-top x the dict reports is that negative
    number. *)
Theorem crop_over_left_edge_is_empty (image : ndarray A) x_center y_center width height
    origin_size image_parent rows columns others crop_width x_min crop :
  shape image = rows :: columns :: others ->
  (let* p := int_mul_float columns width in round_float p) = Ok crop_width ->
  claimed_left_top columns x_center width = Ok x_min ->
  (x_min < 0 <= x_min + crop_width)%Z ->
  (crop_width <= columns)%Z ->
  crop_of image x_center y_center width height origin_size image_parent = Ok crop ->
  exists cropped coordinates,
    crop !! IMAGE_VALUE_KEY = Some (VArray cropped)
    /\ nth_error (shape cropped) 1 = Some 0%Z
    /\ crop !! ORIGIN_COORDINATES_KEY = Some (VCoordinates coordinates)
    /\ coordinates !! LEFT_TOP_X_KEY = Some (CInt x_min)
    /\ (x_min < 0)%Z.
Proof.
  intros Hshape Hwidth Hleft Hover Hfits Hcrop.
  destruct (take_static_crop_left_top_x _ _ _ _ _ _ _ _ _ _ _ _ Hshape Hleft Hcrop)
    as (coordinates & Hcoordinates & Hx_min).
  destruct (take_static_crop_inv _ _ _ _ _ _ _ _ Hcrop)
    as (rows' & columns' & others' & w & h & x_min' & y_min & coordinates'
        & Hshape' & Hw & _ & Hx & _ & Hvalue & _).
  rewrite Hshape in Hshape'. injection Hshape' as <- <- <-.
  rewrite Hwidth in Hw. injection Hw as <-. rewrite Hleft in Hx. injection Hx as <-.
  eexists. exists coordinates. split; [exact Hvalue|].
  split; [|split; [exact Hcoordinates|split; [exact Hx_min|lia]]].
  unfold crop_rows_columns. rewrite Hshape. cbn [shape nth_error]. f_equal.
  now apply slice_over_the_edge.
Qed.

End CropFurther.

Lemma take_static_crop_image_witness :
  exists crop,
    take_static_crop "type" "value" "parent_id" "origin_coordinates"
      "left_top_x" "left_top_y" "origin_image_size" "numpy_object"
      small_image one_half one_half one_quarter one_quarter JNull "image" = Ok crop
    /\ exists rows columns others cropped crop_rows crop_columns coordinates,
         shape small_image = rows :: columns :: others
         /\ crop !! "value" = Some (VArray cropped)
         /\ shape cropped = crop_rows :: crop_columns :: others
         /\ (0 <= crop_rows <= rows)%Z
         /\ (0 <= crop_columns <= columns)%Z
         /\ crop !! "origin_coordinates" = Some (VCoordinates coordinates)
         /\ coordinates !! "origin_image_size" = Some (CSize JNull).
Proof.
  eexists. split; [vm_compute; reflexivity|].
  apply (take_static_crop_image "type" "value" "parent_id" "origin_coordinates"
           "left_top_x" "left_top_y" "origin_image_size" "numpy_object")
    with (image := small_image) (x_center := one_half) (y_center := one_half)
         (width := one_quarter) (height := one_quarter) (image_parent := "image").
  - discriminate.
  - discriminate.
  - repeat constructor; discriminate.
  - vm_compute. reflexivity.
Defined.

Lemma crop_over_left_edge_is_empty_witness :
  exists crop,
    take_static_crop "type" "value" "parent_id" "origin_coordinates"
      "left_top_x" "left_top_y" "origin_image_size" "numpy_object"
      small_image one_eighth one_half one_half one_quarter JNull "image" = Ok crop
    /\ claimed_left_top 640 one_eighth one_half = Ok (-80)%Z
    /\ exists cropped coordinates,
         crop !! "value" = Some (VArray cropped)
         /\ nth_error (shape cropped) 1 = Some 0%Z
         /\ crop !! "origin_coordinates" = Some (VCoordinates coordinates)
         /\ coordinates !! "left_top_x" = Some (CInt (-80)%Z)
         /\ (-80 < 0)%Z.
Proof.
  eexists. split; [vm_compute; reflexivity|]. split; [vm_compute; reflexivity|].
  apply (crop_over_left_edge_is_empty "type" "value" "parent_id" "origin_coordinates"
           "left_top_x" "left_top_y" "origin_image_size" "numpy_object")
    with (image := small_image) (x_center := one_eighth) (y_center := one_half)
         (width := one_half) (height := one_quarter) (origin_size := JNull)
         (image_parent := "image") (rows := 480%Z) (columns := 640%Z) (others := [3%Z])
         (crop_width := 320%Z).
  - discriminate.
  - discriminate.
  - discriminate.
  - discriminate.
  - reflexivity.
  - vm_compute. reflexivity.
  - vm_compute. reflexivity.
  - lia.
  - lia.
  - vm_compute. reflexivity.
Defined.

(** ** The table of outputs *)

Lemma is_newline_eqb c : Ascii.eqb c (ascii_of_nat 10) = is_newline c.
Proof. destruct c as [[] [] [] [] [] [] [] []]; reflexivity. Qed.

Lemma split_on_clean x :
  no_newline x = true -> split_on (ascii_of_nat 10) x = [x].
Proof.
  unfold no_newline. induction x as [|a x IH]; [reflexivity|].
  cbn [list_ascii_of_string forallb split_on]. intros H.
  apply andb_true_iff in H as [Ha Hx]. rewrite is_newline_eqb.
  apply negb_true_iff in Ha. rewrite Ha, (IH Hx). reflexivity.
Qed.

Lemma split_on_line x s :
  no_newline x = true ->
  split_on (ascii_of_nat 10) (x +:+ nl +:+ s) = x :: split_on (ascii_of_nat 10) s.
Proof.
  unfold no_newline. induction x as [|a x IH].
  - intros _. rewrite append_nil. unfold nl. rewrite append_cons, append_nil.
    cbn [split_on]. now rewrite Ascii.eqb_refl.
  - cbn [list_ascii_of_string forallb]. intros H.
    apply andb_true_iff in H as [Ha Hx]. rewrite append_cons. cbn [split_on].
    rewrite is_newline_eqb. apply negb_true_iff in Ha. rewrite Ha, (IH Hx). reflexivity.
Qed.

Lemma split_on_join lines :
  lines <> [] ->
  forallb no_newline lines = true ->
  split_on (ascii_of_nat 10) (join nl lines) = lines.
Proof.
  unfold join. induction lines as [|x lines IH]; [congruence|]. intros _.
  cbn [forallb]. intros H. apply andb_true_iff in H as [Hx Hlines].
  destruct lines as [|y lines]; [now apply split_on_clean|].
  rewrite concat_cons, (split_on_line _ _ Hx), IH; [reflexivity|discriminate|exact Hlines].
Qed.

Lemma no_newline_append a b : no_newline (a +:+ b) = no_newline a && no_newline b.
Proof. unfold no_newline. now rewrite list_of_append, forallb_app. Qed.

Lemma no_newline_join sep l :
  no_newline sep = true -> forallb no_newline l = true -> no_newline (join sep l) = true.
Proof.
  intros Hsep. unfold join. induction l as [|x l IH]; [reflexivity|].
  cbn [forallb]. intros H. apply andb_true_iff in H as [Hx Hl].
  destruct l as [|y l]; [exact Hx|].
  rewrite concat_cons, !no_newline_append, Hx, Hsep, (IH Hl). reflexivity.
Qed.

Lemma forallb_of_map {A B : Type} (p : B -> bool) (f : A -> B) l :
  forallb p (map f l) = forallb (fun x => p (f x)) l.
Proof. induction l as [|x l IH]; [reflexivity|]. cbn [map forallb]. now rewrite IH. Qed.

Lemma output_row_no_newline output :
  plain_output output = true -> no_newline (output_row output) = true.
Proof.
  unfold plain_output. intros H. apply andb_true_iff in H as [Hname Hkinds].
  assert (Hunion :
    no_newline
      ("| `" +:+ output_name output +:+ "` | `Union["
       +:+ join ", " (map kind_name (output_kind output)) +:+ "]` | "
       +:+ join " or " (map (fun k => kind_description k +:+ " if `" +:+ kind_name k +:+ "`")
                          (output_kind output)) +:+ ". |") = true).
  { rewrite !no_newline_append, Hname. cbn [andb].
    rewrite !no_newline_join; try reflexivity.
    - rewrite forallb_of_map. eapply forallb_weaken; [|exact Hkinds].
      intros k Hk. apply andb_true_iff in Hk as [Hn Hd].
      now rewrite !no_newline_append, Hn, Hd.
    - rewrite forallb_of_map. eapply forallb_weaken; [|exact Hkinds].
      intros k Hk. now apply andb_true_iff in Hk as [Hn _]. }
  unfold output_row. destruct (output_kind output) as [|k [|k' kinds]]; try exact Hunion.
  cbn [forallb] in Hkinds. rewrite andb_true_r in Hkinds.
  apply andb_true_iff in Hkinds as [Hn Hd].
  rewrite !no_newline_append, Hname, Hn, Hd. reflexivity.
Qed.

(** X21: in the table [format_block_outputs] returns every output takes
    one line: when no name, kind name or kind description holds a
    newline, the lines of the table are the two header lines and then one
    row for each output, in the order of the listing. *)
Theorem format_block_outputs_lines outputs :
  forallb plain_output outputs = true ->
  split_on (ascii_of_nat 10) (format_block_outputs outputs)
  = BLOCK_OUTPUTS_HEADER ++ map output_row outputs.
Proof.
  intros Hplain. unfold format_block_outputs. apply split_on_join; [discriminate|].
  rewrite forallb_app, forallb_of_map. apply andb_true_iff. split; [reflexivity|].
  eapply forallb_weaken; [|exact Hplain]. intros output. apply output_row_no_newline.
Qed.

Lemma format_block_outputs_lines_witness :
  split_on (ascii_of_nat 10) (format_block_outputs (outputs_manifest crop_block))
  = BLOCK_OUTPUTS_HEADER ++ map output_row (outputs_manifest crop_block).
Proof.
  apply (format_block_outputs_lines (outputs_manifest crop_block)). reflexivity.
Defined.

(** ** The names [create_array_typing] gives *)

Lemma create_array_typing_body_pair self d t_name ref_appears :
  create_array_typing_body self d = Ok (ReturnedPair t_name ref_appears) ->
  exists kvs items inner,
    d = JDict kvs
    /\ dict_lookup "items" kvs = Some items
    /\ t_name = (if is_True (match dict_lookup "uniqueItems" kvs with
                             | Some unique => unique
                             | None => JBool false
                             end)
                 then "Set" else "List") +:+ "[" +:+ inner +:+ "]"
    /\ (ref_appears = true -> contains "reference" items = Ok true).
Proof.
  unfold create_array_typing_body. destruct d as [| | | | | |kvs]; try discriminate.
  assert (Hget : get (JDict kvs) "uniqueItems" (JBool false)
                 = Ok (match dict_lookup "uniqueItems" kvs with
                       | Some unique => unique
                       | None => JBool false
                       end))
    by (cbn [get]; destruct (dict_lookup "uniqueItems" kvs); reflexivity).
  rewrite Hget. cbn [bind getitem].
  destruct (dict_lookup "items" kvs) as [items|] eqn:Hitems; cbn [bind]; [|discriminate].
  destruct (len items) as [n|]; cbn [bind]; [|discriminate].
  destruct (n =? 0)%nat; cbv iota.
  { intros [= <- <-]. exists kvs, items, "Any".
    split; [reflexivity|]. split; [exact Hitems|]. split; [reflexivity|discriminate]. }
  destruct (contains "type" items) as [[|]|]; cbn [bind]; try discriminate.
  destruct (contains "reference" items) as [has_reference|] eqn:Href; cbn [bind];
    [|discriminate].
  destruct (getitem items "type") as [ty|]; cbn [bind]; [|discriminate].
  destruct (contains "$ref" ty) as [is_ref|]; cbn [bind]; [|discriminate].
  match goal with
  | |- bind ?m _ = _ -> _ => destruct m as [inner|]; cbn [bind]; [|discriminate]
  end.
  intros [= <- <-]. exists kvs, items, inner.
  split; [reflexivity|]. split; [exact Hitems|]. split; [reflexivity|].
  destruct has_reference; [intros _; exact Href|discriminate].
Qed.

(** X22: when [create_array_typing] returns a pair, the schema is a
    mapping with an "items" entry and the name is List[...] or Set[...]:
    Set[...] exactly when "uniqueItems" is the boolean [True] (not 1, not
    a string), List[...] otherwise.  The flag is raised only when the
    items carry a "reference" key. *)
Theorem create_array_typing_name d t_name ref_appears :
  create_array_typing d = Ok (ReturnedPair t_name ref_appears) ->
  exists kvs items inner,
    d = JDict kvs
    /\ dict_lookup "items" kvs = Some items
    /\ ((dict_lookup "uniqueItems" kvs = Some (JBool true)
         /\ t_name = "Set[" +:+ inner +:+ "]")
        \/ (dict_lookup "uniqueItems" kvs <> Some (JBool true)
            /\ t_name = "List[" +:+ inner +:+ "]"))
    /\ (ref_appears = true -> contains "reference" items = Ok true).
Proof.
  unfold create_array_typing. cbn [create_array_typing_fuel]. intros H.
  apply create_array_typing_body_pair in H.
  destruct H as (kvs & items & inner & -> & Hitems & -> & Href).
  exists kvs, items, inner. split; [reflexivity|]. split; [exact Hitems|].
  split; [|exact Href].
  destruct (dict_lookup "uniqueItems" kvs) as [[| [|] | | | | |]|];
    cbn [is_True]; ((left; split; reflexivity) || (right; split; [discriminate|reflexivity])).
Qed.

Lemma create_array_typing_name_witness :
  exists kvs items inner,
    JDict [("type", JStr "array"); ("uniqueItems", JNum 1);
           ("items", JDict [("type", JStr "integer")])] = JDict kvs
    /\ dict_lookup "items" kvs = Some items
    /\ ((dict_lookup "uniqueItems" kvs = Some (JBool true)
         /\ "List[int]" = "Set[" +:+ inner +:+ "]")
        \/ (dict_lookup "uniqueItems" kvs <> Some (JBool true)
            /\ "List[int]" = "List[" +:+ inner +:+ "]"))
    /\ (false = true -> contains "reference" items = Ok true).
Proof.
  apply (create_array_typing_name
           (JDict [("type", JStr "array"); ("uniqueItems", JNum 1);
                   ("items", JDict [("type", JStr "integer")])]) "List[int]" false).
  reflexivity.
Defined.
